(** * flask-secure-mvc: controllers, middleware and token handling

    A shallow embedding of [controllers/auth_controller.py],
    [controllers/task_controller.py], [middleware/auth_middleware.py],
    [routes/*.py] and [config.py].

    Conventions of the embedding:
    - a handler is a function of the request, the clock reading [now] and the
      document store, returning the HTTP response and the store it leaves;
    - a Python exception is a value [Raise e]; every handler body runs in the
      state-and-exception monad [M] and the handler's [try/except Exception]
      is the combinator [try_except];
    - strings are ASCII: [str.lower], [str.strip] and [len] are modelled on
      bytes;
    - [datetime] values are seconds from the epoch (a [Z]), with the range
      of years 1 to 9999 outside which [datetime] arithmetic raises; one
      request reads one clock value;
    - a [<task_id>] path segment is the text of an ObjectId or a string that
      is none ([path_id]);
    - JWT (HS256) is modelled symbolically: a token is either a claim set
      signed under a key, or an arbitrary string that carries no signature. *)

From Stdlib Require Import ZArith List String Ascii Bool Lia DecimalString.
Import ListNotations.

Open Scope string_scope.
Open Scope Z_scope.

(* ------------------------------------------------------------------ *)
(** ** Python values and exceptions *)

(** A value found in a decoded JSON object.  The code only ever looks at the
    truth value, the type and the length of a nested container, so a list or
    dict value is kept as its length. *)
Inductive pyval : Type :=
| VNone
| VBool (b : bool)
| VNum (z : Z)
| VStr (s : string)
| VList (n : nat)
| VDict (n : nat).

Definition type_name (v : pyval) : string :=
  match v with
  | VNone => "NoneType"
  | VBool _ => "bool"
  | VNum _ => "int"
  | VStr _ => "str"
  | VList _ => "list"
  | VDict _ => "dict"
  end.

(** Python truth value ([if v:] / [not v]). *)
Definition truthy (v : pyval) : bool :=
  match v with
  | VNone => false
  | VBool b => b
  | VNum z => negb (z =? 0)
  | VStr s => negb (s =? "")%string
  | VList n => negb (Nat.eqb n 0)
  | VDict n => negb (Nat.eqb n 0)
  end.

(** A raised exception: its class and [str(e)]. *)
Record exn : Type := mkExn { exn_class : string; exn_str : string }.

Inductive result (A : Type) : Type :=
| Ok (a : A)
| Raise (e : exn).
Arguments Ok {A} a.
Arguments Raise {A} e.

(** Sequencing of computations that may raise. *)
Definition rbind {A B : Type} (r : result A) (k : A -> result B) : result B :=
  match r with
  | Ok a => k a
  | Raise e => Raise e
  end.

Notation "x <~ r ;; k" := (rbind r (fun x => k))
  (at level 61, r at next level, right associativity).

Definition AttributeError (v : pyval) (attr : string) : exn :=
  mkExn "AttributeError"
        ("'" ++ type_name v ++ "' object has no attribute '" ++ attr ++ "'").

Definition TypeError_len (v : pyval) : exn :=
  mkExn "TypeError" ("object of type '" ++ type_name v ++ "' has no len()").

Definition TypeError_not_iterable (v : pyval) : exn :=
  mkExn "TypeError" ("argument of type '" ++ type_name v ++ "' is not iterable").

Definition KeyError (k : string) : exn := mkExn "KeyError" ("'" ++ k ++ "'").

Definition ZeroDivisionError : exn :=
  mkExn "ZeroDivisionError" "integer division or modulo by zero".

Definition ValueError_int (s : string) : exn :=
  mkExn "ValueError" ("invalid literal for int() with base 10: '" ++ s ++ "'").

(* ------------------------------------------------------------------ *)
(** ** String primitives *)

Definition is_space (c : ascii) : bool :=
  let n := nat_of_ascii c in
  (Nat.eqb n 32 || (Nat.leb 9 n && Nat.leb n 13) || (Nat.leb 28 n && Nat.leb n 31))%bool.

Definition lower_ascii (c : ascii) : ascii :=
  let n := nat_of_ascii c in
  if (Nat.leb 65 n && Nat.leb n 90)%bool then ascii_of_nat (n + 32) else c.

(** [str.lower()] *)
Fixpoint lower (s : string) : string :=
  match s with
  | EmptyString => EmptyString
  | String c r => String (lower_ascii c) (lower r)
  end.

Fixpoint lstrip (s : string) : string :=
  match s with
  | EmptyString => EmptyString
  | String c r => if is_space c then lstrip r else s
  end.

Fixpoint rstrip (s : string) : string :=
  match s with
  | EmptyString => EmptyString
  | String c r =>
      match rstrip r with
      | EmptyString => if is_space c then EmptyString else String c EmptyString
      | r' => String c r'
      end
  end.

(** [str.strip()] *)
Definition strip (s : string) : string := rstrip (lstrip s).

Definition len_str (s : string) : Z := Z.of_nat (String.length s).

Definition digit_of (c : ascii) : option Z :=
  let n := nat_of_ascii c in
  if (Nat.leb 48 n && Nat.leb n 57)%bool then Some (Z.of_nat (n - 48)) else None.

(** Digits of a decimal literal; a single underscore may separate two digits. *)
Fixpoint parse_digits (acc : Z) (after_digit : bool) (s : string) : option Z :=
  match s with
  | EmptyString => if after_digit then Some acc else None
  | String c r =>
      match digit_of c with
      | Some d => parse_digits (10 * acc + d) true r
      | None =>
          if (Ascii.eqb c "_" && after_digit)%bool
          then parse_digits acc false r
          else None
      end
  end.

(** The whitespace [int()] skips around a literal: the space and the
    characters 9 to 13 (the separators 28 to 31, which [str.strip] removes,
    are refused). *)
Definition is_int_space (c : ascii) : bool :=
  let n := nat_of_ascii c in
  (Nat.eqb n 32 || (Nat.leb 9 n && Nat.leb n 13))%bool.

Fixpoint skip_int_space (s : string) : string :=
  match s with
  | EmptyString => EmptyString
  | String c r => if is_int_space c then skip_int_space r else s
  end.

Fixpoint drop_int_space (s : string) : string :=
  match s with
  | EmptyString => EmptyString
  | String c r =>
      match drop_int_space r with
      | EmptyString => if is_int_space c then EmptyString else String c EmptyString
      | r' => String c r'
      end
  end.

(** [int(s)] on a string; [None] stands for [ValueError]. *)
Definition int_of_string (s : string) : option Z :=
  match drop_int_space (skip_int_space s) with
  | String "+" r => parse_digits 0 false r
  | String "-" r => option_map Z.opp (parse_digits 0 false r)
  | t => parse_digits 0 false t
  end.

Definition py_int (s : string) : result Z :=
  match int_of_string s with
  | Some z => Ok z
  | None => Raise (ValueError_int s)
  end.

(** [a // b] on Python ints (floor division, as [Z.div]). *)
Definition py_floordiv (a b : Z) : result Z :=
  if b =? 0 then Raise ZeroDivisionError else Ok (a / b).

(* ------------------------------------------------------------------ *)
(** ** Dictionaries (decoded JSON objects, query strings) *)

Definition dict (V : Type) : Type := list (string * V).

Fixpoint dict_find {V : Type} (d : dict V) (k : string) : option V :=
  match d with
  | [] => None
  | (k', v) :: r => if (k' =? k)%string then Some v else dict_find r k
  end.

(** [k in d] *)
Definition dict_mem {V : Type} (d : dict V) (k : string) : bool :=
  match dict_find d k with Some _ => true | None => false end.

(** [d.get(k)] *)
Definition dict_get (d : dict pyval) (k : string) : pyval :=
  match dict_find d k with Some v => v | None => VNone end.

(** [d.get(k, default)] *)
Definition dict_get_default {V : Type} (d : dict V) (k : string) (dflt : V) : V :=
  match dict_find d k with Some v => v | None => dflt end.

(** [d[k]] *)
Definition dict_item (d : dict pyval) (k : string) : result pyval :=
  match dict_find d k with Some v => Ok v | None => Raise (KeyError k) end.

(** The value of [request.get_json()]: a JSON object, or [None] for the JSON
    literal [null]. *)
Definition json_body : Type := option (dict pyval).

(** [data.get(k)] where [data] is what [request.get_json()] returned. *)
Definition data_get (data : json_body) (k : string) : result pyval :=
  match data with
  | Some d => Ok (dict_get d k)
  | None => Raise (AttributeError VNone "get")
  end.

Definition data_get_default (data : json_body) (k : string) (dflt : pyval) : result pyval :=
  match data with
  | Some d => Ok (dict_get_default d k dflt)
  | None => Raise (AttributeError VNone "get")
  end.

(** [data[k]] *)
Definition data_item (data : json_body) (k : string) : result pyval :=
  match data with
  | Some d => dict_item d k
  | None => Raise (mkExn "TypeError" "'NoneType' object is not subscriptable")
  end.

(** [k in data] *)
Definition data_mem (data : json_body) (k : string) : result bool :=
  match data with
  | Some d => Ok (dict_mem d k)
  | None => Raise (TypeError_not_iterable VNone)
  end.

(** [v.strip()] *)
Definition py_strip (v : pyval) : result string :=
  match v with
  | VStr s => Ok (strip s)
  | _ => Raise (AttributeError v "strip")
  end.

(** [v.lower()] *)
Definition py_lower (v : pyval) : result string :=
  match v with
  | VStr s => Ok (lower s)
  | _ => Raise (AttributeError v "lower")
  end.

(** [len(v)] *)
Definition py_len (v : pyval) : result Z :=
  match v with
  | VStr s => Ok (len_str s)
  | VList n => Ok (Z.of_nat n)
  | VDict n => Ok (Z.of_nat n)
  | _ => Raise (TypeError_len v)
  end.

(** [v == lit] for a string literal. *)
Definition eq_str (v : pyval) (lit : string) : bool :=
  match v with
  | VStr s => (s =? lit)%string
  | _ => false
  end.

(* ------------------------------------------------------------------ *)
(** ** Configuration ([config.py]) *)

Record Config : Type := mkConfig {
  JWT_SECRET_KEY : string;
  JWT_ACCESS_TOKEN_EXPIRES : Z;
  JWT_COOKIE_SECURE : bool;
  JWT_COOKIE_HTTPONLY : bool;
  JWT_COOKIE_SAMESITE : string
}.

(** [os.environ.get(k) or dflt] *)
Definition env_or (env : dict string) (k dflt : string) : string :=
  match dict_find env k with
  | Some v => if (v =? "")%string then dflt else v
  | None => dflt
  end.

(** The JWT and cookie settings of class [Config], read from the process
    environment. *)
Definition load_config (env : dict string) : result Config :=
  ttl <~ match dict_find env "JWT_ACCESS_TOKEN_EXPIRES" with
         | Some v => py_int v
         | None => Ok 3600
         end ;;
  Ok {| JWT_SECRET_KEY := env_or env "JWT_SECRET_KEY" "jwt-secret-change-in-production";
        JWT_ACCESS_TOKEN_EXPIRES := ttl;
        JWT_COOKIE_SECURE :=
          (lower (dict_get_default env "JWT_COOKIE_SECURE" "False") =? "true")%string;
        JWT_COOKIE_HTTPONLY := true;
        JWT_COOKIE_SAMESITE := "Lax" |}.

(* ------------------------------------------------------------------ *)
(** ** Documents and the store *)

(** A document id as the store assigns it. *)
Definition ObjectId : Type := N.

(** The [<task_id>] segment of a route path, as a query on [id] reads it: the
    text of the ObjectId [i], or a string that is the text of none. *)
Inductive path_id : Type :=
| OidText (i : N)
| NotAnOid (raw : string).

Coercion OidText : N >-> path_id.

(** Modelled from the spec: [models/user.py] is missing; the fields are those
    of the spec's User entity and those the controllers read and write. *)
Record User : Type := mkUser {
  user_id : ObjectId;
  username : string;
  email : string;
  name : string;
  password_hash : string;
  role : string;
  is_active : bool;
  user_created_at : Z;
  user_updated_at : Z
}.

(** Modelled from the spec: [models/task.py] is missing; the fields are those
    of the spec's Task entity and those the controllers read and write.
    [task_user] is the owner reference. *)
Record Task : Type := mkTask {
  task_id : ObjectId;
  title : string;
  description : string;
  task_user : ObjectId;
  status : string;
  priority : string;
  due_date : option Z;
  created_at : Z;
  updated_at : Z;
  completed_at : option Z
}.

(** The two collections, in insertion order, and the next id to hand out. *)
Record Store : Type := mkStore {
  users : list User;
  tasks : list Task;
  next_id : N
}.

Definition role_choices : list string := ["user"; "admin"].
Definition status_choices : list string := ["pending"; "in_progress"; "completed"; "cancelled"].
Definition priority_choices : list string := ["low"; "medium"; "high"; "urgent"].

Definition in_choices (s : string) (choices : list string) : bool :=
  existsb (String.eqb s) choices.

(* ------------------------------------------------------------------ *)
(** ** Tokens (PyJWT, HS256), symbolically *)

(** The payload [generate_token] builds. *)
Record claims : Type := mkClaims {
  claim_user_id : ObjectId;
  claim_username : string;
  claim_email : string;
  claim_role : string;
  claim_exp : Z;
  claim_iat : Z
}.

(** A token string: a payload with an HS256 signature made with [key], or a
    string that is no signed payload at all (the empty string included).  A
    signed payload has the six claims [generate_token] writes: whoever signs
    with the server's key is taken to be the server. *)
Inductive token : Type :=
| Signed (key : string) (payload : claims)
| Unsigned (raw : string).

Definition jwt_encode (payload : claims) (key : string) : token := Signed key payload.

Inductive decode_outcome : Type :=
| Decoded (payload : claims)
| ExpiredSignatureError
| InvalidTokenError.

(** [jwt.decode(token, key, algorithms=['HS256'])] at clock reading [now]:
    the signature is checked first, then the [iat] claim (a token issued
    later than the clock raises [ImmatureSignatureError], a subclass of
    [InvalidTokenError]), then the [exp] claim. *)
Definition jwt_decode (t : token) (key : string) (now : Z) : decode_outcome :=
  match t with
  | Signed k payload =>
      if (k =? key)%string
      then
        if now <? claim_iat payload then InvalidTokenError
        else if claim_exp payload <=? now then ExpiredSignatureError
        else Decoded payload
      else InvalidTokenError
  | Unsigned _ => InvalidTokenError
  end.

Definition signature_valid (t : token) (key : string) : Prop :=
  exists payload, t = Signed key payload.

Definition unexpired (t : token) (now : Z) : Prop :=
  match t with
  | Signed _ payload => now < claim_exp payload
  | Unsigned _ => False
  end.

Definition subject (t : token) : option ObjectId :=
  match t with
  | Signed _ payload => Some (claim_user_id payload)
  | Unsigned _ => None
  end.

(** [not token] for a cookie value. *)
Definition token_falsy (t : option token) : bool :=
  match t with
  | None => true
  | Some (Unsigned raw) => (raw =? "")%string
  | Some (Signed _ _) => false
  end.

(* ------------------------------------------------------------------ *)
(** ** Requests and responses *)

#[warnings="-register-all"]
Inductive json : Type :=
| JNull
| JStr (s : string)
| JInt (z : Z)
| JBool (b : bool)
| JOid (i : ObjectId)          (* str(doc.id) *)
| JTime (t : Z)                (* dt.isoformat() *)
| JTok (t : token)             (* the token string *)
| JObj (fields : list (string * json))
| JArr (items : list json).

Record cookie : Type := mkCookie {
  cookie_name : string;
  cookie_value : token;
  cookie_max_age : Z;
  cookie_httponly : bool;
  cookie_secure : bool;
  cookie_samesite : string
}.

Record response : Type := mkResponse {
  status_code : Z;
  body : json;
  set_cookie : option cookie
}.

(** [jsonify(obj), code] *)
Definition jsonify (obj : list (string * json)) (code : Z) : response :=
  mkResponse code (JObj obj) None.

Record request : Type := mkRequest {
  cookie_auth_token : option token;   (* request.cookies.get('auth_token') *)
  get_json : json_body;               (* request.get_json() *)
  args : dict string;                 (* request.args *)
  current_user : option User          (* getattr(request, 'current_user', None) *)
}.

Definition with_current_user (req : request) (u : User) : request :=
  mkRequest (cookie_auth_token req) (get_json req) (args req) (Some u).

Definition opt_time (t : option Z) : json :=
  match t with Some z => JTime z | None => JNull end.

(* ------------------------------------------------------------------ *)
(** ** The handler monad: store state and exceptions *)

Definition M (A : Type) : Type := Store -> result A * Store.

Definition ret {A : Type} (a : A) : M A := fun s => (Ok a, s).

Definition raise {A : Type} (e : exn) : M A := fun s => (Raise e, s).

Definition bind {A B : Type} (m : M A) (k : A -> M B) : M B :=
  fun s =>
    match m s with
    | (Ok a, s') => k a s'
    | (Raise e, s') => (Raise e, s')
    end.

Definition lift {A : Type} (r : result A) : M A := fun s => (r, s).

Definition get_store : M Store := fun s => (Ok s, s).

Definition put_store (s' : Store) : M unit := fun _ => (Ok tt, s').

Notation "x <- m ;; k" := (bind m (fun x => k))
  (at level 61, m at next level, right associativity).
Notation "m ;;; k" := (bind m (fun _ => k))
  (at level 61, right associativity).

(** [try: <body> except Exception as e: return jsonify({'error': label,
    'details': str(e)}), 500] *)
Definition try_except (label : string) (body_ : M response) : Store -> response * Store :=
  fun s =>
    match body_ s with
    | (Ok r, s') => (r, s')
    | (Raise e, s') =>
        (jsonify [("error", JStr label); ("details", JStr (exn_str e))] 500, s')
    end.

(** Early [return] inside a handler body: a step either goes on with a value
    or leaves the handler with a response. *)
Inductive flow (A : Type) : Type :=
| Next (a : A)
| Return (r : response).
Arguments Next {A} a.
Arguments Return {A} r.

Definition and_then {A : Type} (m : M (flow A)) (k : A -> M response) : M response :=
  bind m (fun x => match x with Next a => k a | Return r => ret r end).

Notation "x <-? m ;; k" := (and_then m (fun x => k))
  (at level 61, m at next level, right associativity).

(** A handler as a route calls it. *)
Definition handler : Type := request -> Z -> Store -> response * Store.

(* ------------------------------------------------------------------ *)
(** ** What the controllers call but the sources do not define *)

(** Library functions and the declarations of the two missing model files.
    - [generate_password_hash], [check_password_hash]: the salted one-way hash
      behind [User.set_password] and [User.check_password];
    - [user_validate], [task_validate]: the field validation the document
      classes declare ([save()] raises [ValidationError] with the returned
      text), whatever it is;
    - [unique_index]: whether the store enforces unique email and username;
    - [fromisoformat]: [datetime.fromisoformat], [None] for [ValueError];
    - [cursor_window]: [cursor.skip(skip).limit(limit)] as the driver
      evaluates it;
    - [cfg]: class [Config]. *)
Record Env : Type := mkEnv {
  cfg : Config;
  generate_password_hash : string -> string;
  check_password_hash : string -> string -> bool;
  user_validate : User -> option string;
  task_validate : Task -> option string;
  unique_index : bool;
  fromisoformat : string -> option Z;
  cursor_window : Z -> Z -> list Task -> result (list Task)
}.

Definition ValidationError (msg : string) : exn := mkExn "ValidationError" msg.

Definition NotUniqueError : exn :=
  mkExn "NotUniqueError" "Tried to save duplicate unique keys".

(** What a query on [id] raises for a string that is no ObjectId. *)
Definition not_an_object_id (raw : string) : exn :=
  ValidationError
    ("'" ++ raw ++ "' is not a valid ObjectId, it must be a 12-byte input"
         ++ " or a 24-character hex string").

(** The conversion a query on [id] makes of the value it is given. *)
Definition to_object_id (p : path_id) : result ObjectId :=
  match p with
  | OidText i => Ok i
  | NotAnOid raw => Raise (not_an_object_id raw)
  end.

(** The first and the last second of [datetime]'s range (years 1 to 9999). *)
Definition datetime_min : Z := -62135596800.
Definition datetime_max : Z := 253402300799.

Definition OverflowError (msg : string) : exn := mkExn "OverflowError" msg.

Definition str_Z (z : Z) : string := NilZero.string_of_int (Z.to_int z).

(** [timedelta(seconds=n)]: the day count has to fit a C [int] and be at most
    999999999 either way. *)
Definition timedelta (n : Z) : result Z :=
  let days := n / 86400 in
  if ((days <? -2147483648) || (2147483647 <? days))%bool
  then Raise (OverflowError "Python int too large to convert to C int")
  else if ((days <? -999999999) || (999999999 <? days))%bool
  then Raise (OverflowError ("days=" ++ str_Z days ++ "; must have magnitude <= 999999999"))
  else Ok n.

(** [t + d] for a [datetime] and a [timedelta]. *)
Definition datetime_add (t d : Z) : result Z :=
  if ((datetime_min <=? t + d) && (t + d <=? datetime_max))%bool
  then Ok (t + d)
  else Raise (OverflowError "date value out of range").

(** Modelled from the spec: a string-typed field of a missing document class.
    [None] takes the declared default; a value that is no string fails
    validation on [save()]. *)
Definition string_field (v : pyval) (dflt : string) : result string :=
  match v with
  | VNone => Ok dflt
  | VStr s => Ok s
  | _ => Raise (ValidationError "StringField only accepts string values")
  end.

Definition is_some {A : Type} (o : option A) : bool :=
  match o with Some _ => true | None => false end.

Definition find_user (p : User -> bool) (s : Store) : option User := find p (users s).

(** [User.objects(email=v).first()] *)
Definition user_by_email (v : pyval) (s : Store) : option User :=
  find_user (fun u => eq_str v (email u)) s.

(** [User.objects(username=v).first()] *)
Definition user_by_username (v : pyval) (s : Store) : option User :=
  find_user (fun u => eq_str v (username u)) s.

(** [User.objects(id=i).first()] *)
Definition user_by_id (i : ObjectId) (s : Store) : option User :=
  find_user (fun u => N.eqb (user_id u) i) s.

Definition set_user_id (u : User) (i : ObjectId) : User :=
  mkUser i (username u) (email u) (name u) (password_hash u) (role u)
         (is_active u) (user_created_at u) (user_updated_at u).

Definition set_password_hash (u : User) (h : string) (now : Z) : User :=
  mkUser (user_id u) (username u) (email u) (name u) h (role u)
         (is_active u) (user_created_at u) now.

Definition set_task_id (t : Task) (i : ObjectId) : Task :=
  mkTask i (title t) (description t) (task_user t) (status t) (priority t)
         (due_date t) (created_at t) (updated_at t) (completed_at t).

Definition replace_user (u : User) (l : list User) : list User :=
  map (fun x => if N.eqb (user_id x) (user_id u) then u else x) l.

Definition replace_task (t : Task) (l : list Task) : list Task :=
  map (fun x => if N.eqb (task_id x) (task_id t) then t else x) l.

Definition remove_task (i : ObjectId) (l : list Task) : list Task :=
  filter (fun x => negb (N.eqb (task_id x) i)) l.

Section Controllers.

Variable E : Env.

(** *** Store writes *)

Definition clashes (u : User) (s : Store) : bool :=
  existsb (fun x => ((email x =? email u) || (username x =? username u))%string%bool) (users s).

(** [user.save()] of a new document. *)
Definition insert_user (u : User) : M User :=
  fun s =>
    match user_validate E u with
    | Some msg => (Raise (ValidationError msg), s)
    | None =>
        if (unique_index E && clashes u s)%bool then (Raise NotUniqueError, s)
        else
          let u' := set_user_id u (next_id s) in
          (Ok u', mkStore (users s ++ [u']) (tasks s) (N.succ (next_id s)))
    end.

(** [user.save()] of a document read from the store. *)
Definition update_user (u : User) : M unit :=
  fun s =>
    match user_validate E u with
    | Some msg => (Raise (ValidationError msg), s)
    | None => (Ok tt, mkStore (replace_user u (users s)) (tasks s) (next_id s))
    end.

(** [task.save()] of a new document. *)
Definition insert_task (t : Task) : M Task :=
  fun s =>
    match task_validate E t with
    | Some msg => (Raise (ValidationError msg), s)
    | None =>
        let t' := set_task_id t (next_id s) in
        (Ok t', mkStore (users s) (tasks s ++ [t']) (N.succ (next_id s)))
    end.

(** [task.save()] of a document read from the store. *)
Definition update_task_doc (t : Task) : M unit :=
  fun s =>
    match task_validate E t with
    | Some msg => (Raise (ValidationError msg), s)
    | None => (Ok tt, mkStore (users s) (replace_task t (tasks s)) (next_id s))
    end.

(** [task.delete()] *)
Definition delete_task_doc (t : Task) : M unit :=
  fun s => (Ok tt, mkStore (users s) (remove_task (task_id t) (tasks s)) (next_id s)).

(** *** [User] methods *)

(** Modelled from the spec: [User.set_password] of the missing
    [models/user.py]; it hashes the password (a value without [encode] is no
    password). *)
Definition set_password (pw : pyval) : result string :=
  match pw with
  | VStr p => Ok (generate_password_hash E p)
  | _ => Raise (AttributeError pw "encode")
  end.

(** Modelled from the spec: [User.check_password] of the missing
    [models/user.py]. *)
Definition check_password (u : User) (pw : pyval) : result bool :=
  match pw with
  | VStr p => Ok (check_password_hash E (password_hash u) p)
  | _ => Raise (AttributeError pw "encode")
  end.

(** *** [auth_controller.py] *)

(** [datetime.utcnow() + timedelta(seconds=Config.JWT_ACCESS_TOKEN_EXPIRES)] *)
Definition token_expiry (now : Z) : result Z :=
  lifetime <~ timedelta (JWT_ACCESS_TOKEN_EXPIRES (cfg E)) ;;
  datetime_add now lifetime.

Definition generate_token (user : User) (now : Z) : result token :=
  exp <~ token_expiry now ;;
  Ok (jwt_encode
        {| claim_user_id := user_id user;
           claim_username := username user;
           claim_email := email user;
           claim_role := role user;
           claim_exp := exp;
           claim_iat := now |}
        (JWT_SECRET_KEY (cfg E))).

Definition verify_token (tok : token) (now : Z) (s : Store) : option User :=
  match jwt_decode tok (JWT_SECRET_KEY (cfg E)) now with
  | Decoded payload =>
      match user_by_id (claim_user_id payload) s with
      | Some user => if is_active user then Some user else None
      | None => None
      end
  | ExpiredSignatureError => None
  | InvalidTokenError => None
  end.

Definition auth_cookie (value : token) (max_age : Z) : cookie :=
  {| cookie_name := "auth_token";
     cookie_value := value;
     cookie_max_age := max_age;
     cookie_httponly := JWT_COOKIE_HTTPONLY (cfg E);
     cookie_secure := JWT_COOKIE_SECURE (cfg E);
     cookie_samesite := JWT_COOKIE_SAMESITE (cfg E) |}.

Definition user_summary (user : User) : json :=
  JObj [("id", JOid (user_id user));
        ("username", JStr (username user));
        ("email", JStr (email user));
        ("name", JStr (name user));
        ("role", JStr (role user))].

(** The response both [register] and [login] build around a fresh token. *)
Definition token_response (message : string) (user : User) (tok : token) (code : Z) : response :=
  {| status_code := code;
     body := JObj [("message", JStr message); ("user", user_summary user); ("token", JTok tok)];
     set_cookie := Some (auth_cookie tok (JWT_ACCESS_TOKEN_EXPIRES (cfg E))) |}.

Definition required_fields : list string := ["username"; "email"; "password"; "name"].

(** The loop over [required_fields]. *)
Fixpoint check_required (data : json_body) (fields : list string) : result (flow unit) :=
  match fields with
  | [] => Ok (Next tt)
  | field :: rest =>
      v <~ data_get data field ;;
      if truthy v then check_required data rest
      else Ok (Return (jsonify [("error", JStr (field ++ " is required"))] 400))
  end.

Definition register_body (req : request) (now : Z) : M response :=
  let data := get_json req in
  _ <-? lift (check_required data required_fields) ;;
  email_v <- lift (data_item data "email") ;;
  s <- get_store ;;
  if is_some (user_by_email email_v s)
  then ret (jsonify [("error", JStr "Email already registered")] 400)
  else
    username_v <- lift (data_item data "username") ;;
    if is_some (user_by_username username_v s)
    then ret (jsonify [("error", JStr "Username already taken")] 400)
    else
      uname <- lift (py_strip username_v) ;;
      email_l <- lift (py_lower email_v) ;;
      name_v <- lift (data_item data "name") ;;
      nm <- lift (py_strip name_v) ;;
      role_v <- lift (data_get_default data "role" (VStr "user")) ;;
      password_v <- lift (data_item data "password") ;;
      hash <- lift (set_password password_v) ;;
      role_s <- lift (string_field role_v "user") ;;
      user <- insert_user (mkUser 0%N uname (strip email_l) nm hash role_s true now now) ;;
      tok <- lift (generate_token user now) ;;
      ret (token_response "User registered successfully" user tok 201).

Definition register : handler :=
  fun req now => try_except "Registration failed" (register_body req now).

Definition login_body (req : request) (now : Z) : M response :=
  let data := get_json req in
  let required := jsonify [("error", JStr "Login and password are required")] 400 in
  login_given <- lift (data_get data "login") ;;
  if negb (truthy login_given) then ret required
  else
    password_given <- lift (data_get data "password") ;;
    if negb (truthy password_given) then ret required
    else
    login_v <- lift (data_item data "login") ;;
    login_field <- lift (py_strip login_v) ;;
    s <- get_store ;;
    let user :=
      match user_by_email (VStr (lower login_field)) s with
      | Some u => Some u
      | None => user_by_username (VStr login_field) s
      end in
    match user with
    | None => ret (jsonify [("error", JStr "Invalid credentials")] 401)
    | Some user =>
        password_v <- lift (data_item data "password") ;;
        good <- lift (check_password user password_v) ;;
        if negb good
        then ret (jsonify [("error", JStr "Invalid credentials")] 401)
        else if negb (is_active user)
        then ret (jsonify [("error", JStr "Account is deactivated")] 401)
        else
          tok <- lift (generate_token user now) ;;
          ret (token_response "Login successful" user tok 200)
    end.

Definition login : handler :=
  fun req now => try_except "Login failed" (login_body req now).

Definition logout_body : M response :=
  ret {| status_code := 200;
         body := JObj [("message", JStr "Logout successful")];
         set_cookie := Some (auth_cookie (Unsigned "") 0) |}.

Definition logout : handler :=
  fun _ _ => try_except "Logout failed" logout_body.

Definition not_authenticated : response :=
  jsonify [("error", JStr "User not authenticated")] 401.

Definition get_current_user_body (req : request) : M response :=
  match current_user req with
  | None => ret not_authenticated
  | Some user =>
      ret (jsonify
             [("user",
               JObj [("id", JOid (user_id user));
                     ("username", JStr (username user));
                     ("email", JStr (email user));
                     ("name", JStr (name user));
                     ("role", JStr (role user));
                     ("is_active", JBool (is_active user));
                     ("created_at", JTime (user_created_at user))])] 200)
  end.

Definition get_current_user : handler :=
  fun req _ => try_except "Failed to get user info" (get_current_user_body req).

Definition change_password_body (req : request) (now : Z) : M response :=
  match current_user req with
  | None => ret not_authenticated
  | Some user =>
      let data := get_json req in
      let required :=
        jsonify [("error", JStr "Current password and new password are required")] 400 in
      current_given <- lift (data_get data "current_password") ;;
      if negb (truthy current_given) then ret required
      else
        new_given <- lift (data_get data "new_password") ;;
        if negb (truthy new_given) then ret required
        else
        current_v <- lift (data_item data "current_password") ;;
        good <- lift (check_password user current_v) ;;
        if negb good
        then ret (jsonify [("error", JStr "Current password is incorrect")] 400)
        else
          new_v <- lift (data_item data "new_password") ;;
          n <- lift (py_len new_v) ;;
          if n <? 6
          then ret (jsonify [("error", JStr "New password must be at least 6 characters")] 400)
          else
            hash <- lift (set_password new_v) ;;
            update_user (set_password_hash user hash now) ;;;
            ret (jsonify [("message", JStr "Password changed successfully")] 200)
  end.

Definition change_password : handler :=
  fun req now => try_except "Password change failed" (change_password_body req now).

(** *** [task_controller.py] *)

(** [s.replace('Z', '+00:00')] *)
Fixpoint replace_Z (s : string) : string :=
  match s with
  | EmptyString => EmptyString
  | String c r => if Ascii.eqb c "Z" then "+00:00" ++ replace_Z r else String c (replace_Z r)
  end.

Definition py_replace_Z (v : pyval) : result string :=
  match v with
  | VStr s => Ok (replace_Z s)
  | _ => Raise (AttributeError v "replace")
  end.

(** [try: datetime.fromisoformat(v.replace('Z', '+00:00')) except ValueError:
    return jsonify({'error': msg}), 400] *)
Definition parse_due_date (v : pyval) (msg : string) : result (flow Z) :=
  s <~ py_replace_Z v ;;
  match fromisoformat E s with
  | Some t => Ok (Next t)
  | None => Ok (Return (jsonify [("error", JStr msg)] 400))
  end.

(** [create_task]: [due_date = None], then the parse when
    [data.get('due_date')] is given. *)
Definition given_due_date (data : json_body) : result (flow (option Z)) :=
  given <~ data_get data "due_date" ;;
  if truthy given
  then
    v <~ data_item data "due_date" ;;
    parsed <~ parse_due_date v "Invalid due_date format. Use ISO format" ;;
    match parsed with
    | Next t => Ok (Next (Some t))
    | Return r => Ok (Return r)
    end
  else Ok (Next None).

(** [Task.objects(user=user)] *)
Definition tasks_of (user : User) (s : Store) : list Task :=
  filter (fun t => N.eqb (task_user t) (user_id user)) (tasks s).

(** [Task.objects(id=task_id, user=user).first()] *)
Definition task_by_id_of (i : ObjectId) (user : User) (s : Store) : option Task :=
  find (fun t => (N.eqb (task_id t) i && N.eqb (task_user t) (user_id user))%bool) (tasks s).

Definition create_task_body (req : request) (now : Z) : M response :=
  match current_user req with
  | None => ret not_authenticated
  | Some user =>
      let data := get_json req in
      let required := jsonify [("error", JStr "Title and description are required")] 400 in
      title_given <- lift (data_get data "title") ;;
      if negb (truthy title_given) then ret required
      else
        description_given <- lift (data_get data "description") ;;
        if negb (truthy description_given) then ret required
        else
          title_v <- lift (data_item data "title") ;;
          title_len <- lift (py_len title_v) ;;
          if title_len >? 200
          then ret (jsonify [("error", JStr "Title must be less than 200 characters")] 400)
          else
            description_v <- lift (data_item data "description") ;;
            description_len <- lift (py_len description_v) ;;
            if description_len >? 1000
            then ret (jsonify [("error", JStr "Description must be less than 1000 characters")] 400)
            else
              due <-? lift (given_due_date data) ;;
              title_s <- lift (py_strip title_v) ;;
              description_s <- lift (py_strip description_v) ;;
              status_v <- lift (data_get_default data "status" (VStr "pending")) ;;
              priority_v <- lift (data_get_default data "priority" (VStr "medium")) ;;
              status_s <- lift (string_field status_v "pending") ;;
              priority_s <- lift (string_field priority_v "medium") ;;
              task <- insert_task (mkTask 0%N title_s description_s (user_id user)
                                          status_s priority_s due now now None) ;;
              ret (jsonify
                     [("message", JStr "Task created successfully");
                      ("task",
                       JObj [("id", JOid (task_id task));
                             ("title", JStr (title task));
                             ("description", JStr (description task));
                             ("status", JStr (status task));
                             ("priority", JStr (priority task));
                             ("due_date", opt_time (due_date task));
                             ("created_at", JTime (created_at task))])] 201)
  end.

Definition create_task : handler :=
  fun req now => try_except "Task creation failed" (create_task_body req now).

(** [int(request.args.get(k, dflt))] *)
Definition int_arg (a : dict string) (k : string) (dflt : Z) : result Z :=
  match dict_find a k with
  | Some v => py_int v
  | None => Ok dflt
  end.

(** [if v:] for [v = request.args.get(k)] *)
Definition arg_given (a : dict string) (k : string) : option string :=
  match dict_find a k with
  | Some v => if (v =? "")%string then None else Some v
  | None => None
  end.

Fixpoint insert_newest (t : Task) (l : list Task) : list Task :=
  match l with
  | [] => [t]
  | x :: r => if created_at x <=? created_at t then t :: l else x :: insert_newest t r
  end.

(** [order_by('-created_at')] *)
Definition newest_first (l : list Task) : list Task := fold_right insert_newest [] l.

Definition task_json (task : Task) : json :=
  JObj [("id", JOid (task_id task));
        ("title", JStr (title task));
        ("description", JStr (description task));
        ("status", JStr (status task));
        ("priority", JStr (priority task));
        ("due_date", opt_time (due_date task));
        ("created_at", JTime (created_at task));
        ("updated_at", JTime (updated_at task));
        ("completed_at", opt_time (completed_at task))].

Definition pagination (page limit total pages : Z) : json :=
  JObj [("page", JInt page); ("limit", JInt limit); ("total", JInt total); ("pages", JInt pages)].

Definition get_tasks_body (req : request) : M response :=
  match current_user req with
  | None => ret not_authenticated
  | Some user =>
      page <- lift (int_arg (args req) "page" 1) ;;
      limit <- lift (int_arg (args req) "limit" 10) ;;
      let skip := (page - 1) * limit in
      s <- get_store ;;
      let query := tasks_of user s in
      let query :=
        match arg_given (args req) "status" with
        | Some st => filter (fun t => (status t =? st)%string) query
        | None => query
        end in
      let query :=
        match arg_given (args req) "priority" with
        | Some pr => filter (fun t => (priority t =? pr)%string) query
        | None => query
        end in
      let total := Z.of_nat (List.length query) in
      task_list <- lift (cursor_window E skip limit (newest_first query)) ;;
      pages <- lift (py_floordiv (total + limit - 1) limit) ;;
      ret (jsonify [("tasks", JArr (map task_json task_list));
                    ("pagination", pagination page limit total pages)] 200)
  end.

Definition get_tasks : handler :=
  fun req _ => try_except "Failed to get tasks" (get_tasks_body req).

Definition task_not_found : response := jsonify [("error", JStr "Task not found")] 404.

Definition get_task_body (task_id_ : path_id) (req : request) : M response :=
  match current_user req with
  | None => ret not_authenticated
  | Some user =>
      i <- lift (to_object_id task_id_) ;;
      s <- get_store ;;
      match task_by_id_of i user s with
      | None => ret task_not_found
      | Some task => ret (jsonify [("task", task_json task)] 200)
      end
  end.

Definition get_task (task_id_ : path_id) : handler :=
  fun req _ => try_except "Failed to get task" (get_task_body task_id_ req).

Definition set_title (t : Task) (v : string) : Task :=
  mkTask (task_id t) v (description t) (task_user t) (status t) (priority t)
         (due_date t) (created_at t) (updated_at t) (completed_at t).

Definition set_description (t : Task) (v : string) : Task :=
  mkTask (task_id t) (title t) v (task_user t) (status t) (priority t)
         (due_date t) (created_at t) (updated_at t) (completed_at t).

Definition set_status (t : Task) (v : string) : Task :=
  mkTask (task_id t) (title t) (description t) (task_user t) v (priority t)
         (due_date t) (created_at t) (updated_at t) (completed_at t).

Definition set_priority (t : Task) (v : string) : Task :=
  mkTask (task_id t) (title t) (description t) (task_user t) (status t) v
         (due_date t) (created_at t) (updated_at t) (completed_at t).

Definition set_due_date (t : Task) (v : option Z) : Task :=
  mkTask (task_id t) (title t) (description t) (task_user t) (status t) (priority t)
         v (created_at t) (updated_at t) (completed_at t).

Definition set_updated_at (t : Task) (v : Z) : Task :=
  mkTask (task_id t) (title t) (description t) (task_user t) (status t) (priority t)
         (due_date t) (created_at t) v (completed_at t).

Definition set_completed_at (t : Task) (v : option Z) : Task :=
  mkTask (task_id t) (title t) (description t) (task_user t) (status t) (priority t)
         (due_date t) (created_at t) (updated_at t) v.

(** The string [v] when [v in choices], for a list of string literals. *)
Definition choice_of (v : pyval) (choices : list string) : option string :=
  match v with
  | VStr s => if in_choices s choices then Some s else None
  | _ => None
  end.

(** [if 'title' in data: ...] *)
Definition update_title (data : json_body) (task : Task) : result (flow Task) :=
  has <~ data_mem data "title" ;;
  if has then
    v <~ data_item data "title" ;;
    let bad :=
      jsonify [("error", JStr "Title is required and must be less than 200 characters")] 400 in
    if negb (truthy v) then Ok (Return bad)
    else
      n <~ py_len v ;;
      if n >? 200 then Ok (Return bad)
      else
        s <~ py_strip v ;;
        Ok (Next (set_title task s))
  else Ok (Next task).

(** [if 'description' in data: ...] *)
Definition update_description (data : json_body) (task : Task) : result (flow Task) :=
  has <~ data_mem data "description" ;;
  if has then
    v <~ data_item data "description" ;;
    let bad :=
      jsonify [("error", JStr "Description is required and must be less than 1000 characters")] 400 in
    if negb (truthy v) then Ok (Return bad)
    else
      n <~ py_len v ;;
      if n >? 1000 then Ok (Return bad)
      else
        s <~ py_strip v ;;
        Ok (Next (set_description task s))
  else Ok (Next task).

(** [if 'status' in data: ...] *)
Definition update_status (data : json_body) (task : Task) (now : Z) : result (flow Task) :=
  has <~ data_mem data "status" ;;
  if has then
    v <~ data_item data "status" ;;
    match choice_of v status_choices with
    | Some st =>
        let task := set_status task st in
        if ((st =? "completed")%string && negb (is_some (completed_at task)))%bool
        then Ok (Next (set_completed_at task (Some now)))
        else Ok (Next task)
    | None => Ok (Return (jsonify [("error", JStr "Invalid status")] 400))
    end
  else Ok (Next task).

(** [if 'priority' in data: ...] *)
Definition update_priority (data : json_body) (task : Task) : result (flow Task) :=
  has <~ data_mem data "priority" ;;
  if has then
    v <~ data_item data "priority" ;;
    match choice_of v priority_choices with
    | Some pr => Ok (Next (set_priority task pr))
    | None => Ok (Return (jsonify [("error", JStr "Invalid priority")] 400))
    end
  else Ok (Next task).

(** [if 'due_date' in data: ...] *)
Definition update_due_date (data : json_body) (task : Task) : result (flow Task) :=
  has <~ data_mem data "due_date" ;;
  if has then
    v <~ data_item data "due_date" ;;
    if truthy v then
      parsed <~ parse_due_date v "Invalid due_date format" ;;
      match parsed with
      | Next t => Ok (Next (set_due_date task (Some t)))
      | Return r => Ok (Return r)
      end
    else Ok (Next (set_due_date task None))
  else Ok (Next task).

Definition update_task_body (task_id_ : path_id) (req : request) (now : Z) : M response :=
  match current_user req with
  | None => ret not_authenticated
  | Some user =>
      i <- lift (to_object_id task_id_) ;;
      s <- get_store ;;
      match task_by_id_of i user s with
      | None => ret task_not_found
      | Some task =>
          let data := get_json req in
          task <-? lift (update_title data task) ;;
          task <-? lift (update_description data task) ;;
          task <-? lift (update_status data task now) ;;
          task <-? lift (update_priority data task) ;;
          task <-? lift (update_due_date data task) ;;
          let task := set_updated_at task now in
          update_task_doc task ;;;
          ret (jsonify
                 [("message", JStr "Task updated successfully");
                  ("task",
                   JObj [("id", JOid (task_id task));
                         ("title", JStr (title task));
                         ("description", JStr (description task));
                         ("status", JStr (status task));
                         ("priority", JStr (priority task));
                         ("due_date", opt_time (due_date task));
                         ("updated_at", JTime (updated_at task));
                         ("completed_at", opt_time (completed_at task))])] 200)
      end
  end.

Definition update_task (task_id_ : path_id) : handler :=
  fun req now => try_except "Task update failed" (update_task_body task_id_ req now).

Definition delete_task_body (task_id_ : path_id) (req : request) : M response :=
  match current_user req with
  | None => ret not_authenticated
  | Some user =>
      i <- lift (to_object_id task_id_) ;;
      s <- get_store ;;
      match task_by_id_of i user s with
      | None => ret task_not_found
      | Some task =>
          delete_task_doc task ;;;
          ret (jsonify [("message", JStr "Task deleted successfully")] 200)
      end
  end.

Definition delete_task (task_id_ : path_id) : handler :=
  fun req _ => try_except "Task deletion failed" (delete_task_body task_id_ req).

Definition count_status (st : string) (l : list Task) : Z :=
  Z.of_nat (List.length (filter (fun t => (status t =? st)%string) l)).

(** [due_date__lt=now, status__nin=['completed', 'cancelled']] *)
Definition is_overdue (now : Z) (t : Task) : bool :=
  match due_date t with
  | Some d => ((d <? now) && negb (in_choices (status t) ["completed"; "cancelled"]))%bool
  | None => false
  end.

Definition get_task_stats_body (req : request) (now : Z) : M response :=
  match current_user req with
  | None => ret not_authenticated
  | Some user =>
      s <- get_store ;;
      let mine := tasks_of user s in
      ret (jsonify
             [("stats",
               JObj [("total", JInt (Z.of_nat (List.length mine)));
                     ("pending", JInt (count_status "pending" mine));
                     ("in_progress", JInt (count_status "in_progress" mine));
                     ("completed", JInt (count_status "completed" mine));
                     ("cancelled", JInt (count_status "cancelled" mine));
                     ("overdue", JInt (Z.of_nat (List.length (filter (is_overdue now) mine))))])]
             200)
  end.

Definition get_task_stats : handler :=
  fun req now => try_except "Failed to get task stats" (get_task_stats_body req now).

Definition admin_required_response : response :=
  jsonify [("error", JStr "Admin access required")] 403.

Definition admin_task_json (s : Store) (task : Task) : json :=
  JObj [("id", JOid (task_id task));
        ("title", JStr (title task));
        ("description", JStr (description task));
        ("user",
         match user_by_id (task_user task) s with
         | Some owner => JObj [("id", JOid (user_id owner));
                               ("username", JStr (username owner));
                               ("email", JStr (email owner))]
         | None => JNull
         end);
        ("status", JStr (status task));
        ("priority", JStr (priority task));
        ("due_date", opt_time (due_date task));
        ("created_at", JTime (created_at task))].

Definition is_admin (user : User) : bool := (role user =? "admin")%string.

Definition get_all_tasks_body (req : request) : M response :=
  match current_user req with
  | None => ret admin_required_response
  | Some user =>
      if negb (is_admin user) then ret admin_required_response
      else
        page <- lift (int_arg (args req) "page" 1) ;;
        limit <- lift (int_arg (args req) "limit" 10) ;;
        let skip := (page - 1) * limit in
        s <- get_store ;;
        let total := Z.of_nat (List.length (tasks s)) in
        task_list <- lift (cursor_window E skip limit (newest_first (tasks s))) ;;
        pages <- lift (py_floordiv (total + limit - 1) limit) ;;
        ret (jsonify [("tasks", JArr (map (admin_task_json s) task_list));
                      ("pagination", pagination page limit total pages)] 200)
  end.

Definition get_all_tasks : handler :=
  fun req _ => try_except "Failed to get all tasks" (get_all_tasks_body req).

(** *** [auth_middleware.py] *)

Definition token_required : response :=
  jsonify [("error", JStr "Authentication token required")] 401.

Definition invalid_token : response :=
  jsonify [("error", JStr "Invalid or expired token")] 401.

Definition auth_required (f : handler) : handler :=
  fun req now s =>
    match cookie_auth_token req with
    | None => (token_required, s)
    | Some tok =>
        if token_falsy (Some tok) then (token_required, s)
        else
          match verify_token tok now s with
          | None => (invalid_token, s)
          | Some user => f (with_current_user req user) now s
          end
    end.

Definition admin_required (f : handler) : handler :=
  fun req now s =>
    match cookie_auth_token req with
    | None => (token_required, s)
    | Some tok =>
        if token_falsy (Some tok) then (token_required, s)
        else
          match verify_token tok now s with
          | None => (invalid_token, s)
          | Some user =>
              if negb (is_admin user) then (admin_required_response, s)
              else f (with_current_user req user) now s
          end
    end.

Definition optional_auth (f : handler) : handler :=
  fun req now s =>
    match cookie_auth_token req with
    | None => f req now s
    | Some tok =>
        if token_falsy (Some tok) then f req now s
        else
          match verify_token tok now s with
          | Some user => f (with_current_user req user) now s
          | None => f req now s
          end
    end.

(** *** [routes/auth_routes.py], [routes/task_routes.py] *)

Definition register_route : handler := register.
Definition login_route : handler := login.
Definition logout_route : handler := logout.
Definition get_current_user_route : handler := auth_required get_current_user.
Definition change_password_route : handler := auth_required change_password.
Definition create_task_route : handler := auth_required create_task.
Definition get_tasks_route : handler := auth_required get_tasks.
Definition get_task_route (task_id_ : path_id) : handler := auth_required (get_task task_id_).
Definition update_task_route (task_id_ : path_id) : handler := auth_required (update_task task_id_).
Definition delete_task_route (task_id_ : path_id) : handler := auth_required (delete_task task_id_).
Definition get_task_stats_route : handler := auth_required get_task_stats.
Definition get_all_tasks_route : handler := admin_required get_all_tasks.

End Controllers.

(* ------------------------------------------------------------------ *)
(** ** The handlers, by name *)

Inductive handler_name : Type :=
| Register | Login | Logout | GetCurrentUser | ChangePassword
| CreateTask | GetTasks | GetTask (i : path_id) | UpdateTask (i : path_id)
| DeleteTask (i : path_id) | GetTaskStats | GetAllTasks.

(** The [try] block of a handler. *)
Definition handler_body (E : Env) (h : handler_name) (req : request) (now : Z) : M response :=
  match h with
  | Register => register_body E req now
  | Login => login_body E req now
  | Logout => logout_body E
  | GetCurrentUser => get_current_user_body req
  | ChangePassword => change_password_body E req now
  | CreateTask => create_task_body E req now
  | GetTasks => get_tasks_body E req
  | GetTask i => get_task_body i req
  | UpdateTask i => update_task_body E i req now
  | DeleteTask i => delete_task_body i req
  | GetTaskStats => get_task_stats_body req now
  | GetAllTasks => get_all_tasks_body E req
  end.

(** The handler function itself. *)
Definition run_handler (E : Env) (h : handler_name) : handler :=
  match h with
  | Register => register E
  | Login => login E
  | Logout => logout E
  | GetCurrentUser => get_current_user
  | ChangePassword => change_password E
  | CreateTask => create_task E
  | GetTasks => get_tasks E
  | GetTask i => get_task i
  | UpdateTask i => update_task E i
  | DeleteTask i => delete_task i
  | GetTaskStats => get_task_stats
  | GetAllTasks => get_all_tasks E
  end.

(** The ['error'] text of a handler's [except] branch. *)
Definition failure_label (h : handler_name) : string :=
  match h with
  | Register => "Registration failed"
  | Login => "Login failed"
  | Logout => "Logout failed"
  | GetCurrentUser => "Failed to get user info"
  | ChangePassword => "Password change failed"
  | CreateTask => "Task creation failed"
  | GetTasks => "Failed to get tasks"
  | GetTask _ => "Failed to get task"
  | UpdateTask _ => "Task update failed"
  | DeleteTask _ => "Task deletion failed"
  | GetTaskStats => "Failed to get task stats"
  | GetAllTasks => "Failed to get all tasks"
  end.

(** The body of the [except] branch. *)
Definition failure_response (label : string) (e : exn) : response :=
  jsonify [("error", JStr label); ("details", JStr (exn_str e))] 500.

(** Some field of the JSON object [j] is the string [msg]. *)
Definition carries (j : json) (msg : string) : bool :=
  match j with
  | JObj fields =>
      existsb (fun kv => match snd kv with JStr s => (s =? msg)%string | _ => false end) fields
  | _ => false
  end.

Definition invalid_credentials : response :=
  jsonify [("error", JStr "Invalid credentials")] 401.

Definition account_deactivated : response :=
  jsonify [("error", JStr "Account is deactivated")] 401.

Definition email_already_registered : response :=
  jsonify [("error", JStr "Email already registered")] 400.

(** The user [login] looks up for a login field [l]. *)
Definition login_lookup (l : string) (s : Store) : option User :=
  match user_by_email (VStr (lower (strip l))) s with
  | Some u => Some u
  | None => user_by_username (VStr (strip l)) s
  end.

(** The token was not issued later than the clock reads. *)
Definition mature (t : token) (now : Z) : Prop :=
  match t with
  | Signed _ payload => claim_iat payload <= now
  | Unsigned _ => False
  end.

(** [user] is the first document of [l] whose id is [i]. *)
Definition first_with_id (i : ObjectId) (l : list User) (user : User) : Prop :=
  exists before after,
    l = (before ++ user :: after)%list
    /\ user_id user = i
    /\ forall x, In x before -> user_id x <> i.

(** No handler changes the active flag: deactivating a user is a write to the
    user document made outside the controllers.  [deactivate i] is that
    write, for the user with id [i]. *)
Definition deactivate (i : ObjectId) (s : Store) : Store :=
  mkStore
    (map (fun u =>
            if N.eqb (user_id u) i
            then mkUser (user_id u) (username u) (email u) (name u) (password_hash u)
                        (role u) false (user_created_at u) (user_updated_at u)
            else u)
         (users s))
    (tasks s) (next_id s).

(** A task of [user] with id [i] is in the store. *)
Definition owns (user : User) (i : ObjectId) (s : Store) : Prop :=
  exists t, In t (tasks s) /\ task_id t = i /\ task_user t = user_id user.

(** The [status] an update request carries is the literal ['completed']. *)
Definition status_is_completed (data : json_body) : bool :=
  match data with
  | Some d =>
      match dict_find d "status" with
      | Some v => eq_str v "completed"
      | None => false
      end
  | None => false
  end.

(** What [completed_at] is after a successful update made at [now] with body
    [data], when it was [old] before. *)
Definition stamp (data : json_body) (now : Z) (old : option Z) : option Z :=
  if (status_is_completed data && negb (is_some old))%bool then Some now else old.

(** Identity, owner and completion time are the same in [t'] as in [t]. *)
Definition unchanged (t t' : Task) : Prop :=
  task_id t' = task_id t /\ task_user t' = task_user t /\ completed_at t' = completed_at t.

(** A step of [update_task] either raises, or leaves with a 400, or goes on
    with a task satisfying [P]. *)
Definition step_keeps (P : Task -> Prop) (r : result (flow Task)) : Prop :=
  match r with
  | Ok (Next t') => P t'
  | Ok (Return resp) => status_code resp = 400
  | Raise _ => True
  end.

(* ------------------------------------------------------------------ *)
(** ** Sample data *)

Definition default_config : Config :=
  mkConfig "jwt-secret-change-in-production" 3600 false true "Lax".

Definition sample_hash (p : string) : string := "h$" ++ p.

Definition sample_window (skip limit : Z) (l : list Task) : result (list Task) :=
  if skip <? 0 then Raise (mkExn "ValueError" "skip must be >= 0")
  else
    let rest := skipn (Z.to_nat skip) l in
    Ok (if limit =? 0 then rest else firstn (Z.to_nat (Z.abs limit)) rest).

(** An environment whose document classes validate nothing; [uniq] says
    whether the store has unique indexes. *)
Definition sample_env (uniq : bool) : Env :=
  mkEnv default_config sample_hash (fun h p => (h =? sample_hash p)%string)
        (fun _ => None) (fun _ => None) uniq (fun _ => None) sample_window.

(** The sample environment with a token lifetime of a million million
    seconds, which ends after the year 9999. *)
Definition long_lived_env : Env :=
  mkEnv (mkConfig "jwt-secret-change-in-production" 1000000000000 false true "Lax")
        sample_hash (fun h p => (h =? sample_hash p)%string)
        (fun _ => None) (fun _ => None) true (fun _ => None) sample_window.

Definition empty_store : Store := mkStore [] [] 1%N.

Definition alice : User :=
  mkUser 1%N "alice" "alice@example.com" "Alice" (sample_hash "wonder1") "user" true 0 0.

Definition bob : User :=
  mkUser 2%N "bob" "bob@example.com" "Bob" (sample_hash "builder") "user" false 0 0.

Definition root : User :=
  mkUser 3%N "root" "root@example.com" "Root" (sample_hash "toor-toor") "admin" true 0 0.

Definition alice_task : Task :=
  mkTask 10%N "write" "write the report" 1%N "pending" "medium" None 5 5 None.

Definition bob_task : Task :=
  mkTask 11%N "read" "read the report" 2%N "pending" "high" None 6 6 None.

Definition sample_store : Store := mkStore [alice; bob; root] [alice_task; bob_task] 12%N.

(** The token [generate_token] returns for [user] at [now]. *)
Definition issued (E : Env) (user : User) (now : Z) : token :=
  match generate_token E user now with
  | Ok tok => tok
  | Raise _ => Unsigned ""
  end.

(** A token for [alice] under the default secret that says it was issued at
    100 and expires at 3700. *)
Definition early_token : token :=
  Signed "jwt-secret-change-in-production"
         (mkClaims 1%N "alice" "alice@example.com" "user" 3700 100).

Definition anonymous (data : json_body) (a : dict string) : request :=
  mkRequest None data a None.

Definition as_user (u : User) (data : json_body) (a : dict string) : request :=
  mkRequest None data a (Some u).

Definition with_cookie (tok : token) : request :=
  mkRequest (Some tok) None [] None.

Definition login_json (l p : string) : json_body :=
  Some [("login", VStr l); ("password", VStr p)].

Definition register_json (u e p n : string) : json_body :=
  Some [("username", VStr u); ("email", VStr e); ("password", VStr p); ("name", VStr n)].

(* ------------------------------------------------------------------ *)
(** ** The claims read as statements about the code *)

(** C1 as worded: whenever a handler's [try] block raises, the response
    carries no field holding [str(e)]. *)
Definition error_body_is_generic (E : Env) : Prop :=
  forall h req now s e s',
    handler_body E h req now s = (Raise e, s') ->
    carries (body (fst (run_handler E h req now s))) (exn_str e) = false.

(** C3 as worded: unknown identifier, wrong password and deactivated account
    all end in the same response. *)
Definition login_failures_are_uniform (E : Env) : Prop :=
  forall req now s d l p,
    get_json req = Some d ->
    dict_find d "login" = Some (VStr l) -> l <> "" ->
    dict_find d "password" = Some (VStr p) -> p <> "" ->
    (login_lookup l s = None
     \/ (exists u, login_lookup l s = Some u
                   /\ check_password_hash E (password_hash u) p = false)
     \/ (exists u, login_lookup l s = Some u
                   /\ check_password_hash E (password_hash u) p = true
                   /\ is_active u = false)) ->
    fst (login E req now s) = invalid_credentials.

(** C5 as worded: a token resolves to a user exactly when it is signed under
    the server secret, unexpired, and its subject is an active user of the
    store. *)
Definition resolves_as_worded (E : Env) : Prop :=
  forall tok now s user,
    verify_token E tok now s = Some user <->
    signature_valid tok (JWT_SECRET_KEY (cfg E))
    /\ unexpired tok now
    /\ exists i, subject tok = Some i
                 /\ first_with_id i (users s) user /\ is_active user = true.

(** C6 as worded: whenever the store has no task of the caller under the id
    of the path, the three handlers answer 404. *)
Definition missing_task_is_not_found (E : Env) : Prop :=
  forall A (p : path_id) req now s,
    current_user req = Some A ->
    (forall i, p = OidText i -> ~ owns A i s) ->
    fst (get_task p req now s) = task_not_found
    /\ fst (update_task E p req now s) = task_not_found
    /\ fst (delete_task p req now s) = task_not_found.

(** C7's last part as worded: a caller that is no admin gets 403 from the
    admin route whether or not the token resolves. *)
Definition non_admin_is_always_forbidden (E : Env) : Prop :=
  forall req now s,
    match cookie_auth_token req with
    | Some tok =>
        match verify_token E tok now s with
        | Some user => is_admin user = false
        | None => True
        end
    | None => True
    end ->
    status_code (fst (get_all_tasks_route E req now s)) = 403.

(* ------------------------------------------------------------------ *)
(** ** Predicates of the further properties *)

(** A response with a success code of these handlers. *)
Definition succeeded (r : response) : Prop :=
  status_code r = 200 \/ status_code r = 201.

(** A computation that never writes to the store. *)
Definition quiet {A : Type} (m : M A) : Prop := forall s, snd (m s) = s.

(** A store write that either happens and returns, or leaves the store alone. *)
Definition atomic {A : Type} (m : M A) : Prop :=
  forall s, snd (m s) = s \/ exists a, fst (m s) = Ok a.

(** A handler body that changes the store only when it also returns a
    success response. *)
Definition writes_on_success (m : M response) : Prop :=
  forall s, snd (m s) = s \/ exists r, fst (m s) = Ok r /\ succeeded r.

(** What [register] leaves when the user document is saved and
    [generate_token] raises: the new user is in the store, and the error of
    [generate_token] is raised. *)
Definition stored_without_token (E : Env) (now : Z) (s : Store)
    (r : result response) (s' : Store) : Prop :=
  exists user e,
    s' = mkStore (users s ++ [user]) (tasks s) (N.succ (next_id s))
    /\ generate_token E user now = Raise e
    /\ r = Raise e.

(** A handler body that changes the store only when it also returns a
    success response, or in the way [Q] describes. *)
Definition writes_on_success_or (Q : Store -> result response -> Store -> Prop)
    (m : M response) : Prop :=
  forall s,
    snd (m s) = s
    \/ (exists r, fst (m s) = Ok r /\ succeeded r)
    \/ Q s (fst (m s)) (snd (m s)).

(** The handlers whose source has no [save()] and no [delete()]. *)
Definition read_only (h : handler_name) : bool :=
  match h with
  | Login | Logout | GetCurrentUser | GetTasks | GetTask _ | GetTaskStats | GetAllTasks => true
  | Register | ChangePassword | CreateTask | UpdateTask _ | DeleteTask _ => false
  end.

(** Ids handed out so far are below the next one. *)
Definition user_ids_below (s : Store) : Prop :=
  forall u, In u (users s) -> (user_id u < next_id s)%N.

Definition task_ids_below (s : Store) : Prop :=
  forall t, In t (tasks s) -> (task_id t < next_id s)%N.

(** No two user documents share an id. *)
Definition unique_user_ids (s : Store) : Prop := NoDup (map user_id (users s)).

(** The length limits [create_task] and [update_task] check. *)
Definition within_bounds (t : Task) : Prop :=
  len_str (title t) <= 200 /\ len_str (description t) <= 1000.

(** No two task documents share an id. *)
Definition unique_task_ids (s : Store) : Prop := NoDup (map task_id (tasks s)).

(** A computation after which the store is related by [R] to the store
    before. *)
Definition keeps {A : Type} (R : Store -> Store -> Prop) (m : M A) : Prop :=
  forall s, R s (snd (m s)).

(** The task collection is the same. *)
Definition same_tasks (s s' : Store) : Prop := tasks s' = tasks s.

(** The user collection is the same. *)
Definition same_users (s s' : Store) : Prop := users s' = users s.

(** The handlers of [auth_controller.py]. *)
Definition auth_handler (h : handler_name) : bool :=
  match h with
  | Register | Login | Logout | GetCurrentUser | ChangePassword => true
  | _ => false
  end.

(** The user document [change_password] saves. *)
Definition with_new_password (E : Env) (user : User) (new : string) (now : Z) : User :=
  set_password_hash user (generate_password_hash E new) now.

(** How [update_task] treats a text field with a length limit: left alone
    when the key is absent, else a non-empty string within the limit,
    trimmed. *)
Definition text_update (d : dict pyval) (k : string) (limit : Z) (old new : string) : Prop :=
  match dict_find d k with
  | None => new = old
  | Some v => exists x, v = VStr x /\ x <> "" /\ len_str x <= limit /\ new = strip x
  end.

(** How [update_task] treats an enum field: left alone when the key is
    absent, else one of the listed strings. *)
Definition choice_update (d : dict pyval) (k : string) (choices : list string)
    (old new : string) : Prop :=
  match dict_find d k with
  | None => new = old
  | Some v => v = VStr new /\ in_choices new choices = true
  end.

(** How [update_task] treats [due_date]: left alone when the key is absent,
    cleared by a falsy value, else parsed. *)
Definition due_update (E : Env) (d : dict pyval) (old new : option Z) : Prop :=
  match dict_find d "due_date" with
  | None => new = old
  | Some v =>
      if truthy v
      then exists x t, v = VStr x /\ fromisoformat E (replace_Z x) = Some t /\ new = Some t
      else new = None
  end.

(** The task [t'] a successful [update_task] with body [d] at [now] saves in
    place of [t]. *)
Definition updated_by (E : Env) (d : dict pyval) (now : Z) (t t' : Task) : Prop :=
  task_id t' = task_id t
  /\ task_user t' = task_user t
  /\ created_at t' = created_at t
  /\ updated_at t' = now
  /\ text_update d "title" 200 (title t) (title t')
  /\ text_update d "description" 1000 (description t) (description t')
  /\ choice_update d "status" status_choices (status t) (status t')
  /\ choice_update d "priority" priority_choices (priority t) (priority t')
  /\ due_update E d (due_date t) (due_date t')
  /\ completed_at t' = stamp (Some d) now (completed_at t).

(** The query [get_tasks] builds: the caller's tasks, narrowed by the
    [status] and [priority] arguments when they are given. *)
Definition matching (a : dict string) (user : User) (s : Store) : list Task :=
  let query := tasks_of user s in
  let query :=
    match arg_given a "status" with
    | Some st => filter (fun t => (status t =? st)%string) query
    | None => query
    end in
  match arg_given a "priority" with
  | Some pr => filter (fun t => (priority t =? pr)%string) query
  | None => query
  end.

(** The cursor returns documents of the query it was given. *)
Definition window_selects (E : Env) : Prop :=
  forall skip limit l w, cursor_window E skip limit l = Ok w -> incl w l.

(** The route that serves each handler ([auth_routes.py], [task_routes.py]). *)
Definition route (E : Env) (h : handler_name) : handler :=
  match h with
  | Register => register_route E
  | Login => login_route E
  | Logout => logout_route E
  | GetCurrentUser => get_current_user_route E
  | ChangePassword => change_password_route E
  | CreateTask => create_task_route E
  | GetTasks => get_tasks_route E
  | GetTask i => get_task_route E i
  | UpdateTask i => update_task_route E i
  | DeleteTask i => delete_task_route E i
  | GetTaskStats => get_task_stats_route E
  | GetAllTasks => get_all_tasks_route E
  end.

(** The routes registered without a guard. *)
Definition public_route (h : handler_name) : bool :=
  match h with
  | Register | Login | Logout => true
  | _ => false
  end.

(* ------------------------------------------------------------------ *)
(** ** Basic facts *)

Lemma load_config_defaults : load_config [] = Ok default_config.
Proof. reflexivity. Qed.

Lemma try_except_ok (label : string) (m : M response) (s s' : Store) (r : response) :
  m s = (Ok r, s') -> try_except label m s = (r, s').
Proof. intros H. unfold try_except. now rewrite H. Qed.

Lemma try_except_raise (label : string) (m : M response) (s s' : Store) (e : exn) :
  m s = (Raise e, s') -> try_except label m s = (failure_response label e, s').
Proof. intros H. unfold try_except. now rewrite H. Qed.

Lemma run_handler_unfold (E : Env) (h : handler_name) (req : request) (now : Z) :
  run_handler E h req now = try_except (failure_label h) (handler_body E h req now).
Proof. destruct h; reflexivity. Qed.

Lemma find_some_iff {A : Type} (p : A -> bool) (l : list A) :
  find p l = None <-> forall x, In x l -> p x = false.
Proof.
  split.
  - intros H x Hx. exact (find_none p l H x Hx).
  - induction l as [|a l IH]; intros H; [reflexivity|].
    simpl. rewrite (H a (or_introl eq_refl)). apply IH.
    intros x Hx. apply H. now right.
Qed.

(** The scoped lookup misses exactly when the store holds no task with that
    id owned by that user: the task is absent, or somebody else's. *)
Lemma task_by_id_of_None (i : ObjectId) (user : User) (s : Store) :
  task_by_id_of i user s = None <-> ~ owns user i s.
Proof.
  unfold task_by_id_of, owns. rewrite find_some_iff. split.
  - intros H (t & Hin & Hid & Hu). specialize (H t Hin).
    rewrite Hid, Hu, !N.eqb_refl in H. discriminate.
  - intros H t Hin.
    destruct (N.eqb_spec (task_id t) i) as [Hid|]; [|reflexivity].
    destruct (N.eqb_spec (task_user t) (user_id user)) as [Hu|]; [|reflexivity].
    exfalso. apply H. now exists t.
Qed.

Lemma task_by_id_of_Some (i : ObjectId) (user : User) (s : Store) (t : Task) :
  task_by_id_of i user s = Some t ->
  In t (tasks s) /\ task_id t = i /\ task_user t = user_id user.
Proof.
  unfold task_by_id_of. intros H. apply find_some in H as [Hin Hp].
  apply andb_true_iff in Hp as [H1 H2].
  apply N.eqb_eq in H1, H2. auto.
Qed.

(* ------------------------------------------------------------------ *)
(** ** Error responses (C1) *)

(** C1, as the code has it: when the [try] block of any handler raises [e],
    the handler answers 500 with the handler's fixed ['error'] text and a
    ['details'] field that is [str(e)] itself; the store is left as the block
    left it.  The body has these two fields only (no stack trace). *)
Theorem handler_failure_carries_details (E : Env) (h : handler_name)
    (req : request) (now : Z) (s s' : Store) (e : exn) :
  handler_body E h req now s = (Raise e, s') ->
  run_handler E h req now s
    = ({| status_code := 500;
          body := JObj [("error", JStr (failure_label h)); ("details", JStr (exn_str e))];
          set_cookie := None |}, s')
  /\ carries (body (fst (run_handler E h req now s))) (exn_str e) = true.
Proof.
  intros H. rewrite run_handler_unfold, (try_except_raise _ _ _ _ _ H).
  split; [reflexivity|].
  cbn. now rewrite String.eqb_refl, orb_true_r.
Qed.

(* ------------------------------------------------------------------ *)
(** ** Token resolution (C5, C10) *)

Lemma jwt_decode_Decoded (t : token) (key : string) (now : Z) (payload : claims) :
  jwt_decode t key now = Decoded payload <->
  t = Signed key payload /\ claim_iat payload <= now < claim_exp payload.
Proof.
  unfold jwt_decode. destruct t as [k c|raw].
  - destruct (String.eqb_spec k key) as [->|Hk].
    + destruct (Z.ltb_spec now (claim_iat c)).
      * split; [discriminate|]. intros [Heq Hlt]. injection Heq as <-. lia.
      * destruct (Z.leb_spec (claim_exp c) now); split.
        -- discriminate.
        -- intros [Heq Hlt]. injection Heq as <-. lia.
        -- intros Heq. injection Heq as <-. split; [reflexivity|lia].
        -- intros [Heq _]. now injection Heq as <-.
    + split; [discriminate|]. intros [Heq _]. injection Heq as -> _. now elim Hk.
  - split; [discriminate|]. intros [Heq _]. discriminate.
Qed.

(** [first()] of a query on [id] is the first document of the collection
    with that id. *)
Lemma user_by_id_first (i : ObjectId) (s : Store) (user : User) :
  user_by_id i s = Some user <-> first_with_id i (users s) user.
Proof.
  unfold user_by_id, find_user, first_with_id.
  induction (users s) as [|u l IH]; cbn [find].
  - split; [discriminate|]. intros (before & after & Heq & _).
    now destruct before.
  - destruct (N.eqb_spec (user_id u) i) as [Hi|Hi]; split.
    + intros Heq. injection Heq as <-. exists [], l. repeat split; auto.
    + intros (before & after & Heq & Hid & Hno). destruct before as [|b before].
      * cbn in Heq. now injection Heq as ->.
      * cbn in Heq. injection Heq as Hb _. subst b.
        elim (Hno u (or_introl eq_refl)). exact Hi.
    + intros Hf. apply IH in Hf as (before & after & -> & Hid & Hno).
      exists (u :: before), after. repeat split; auto.
      intros x [<-|Hx]; auto.
    + intros (before & after & Heq & Hid & Hno). apply IH.
      destruct before as [|b before].
      * cbn in Heq. injection Heq as -> _. now elim Hi.
      * cbn in Heq. injection Heq as -> ->. exists before, after.
        repeat split; auto. intros x Hx. apply Hno. now right.
Qed.

Lemma user_by_id_deactivate (i : ObjectId) (s : Store) :
  match user_by_id i (deactivate i s) with
  | Some u => is_active u = false
  | None => True
  end.
Proof.
  unfold user_by_id, find_user, deactivate. cbn [users].
  induction (users s) as [|u l IH]; [exact I|].
  cbn [map find].
  destruct (N.eqb_spec (user_id u) i) as [Hi|Hi].
  - cbn [user_id]. rewrite Hi, N.eqb_refl. reflexivity.
  - apply N.eqb_neq in Hi. rewrite Hi. exact IH.
Qed.

Lemma timedelta_Ok (n d : Z) : timedelta n = Ok d -> d = n.
Proof.
  unfold timedelta. destruct (_ || _)%bool; [discriminate|].
  destruct (_ || _)%bool; [discriminate|]. congruence.
Qed.

Lemma datetime_add_Ok (t d x : Z) : datetime_add t d = Ok x -> x = t + d.
Proof. unfold datetime_add. destruct (_ && _)%bool; [congruence|discriminate]. Qed.

(** When the expiry time can be computed it is the clock plus the configured
    lifetime. *)
Lemma token_expiry_Ok (E : Env) (now x : Z) :
  token_expiry E now = Ok x -> x = now + JWT_ACCESS_TOKEN_EXPIRES (cfg E).
Proof.
  unfold token_expiry, rbind.
  destruct (timedelta _) as [d|e] eqn:Hd; [|discriminate].
  apply timedelta_Ok in Hd. subst d. apply datetime_add_Ok.
Qed.

Lemma generate_token_cases (E : Env) (user : User) (now : Z) :
  match token_expiry E now with
  | Ok _ =>
      generate_token E user now
      = Ok (Signed (JWT_SECRET_KEY (cfg E))
                   (mkClaims (user_id user) (username user) (email user) (role user)
                             (now + JWT_ACCESS_TOKEN_EXPIRES (cfg E)) now))
  | Raise e => generate_token E user now = Raise e
  end.
Proof.
  unfold generate_token, rbind, jwt_encode.
  destruct (token_expiry E now) as [x|e] eqn:Hx; [|reflexivity].
  now rewrite (token_expiry_Ok _ _ _ Hx).
Qed.

Lemma generate_token_Ok (E : Env) (user : User) (now : Z) (tok : token) :
  generate_token E user now = Ok tok ->
  tok = Signed (JWT_SECRET_KEY (cfg E))
               (mkClaims (user_id user) (username user) (email user) (role user)
                         (now + JWT_ACCESS_TOKEN_EXPIRES (cfg E)) now)
  /\ token_expiry E now = Ok (now + JWT_ACCESS_TOKEN_EXPIRES (cfg E)).
Proof.
  intros H. pose proof (generate_token_cases E user now) as Hc.
  destruct (token_expiry E now) as [x|e] eqn:Hx; [|congruence].
  rewrite (token_expiry_Ok _ _ _ Hx). split; congruence.
Qed.

Lemma verify_generated_token (E : Env) (user : User) (issued_at now : Z) (s : Store)
    (tok : token) :
  generate_token E user issued_at = Ok tok ->
  verify_token E tok now s
  = if ((now <? issued_at) || (issued_at + JWT_ACCESS_TOKEN_EXPIRES (cfg E) <=? now))%bool
    then None
    else match user_by_id (user_id user) s with
         | Some u => if is_active u then Some u else None
         | None => None
         end.
Proof.
  intros H. apply generate_token_Ok in H as [-> _].
  unfold verify_token, jwt_decode.
  rewrite String.eqb_refl. cbv beta iota delta [claim_exp claim_user_id claim_iat].
  destruct (now <? issued_at); [reflexivity|].
  now destruct (_ <=? now).
Qed.

(** C5, as the code has it.  A token is either no payload signed under the
    server secret, or a signed payload of the shape [generate_token] builds.
    [verify_token] returns a user exactly when the token is signed under the
    server secret, was not issued later than the clock reads, is unexpired at
    verification time, and its subject id is the id of a user document in the
    store (the first with that id) whose active flag is true; in every other
    case it returns [None].  Hence once a user is deactivated, every token
    issued to that user, expired or not, resolves to [None] on the next
    request. *)
Theorem verify_token_resolves_exactly (E : Env) (tok : token) (now : Z) (s : Store) :
  (forall user,
      verify_token E tok now s = Some user <->
      signature_valid tok (JWT_SECRET_KEY (cfg E))
      /\ mature tok now
      /\ unexpired tok now
      /\ exists i, subject tok = Some i
                   /\ first_with_id i (users s) user /\ is_active user = true)
  /\ (verify_token E tok now s = None <->
      ~ (signature_valid tok (JWT_SECRET_KEY (cfg E))
         /\ mature tok now
         /\ unexpired tok now
         /\ exists i user, subject tok = Some i
                           /\ first_with_id i (users s) user /\ is_active user = true))
  /\ (forall i, subject tok = Some i -> verify_token E tok now (deactivate i s) = None)
  /\ (forall user issued_at t,
         generate_token E user issued_at = Ok t ->
         verify_token E t now (deactivate (user_id user) s) = None).
Proof.
  assert (Hchar : forall st user,
      verify_token E tok now st = Some user <->
      signature_valid tok (JWT_SECRET_KEY (cfg E))
      /\ mature tok now
      /\ unexpired tok now
      /\ exists i, subject tok = Some i
                   /\ first_with_id i (users st) user /\ is_active user = true).
  { intros st user. unfold verify_token, signature_valid.
    destruct (jwt_decode tok (JWT_SECRET_KEY (cfg E)) now) as [payload| |] eqn:Hd.
    - apply jwt_decode_Decoded in Hd as [-> [Hge Hlt]]. cbn [unexpired subject mature].
      destruct (user_by_id (claim_user_id payload) st) as [u|] eqn:Hu.
      + destruct (is_active u) eqn:Ha; split.
        * intros Heq. injection Heq as <-. apply user_by_id_first in Hu.
          repeat split; eauto.
        * intros (_ & _ & _ & i & Hi & Hf & _). injection Hi as <-.
          apply user_by_id_first in Hf. congruence.
        * discriminate.
        * intros (_ & _ & _ & i & Hi & Hf & Hact). injection Hi as <-.
          apply user_by_id_first in Hf. congruence.
      + split; [discriminate|].
        intros (_ & _ & _ & i & Hi & Hf & _). injection Hi as <-.
        apply user_by_id_first in Hf. congruence.
    - split; [discriminate|]. intros ([payload ->] & Hge & Hlt & _).
      cbn [unexpired mature] in Hlt, Hge.
      assert (Hok : jwt_decode (Signed (JWT_SECRET_KEY (cfg E)) payload)
                               (JWT_SECRET_KEY (cfg E)) now = Decoded payload)
        by (apply jwt_decode_Decoded; auto).
      congruence.
    - split; [discriminate|]. intros ([payload ->] & Hge & Hlt & _).
      cbn [unexpired mature] in Hlt, Hge.
      assert (Hok : jwt_decode (Signed (JWT_SECRET_KEY (cfg E)) payload)
                               (JWT_SECRET_KEY (cfg E)) now = Decoded payload)
        by (apply jwt_decode_Decoded; auto).
      congruence. }
  assert (Hdeact : forall i, subject tok = Some i ->
                             verify_token E tok now (deactivate i s) = None).
  { intros i Hi.
    destruct (verify_token E tok now (deactivate i s)) as [u|] eqn:Hv; [|reflexivity].
    apply Hchar in Hv as (_ & _ & _ & j & Hj & Hf & Hact).
    assert (j = i) by congruence. subst j. apply user_by_id_first in Hf.
    pose proof (user_by_id_deactivate i s) as Hd. rewrite Hf in Hd. congruence. }
  split; [exact (Hchar s)|]. split; [|split; [exact Hdeact|]].
  - split.
    + intros Hnone (Hsig & Hge & Hexp & i & user & Hi & Hf & Hact).
      assert (Hsome : verify_token E tok now s = Some user)
        by (apply Hchar; eauto 8).
      congruence.
    + intros Hno.
      destruct (verify_token E tok now s) as [u|] eqn:Hv; [|reflexivity].
      exfalso. apply Hno. apply Hchar in Hv as (Hsig & Hge & Hexp & i & Hi & Hf & Hact).
      eauto 10.
  - intros user issued_at t Ht. rewrite (verify_generated_token _ _ _ _ _ _ Ht).
    destruct (_ || _)%bool; [reflexivity|].
    pose proof (user_by_id_deactivate (user_id user) s) as Hd.
    destruct (user_by_id (user_id user) (deactivate (user_id user) s)) as [u|];
      [now rewrite Hd|reflexivity].
Qed.

(** C10: [logout] leaves the store as it found it, whatever the request; its
    whole effect is the response, which tells the client to clear the
    [auth_token] cookie.  So [verify_token] gives the same answer for every
    token before and after a logout, and a token issued earlier to an active
    user of the store still resolves to that user at any time from its issue
    to its expiry. *)
Theorem logout_changes_no_server_state (E : Env) (req : request) (now : Z) (s : Store) :
  snd (logout E req now s) = s
  /\ fst (logout E req now s)
     = {| status_code := 200;
          body := JObj [("message", JStr "Logout successful")];
          set_cookie := Some (auth_cookie E (Unsigned "") 0) |}
  /\ (forall tok later,
         verify_token E tok later (snd (logout E req now s)) = verify_token E tok later s)
  /\ (forall user issued_at later tok,
         generate_token E user issued_at = Ok tok ->
         first_with_id (user_id user) (users s) user ->
         is_active user = true ->
         issued_at <= later < issued_at + JWT_ACCESS_TOKEN_EXPIRES (cfg E) ->
         verify_token E tok later s = Some user
         /\ verify_token E tok later (snd (logout E req now s)) = Some user).
Proof.
  assert (Hs : snd (logout E req now s) = s) by reflexivity.
  split; [exact Hs|]. split; [reflexivity|]. split; [reflexivity|].
  intros user issued_at later tok Ht Hf Hact [Hge Hlt].
  rewrite Hs, (verify_generated_token _ _ _ _ _ _ Ht).
  apply user_by_id_first in Hf.
  destruct (Z.ltb_spec later issued_at); [lia|].
  destruct (Z.leb_spec (issued_at + JWT_ACCESS_TOKEN_EXPIRES (cfg E)) later); [lia|].
  cbn [orb]. now rewrite Hf, Hact.
Qed.

(* ------------------------------------------------------------------ *)
(** ** Route guards (C7) *)

(** C7, as the code has it: under [auth_required] a missing (or empty) token
    is answered 401 "Authentication token required", a token that does not
    resolve is answered 401 "Invalid or expired token", and otherwise the
    handler runs on the request with the resolved user attached.  The admin
    all-tasks route answers the same two 401s first; 403 "Admin access
    required" is the answer only when the token resolves to a user whose role
    is not [admin].  No guard touches the store. *)
Theorem guards_answer_by_token_then_role (E : Env) (f : handler)
    (req : request) (now : Z) (s : Store) :
  (token_falsy (cookie_auth_token req) = true ->
     auth_required E f req now s = (jsonify [("error", JStr "Authentication token required")] 401, s)
     /\ get_all_tasks_route E req now s
        = (jsonify [("error", JStr "Authentication token required")] 401, s))
  /\ (forall tok,
         cookie_auth_token req = Some tok -> token_falsy (Some tok) = false ->
         verify_token E tok now s = None ->
         auth_required E f req now s = (jsonify [("error", JStr "Invalid or expired token")] 401, s)
         /\ get_all_tasks_route E req now s
            = (jsonify [("error", JStr "Invalid or expired token")] 401, s))
  /\ (forall tok user,
         cookie_auth_token req = Some tok -> token_falsy (Some tok) = false ->
         verify_token E tok now s = Some user ->
         auth_required E f req now s = f (with_current_user req user) now s
         /\ current_user (with_current_user req user) = Some user
         /\ (is_admin user = false ->
             get_all_tasks_route E req now s
             = (jsonify [("error", JStr "Admin access required")] 403, s))).
Proof.
  unfold get_all_tasks_route, auth_required, admin_required.
  split; [|split].
  - intros Hf. destruct (cookie_auth_token req) as [tok|]; [|split; reflexivity].
    rewrite Hf. split; reflexivity.
  - intros tok Hc Hf Hv. rewrite Hc, Hf, Hv. split; reflexivity.
  - intros tok user Hc Hf Hv. rewrite Hc, Hf, Hv. split; [reflexivity|].
    split; [reflexivity|]. intros Hadm. now rewrite Hadm.
Qed.

(* ------------------------------------------------------------------ *)
(** ** Owner scoping (C6) *)

Lemma get_task_missing (i : ObjectId) (req : request) (now : Z) (s : Store) (user : User) :
  current_user req = Some user -> task_by_id_of i user s = None ->
  get_task i req now s = (task_not_found, s).
Proof.
  intros Hu Hn. unfold get_task, try_except, get_task_body, bind, get_store, lift, to_object_id.
  now rewrite Hu, Hn.
Qed.

Lemma update_task_missing (E : Env) (i : ObjectId) (req : request) (now : Z) (s : Store)
    (user : User) :
  current_user req = Some user -> task_by_id_of i user s = None ->
  update_task E i req now s = (task_not_found, s).
Proof.
  intros Hu Hn. unfold update_task, try_except, update_task_body, bind, get_store, lift, to_object_id.
  now rewrite Hu, Hn.
Qed.

Lemma delete_task_missing (i : ObjectId) (req : request) (now : Z) (s : Store) (user : User) :
  current_user req = Some user -> task_by_id_of i user s = None ->
  delete_task i req now s = (task_not_found, s).
Proof.
  intros Hu Hn. unfold delete_task, try_except, delete_task_body, bind, get_store, lift, to_object_id.
  now rewrite Hu, Hn.
Qed.

Lemma malformed_id_raises (m : ObjectId -> M response) (label raw : string) (s : Store) :
  try_except label (bind (lift (to_object_id (NotAnOid raw))) m) s
  = (jsonify [("error", JStr label); ("details", JStr (exn_str (not_an_object_id raw)))] 500,
     s).
Proof. reflexivity. Qed.

(** C6, as the code has it: with user [A] attached to the request and a path
    id that is the text of an ObjectId, [get_task], [update_task] and
    [delete_task] answer 404 "Task not found" and leave the store alone
    whenever the store has no task with that id owned by [A] -- the same
    answer whether the id is unknown or the task is another user's, and an
    answer that holds none of the task's data, never a 403.  A 200 answer, or
    any change to the store, happens only for a task that exists and is owned
    by [A]; the task a 200 from [get_task] shows is that task.  For a path id
    that is the text of no ObjectId the query raises, and the three handlers
    answer the 500 of their [except] branch with the text of that error, for
    every user alike, and leave the store alone. *)
Theorem foreign_task_is_not_found (E : Env) (A : User) (i : ObjectId)
    (req : request) (now : Z) (s : Store) :
  current_user req = Some A ->
  (~ owns A i s ->
     get_task i req now s = (jsonify [("error", JStr "Task not found")] 404, s)
     /\ update_task E i req now s = (jsonify [("error", JStr "Task not found")] 404, s)
     /\ delete_task i req now s = (jsonify [("error", JStr "Task not found")] 404, s))
  /\ (status_code (fst (get_task i req now s)) = 200 ->
      exists t, In t (tasks s) /\ task_id t = i /\ task_user t = user_id A
                /\ fst (get_task i req now s) = jsonify [("task", task_json t)] 200)
  /\ (status_code (fst (update_task E i req now s)) = 200
      \/ snd (update_task E i req now s) <> s -> owns A i s)
  /\ (status_code (fst (delete_task i req now s)) = 200
      \/ snd (delete_task i req now s) <> s -> owns A i s)
  /\ (forall raw,
         get_task (NotAnOid raw) req now s
         = (jsonify [("error", JStr "Failed to get task");
                     ("details", JStr (exn_str (not_an_object_id raw)))] 500, s)
         /\ update_task E (NotAnOid raw) req now s
            = (jsonify [("error", JStr "Task update failed");
                        ("details", JStr (exn_str (not_an_object_id raw)))] 500, s)
         /\ delete_task (NotAnOid raw) req now s
            = (jsonify [("error", JStr "Task deletion failed");
                        ("details", JStr (exn_str (not_an_object_id raw)))] 500, s)).
Proof.
  intros Hu.
  assert (Hraw : forall raw,
             get_task (NotAnOid raw) req now s
             = (jsonify [("error", JStr "Failed to get task");
                         ("details", JStr (exn_str (not_an_object_id raw)))] 500, s)
             /\ update_task E (NotAnOid raw) req now s
                = (jsonify [("error", JStr "Task update failed");
                            ("details", JStr (exn_str (not_an_object_id raw)))] 500, s)
             /\ delete_task (NotAnOid raw) req now s
                = (jsonify [("error", JStr "Task deletion failed");
                            ("details", JStr (exn_str (not_an_object_id raw)))] 500, s)).
  { intros raw. unfold get_task, update_task, delete_task, get_task_body, update_task_body,
      delete_task_body.
    rewrite Hu. repeat split; apply malformed_id_raises. }
  destruct (task_by_id_of i A s) as [t|] eqn:Hfind.
  - pose proof (task_by_id_of_Some _ _ _ _ Hfind) as (Hin & Hid & Hown).
    assert (Howns : owns A i s) by (exists t; auto).
    split; [intros Hno; now elim Hno|].
    split; [|split; [intros _; exact Howns|split; [intros _; exact Howns|exact Hraw]]].
    intros _. exists t. repeat split; auto.
    unfold get_task, try_except, get_task_body, bind, get_store, lift, to_object_id.
    now rewrite Hu, Hfind.
  - rewrite (get_task_missing _ _ _ _ _ Hu Hfind),
            (update_task_missing _ _ _ _ _ _ Hu Hfind),
            (delete_task_missing _ _ _ _ _ Hu Hfind).
    split; [intros _; repeat split|].
    cbn [fst snd task_not_found jsonify status_code]. split; [discriminate|].
    split; [|split; [|exact Hraw]]; (intros [Hc|Hc]; [discriminate|now elim Hc]).
Qed.

(* ------------------------------------------------------------------ *)
(** ** Pagination (C9) *)

Lemma int_arg_zero (a : dict string) (k lim : string) (dflt : Z) :
  dict_find a k = Some lim -> int_of_string lim = Some 0 -> int_arg a k dflt = Ok 0.
Proof. intros Hf Hz. unfold int_arg, py_int. now rewrite Hf, Hz. Qed.

Lemma get_tasks_zero_limit (E : Env) (req : request) (s : Store) (user : User) (lim : string) :
  current_user req = Some user ->
  dict_find (args req) "limit" = Some lim -> int_of_string lim = Some 0 ->
  exists e, get_tasks_body E req s = (Raise e, s)
            /\ ((exists page, int_arg (args req) "page" 1 = Ok page)
                -> (forall l, exists w, cursor_window E 0 0 l = Ok w)
                -> e = ZeroDivisionError).
Proof.
  intros Hu Hf Hz. unfold get_tasks_body. rewrite Hu.
  unfold bind, lift, get_store.
  destruct (int_arg (args req) "page" 1) as [page|e] eqn:Hp.
  - rewrite (int_arg_zero _ _ _ _ Hf Hz), Z.mul_0_r.
    match goal with
    | |- context [cursor_window E 0 0 ?l] =>
        destruct (cursor_window E 0 0 l) as [w|e] eqn:Hw
    end.
    + exists ZeroDivisionError. split; reflexivity.
    + exists e. split; [reflexivity|]. intros _ Hall.
      match type of Hw with
      | cursor_window E 0 0 ?l = _ => destruct (Hall l) as [w Hw']
      end.
      congruence.
  - exists e. split; [reflexivity|]. intros [page Hpage]. discriminate.
Qed.

(** C9: a task-list request whose [limit] argument reads as 0 never yields the
    paginated 200 answer, nor a 400: for an authenticated user [get_tasks]
    always ends in its [except] branch, 500 "Failed to get tasks", with the
    store untouched.  The division [(total + limit - 1) // limit] has no guard
    for [limit = 0]: it raises [ZeroDivisionError] for every [total], and that
    is the exception reported whenever [page] reads as a number and the cursor
    itself accepts [skip(0).limit(0)].  Through the route the answer is that
    500, or the guard's 401 when the token is missing or does not resolve. *)
Theorem zero_limit_is_a_server_error (E : Env) (req : request) (now : Z) (s : Store)
    (lim : string) :
  dict_find (args req) "limit" = Some lim ->
  int_of_string lim = Some 0 ->
  (forall user, current_user req = Some user ->
     exists e, get_tasks E req now s
               = ({| status_code := 500;
                     body := JObj [("error", JStr "Failed to get tasks");
                                   ("details", JStr (exn_str e))];
                     set_cookie := None |}, s)
               /\ ((exists page, int_arg (args req) "page" 1 = Ok page)
                   -> (forall l, exists w, cursor_window E 0 0 l = Ok w)
                   -> e = ZeroDivisionError))
  /\ (forall total, py_floordiv (total + 0 - 1) 0 = Raise ZeroDivisionError)
  /\ (status_code (fst (get_tasks_route E req now s)) = 500
      \/ status_code (fst (get_tasks_route E req now s)) = 401)
  /\ (forall tok user,
         cookie_auth_token req = Some tok -> token_falsy (Some tok) = false ->
         verify_token E tok now s = Some user ->
         status_code (fst (get_tasks_route E req now s)) = 500).
Proof.
  intros Hf Hz.
  assert (Hh : forall r user, current_user r = Some user -> args r = args req ->
     exists e, get_tasks E r now s = (failure_response "Failed to get tasks" e, s)
               /\ ((exists page, int_arg (args r) "page" 1 = Ok page)
                   -> (forall l, exists w, cursor_window E 0 0 l = Ok w)
                   -> e = ZeroDivisionError)).
  { intros r user Hu Ha. rewrite <- Ha in Hf.
    destruct (get_tasks_zero_limit E r s user lim Hu Hf Hz) as (e & He & Hdiv).
    exists e. split; [|exact Hdiv].
    unfold get_tasks. apply try_except_raise. exact He. }
  split; [intros user Hu; exact (Hh req user Hu eq_refl)|].
  split; [reflexivity|].
  unfold get_tasks_route, auth_required.
  split.
  - destruct (cookie_auth_token req) as [tok|]; [|now right].
    destruct (token_falsy (Some tok)); [now right|].
    destruct (verify_token E tok now s) as [user|]; [|now right].
    destruct (Hh (with_current_user req user) user eq_refl eq_refl) as (e & He & _).
    left. now rewrite He.
  - intros tok user Hc Hfalsy Hv. rewrite Hc, Hfalsy, Hv.
    destruct (Hh (with_current_user req user) user eq_refl eq_refl) as (e & He & _).
    now rewrite He.
Qed.

(* ------------------------------------------------------------------ *)
(** ** Login failures (C3) *)

Lemma truthy_VStr (x : string) : x <> "" -> truthy (VStr x) = true.
Proof.
  intros Hx. cbn. destruct (String.eqb_spec x ""); [contradiction|reflexivity].
Qed.

(** The path of [login] up to the user lookup, for a body carrying a login
    string and a truthy password. *)
Lemma login_body_lookup (E : Env) (req : request) (now : Z) (s : Store)
    (d : dict pyval) (l : string) (pw : pyval) :
  get_json req = Some d ->
  dict_find d "login" = Some (VStr l) -> l <> "" ->
  dict_find d "password" = Some pw -> truthy pw = true ->
  login_body E req now s
  = match login_lookup l s with
    | None => (Ok invalid_credentials, s)
    | Some user =>
        match check_password E user pw with
        | Raise e => (Raise e, s)
        | Ok good =>
            if negb good then (Ok invalid_credentials, s)
            else if negb (is_active user) then (Ok account_deactivated, s)
            else
              match generate_token E user now with
              | Ok tok => (Ok (token_response E "Login successful" user tok 200), s)
              | Raise e => (Raise e, s)
              end
        end
    end.
Proof.
  intros Hj Hl Hne Hp Hpt.
  unfold login_body, bind, lift, ret, get_store, data_get, data_item, dict_get, dict_item.
  rewrite Hj, Hl, Hp, (truthy_VStr l Hne), Hpt. cbn [negb py_strip].
  unfold login_lookup.
  destruct (user_by_email (VStr (lower (strip l))) s) as [u|].
  - destruct (check_password E u pw) as [[|]|e]; [|reflexivity|reflexivity].
    cbn [negb]. destruct (is_active u); [|reflexivity].
    cbn [negb]. now destruct (generate_token E u now).
  - destruct (user_by_username (VStr (strip l)) s) as [u|]; [|reflexivity].
    destruct (check_password E u pw) as [[|]|e]; [|reflexivity|reflexivity].
    cbn [negb]. destruct (is_active u); [|reflexivity].
    cbn [negb]. now destruct (generate_token E u now).
Qed.

(** C3, as the code has it: for a login body with a login string and a
    password string, an identifier that matches no user and a wrong password
    for an existing user get one and the same answer, 401 "Invalid
    credentials"; an existing account with the correct password that is
    deactivated gets 401 too, but with the body "Account is deactivated".
    With a truthy password that is no string the unknown identifier is still
    answered 401 "Invalid credentials", while for an existing user the
    password check raises and the answer is 500 "Login failed".  None of them
    changes the store. *)
Theorem login_failure_answers (E : Env) (req : request) (now : Z) (s : Store)
    (d : dict pyval) (l : string) :
  get_json req = Some d ->
  dict_find d "login" = Some (VStr l) -> l <> "" ->
  (forall pw,
      dict_find d "password" = Some pw -> truthy pw = true ->
      login_lookup l s = None ->
      login E req now s = (jsonify [("error", JStr "Invalid credentials")] 401, s))
  /\ (forall p user,
         dict_find d "password" = Some (VStr p) -> p <> "" ->
         login_lookup l s = Some user ->
         check_password_hash E (password_hash user) p = false ->
         login E req now s = (jsonify [("error", JStr "Invalid credentials")] 401, s))
  /\ (forall p user,
         dict_find d "password" = Some (VStr p) -> p <> "" ->
         login_lookup l s = Some user ->
         check_password_hash E (password_hash user) p = true ->
         is_active user = false ->
         login E req now s = (jsonify [("error", JStr "Account is deactivated")] 401, s))
  /\ (forall pw user,
         dict_find d "password" = Some pw -> truthy pw = true ->
         (forall p, pw <> VStr p) ->
         login_lookup l s = Some user ->
         login E req now s
         = (jsonify [("error", JStr "Login failed");
                     ("details", JStr (exn_str (AttributeError pw "encode")))] 500, s)).
Proof.
  intros Hj Hl Hne. unfold login.
  split; [|split; [|split]].
  - intros pw Hp Hpt Hnone. apply try_except_ok.
    rewrite (login_body_lookup E req now s d l pw Hj Hl Hne Hp Hpt), Hnone. reflexivity.
  - intros p user Hp Hpne Hsome Hbad. apply try_except_ok.
    rewrite (login_body_lookup E req now s d l _ Hj Hl Hne Hp (truthy_VStr p Hpne)), Hsome.
    cbn [check_password]. rewrite Hbad. reflexivity.
  - intros p user Hp Hpne Hsome Hgood Hoff. apply try_except_ok.
    rewrite (login_body_lookup E req now s d l _ Hj Hl Hne Hp (truthy_VStr p Hpne)), Hsome.
    cbn [check_password]. rewrite Hgood, Hoff. reflexivity.
  - intros pw user Hp Hpt Hns Hsome. apply try_except_raise.
    rewrite (login_body_lookup E req now s d l pw Hj Hl Hne Hp Hpt), Hsome.
    destruct pw; try reflexivity. now elim (Hns s0).
Qed.

(* ------------------------------------------------------------------ *)
(** ** Completion time (C8) *)

Lemma unchanged_refl (t : Task) : unchanged t t.
Proof. now repeat split. Qed.

Lemma choice_of_Some (v : pyval) (choices : list string) (st : string) :
  choice_of v choices = Some st -> v = VStr st.
Proof.
  destruct v; cbn; try discriminate.
  destruct (in_choices s choices); [|discriminate]. now intros [= ->].
Qed.

Lemma update_title_step (data : json_body) (t : Task) :
  step_keeps (unchanged t) (update_title data t).
Proof.
  unfold update_title, rbind.
  destruct (data_mem data "title") as [[|]|e]; cbn; try exact I; [|apply unchanged_refl].
  destruct (data_item data "title") as [v|e]; cbn; [|exact I].
  destruct (truthy v); cbn; [|reflexivity].
  destruct (py_len v) as [n|e]; cbn; [|exact I].
  destruct (n >? 200); cbn; [reflexivity|].
  destruct (py_strip v) as [x|e]; cbn; [|exact I].
  now repeat split.
Qed.

Lemma update_description_step (data : json_body) (t : Task) :
  step_keeps (unchanged t) (update_description data t).
Proof.
  unfold update_description, rbind.
  destruct (data_mem data "description") as [[|]|e]; cbn; try exact I; [|apply unchanged_refl].
  destruct (data_item data "description") as [v|e]; cbn; [|exact I].
  destruct (truthy v); cbn; [|reflexivity].
  destruct (py_len v) as [n|e]; cbn; [|exact I].
  destruct (n >? 1000); cbn; [reflexivity|].
  destruct (py_strip v) as [x|e]; cbn; [|exact I].
  now repeat split.
Qed.

Lemma update_priority_step (data : json_body) (t : Task) :
  step_keeps (unchanged t) (update_priority data t).
Proof.
  unfold update_priority, rbind.
  destruct (data_mem data "priority") as [[|]|e]; cbn; try exact I; [|apply unchanged_refl].
  destruct (data_item data "priority") as [v|e]; cbn; [|exact I].
  destruct (choice_of v priority_choices); cbn; [|reflexivity].
  now repeat split.
Qed.

Lemma update_due_date_step (E : Env) (data : json_body) (t : Task) :
  step_keeps (unchanged t) (update_due_date E data t).
Proof.
  unfold update_due_date, parse_due_date, rbind.
  destruct (data_mem data "due_date") as [[|]|e]; cbn; try exact I; [|apply unchanged_refl].
  destruct (data_item data "due_date") as [v|e]; cbn; [|exact I].
  destruct (truthy v); cbn; [|now repeat split].
  destruct (py_replace_Z v) as [x|e]; cbn; [|exact I].
  destruct (fromisoformat E x); cbn; [now repeat split|reflexivity].
Qed.

(** The status step is the only one that writes [completed_at], and it writes
    it as [stamp] says. *)
Lemma update_status_step (data : json_body) (t : Task) (now : Z) :
  step_keeps (fun t' => task_id t' = task_id t /\ task_user t' = task_user t
                        /\ completed_at t' = stamp data now (completed_at t))
             (update_status data t now).
Proof.
  unfold update_status, rbind, stamp, status_is_completed, data_mem, data_item,
    dict_mem, dict_item.
  destruct data as [d|]; cbn; [|exact I].
  destruct (dict_find d "status") as [v|]; cbn; [|now repeat split].
  destruct (choice_of v status_choices) as [st|] eqn:Hc; cbn; [|reflexivity].
  apply choice_of_Some in Hc. subst v. cbn [eq_str].
  destruct (st =? "completed")%string; cbn [andb];
    [destruct (completed_at t) eqn:Hdone|]; cbn; rewrite ?Hdone; now repeat split.
Qed.

(** A saved task is what the scoped lookup finds afterwards. *)
Lemma task_by_id_of_replace (i : ObjectId) (user : User) (t t' : Task)
    (us : list User) (l : list Task) (n : N) :
  task_by_id_of i user (mkStore us l n) = Some t ->
  task_id t' = i -> task_user t' = user_id user ->
  task_by_id_of i user (mkStore us (replace_task t' l) n) = Some t'.
Proof.
  unfold task_by_id_of. cbn [tasks]. intros Hf Hid Hown. subst i.
  assert (Hp : (N.eqb (task_id t') (task_id t')
                && N.eqb (task_user t') (user_id user))%bool = true)
    by (now rewrite Hown, !N.eqb_refl).
  induction l as [|x l IH]; [discriminate|].
  unfold replace_task in *. cbn [map find] in *.
  destruct (N.eqb (task_id x) (task_id t')) eqn:Hx.
  - now rewrite Hp.
  - cbn [andb] in *. rewrite Hx. cbn [andb]. apply IH. exact Hf.
Qed.

(** What one [update_task] does to the task it finds. *)
Lemma update_task_on_found (E : Env) (user : User) (i : ObjectId)
    (req : request) (now : Z) (s : Store) (t : Task) :
  current_user req = Some user ->
  task_by_id_of i user s = Some t ->
  (snd (update_task E i req now s) = s
   /\ status_code (fst (update_task E i req now s)) <> 200)
  \/ (exists t',
         status_code (fst (update_task E i req now s)) = 200
         /\ task_by_id_of i user (snd (update_task E i req now s)) = Some t'
         /\ completed_at t' = stamp (get_json req) now (completed_at t)).
Proof.
  intros Hu Hf.
  pose proof (task_by_id_of_Some _ _ _ _ Hf) as (_ & Hid & Hown).
  unfold update_task, try_except, update_task_body, and_then, bind, lift, ret, get_store, to_object_id.
  rewrite Hu, Hf.
  pose proof (update_title_step (get_json req) t) as H1.
  destruct (update_title (get_json req) t) as [[t1|r1]|e1]; cbn in H1;
    [|left; cbn; split; [reflexivity|rewrite H1; discriminate]
     |left; cbn; split; [reflexivity|discriminate]].
  destruct H1 as (Hi1 & Ho1 & Hc1).
  pose proof (update_description_step (get_json req) t1) as H2.
  destruct (update_description (get_json req) t1) as [[t2|r2]|e2]; cbn in H2;
    [|left; cbn; split; [reflexivity|rewrite H2; discriminate]
     |left; cbn; split; [reflexivity|discriminate]].
  destruct H2 as (Hi2 & Ho2 & Hc2).
  pose proof (update_status_step (get_json req) t2 now) as H3.
  destruct (update_status (get_json req) t2 now) as [[t3|r3]|e3]; cbn in H3;
    [|left; cbn; split; [reflexivity|rewrite H3; discriminate]
     |left; cbn; split; [reflexivity|discriminate]].
  destruct H3 as (Hi3 & Ho3 & Hc3).
  pose proof (update_priority_step (get_json req) t3) as H4.
  destruct (update_priority (get_json req) t3) as [[t4|r4]|e4]; cbn in H4;
    [|left; cbn; split; [reflexivity|rewrite H4; discriminate]
     |left; cbn; split; [reflexivity|discriminate]].
  destruct H4 as (Hi4 & Ho4 & Hc4).
  pose proof (update_due_date_step E (get_json req) t4) as H5.
  destruct (update_due_date E (get_json req) t4) as [[t5|r5]|e5]; cbn in H5;
    [|left; cbn; split; [reflexivity|rewrite H5; discriminate]
     |left; cbn; split; [reflexivity|discriminate]].
  destruct H5 as (Hi5 & Ho5 & Hc5).
  unfold update_task_doc.
  destruct (task_validate E (set_updated_at t5 now)) as [msg|];
    [left; cbn; split; [reflexivity|discriminate]|].
  right. exists (set_updated_at t5 now). cbn [fst snd status_code jsonify].
  split; [reflexivity|]. split.
  - destruct s as [us l n]. cbn [users tasks next_id].
    apply (task_by_id_of_replace i user t); [exact Hf| |]; cbn; congruence.
  - cbn. congruence.
Qed.

Lemma stamp_Some (data : json_body) (now x : Z) : stamp data now (Some x) = Some x.
Proof. unfold stamp. cbn. now rewrite andb_false_r. Qed.

Lemma stamp_completed (data : json_body) (now : Z) (old : option Z) :
  status_is_completed data = true ->
  stamp data now old = match old with None => Some now | Some x => Some x end.
Proof. intros H. unfold stamp. rewrite H. now destruct old. Qed.

Lemma stamp_other (data : json_body) (now : Z) (old : option Z) :
  status_is_completed data = false -> stamp data now old = old.
Proof. intros H. unfold stamp. now rewrite H. Qed.

(** Take a task that [update_task] finds for its owner.  After the update
    the task is still there, and
    - if the update succeeds and sets [status] to ['completed'], its
      [completed_at] is the time of the update exactly when it was unset
      before, and is the old value otherwise;
    - if the update succeeds with any other body, or fails, [completed_at] is
      what it was;
    - so a [completed_at] that is set is never cleared or changed, and a
      second update of any kind (to ['completed'] in particular) after one
      that completed the task leaves [completed_at] as the first one set it. *)
Theorem completed_at_is_set_once (E : Env) (user : User) (i : ObjectId)
    (req : request) (now : Z) (s : Store) (t : Task) :
  current_user req = Some user ->
  task_by_id_of i user s = Some t ->
  exists t',
    task_by_id_of i user (snd (update_task E i req now s)) = Some t'
    /\ (status_code (fst (update_task E i req now s)) = 200 ->
        status_is_completed (get_json req) = true ->
        completed_at t' = match completed_at t with None => Some now | Some x => Some x end)
    /\ (status_code (fst (update_task E i req now s)) = 200 ->
        status_is_completed (get_json req) = false ->
        completed_at t' = completed_at t)
    /\ (status_code (fst (update_task E i req now s)) <> 200 -> t' = t)
    /\ (forall x, completed_at t = Some x -> completed_at t' = Some x)
    /\ (forall req2 now2,
           current_user req2 = Some user ->
           status_code (fst (update_task E i req now s)) = 200 ->
           status_is_completed (get_json req) = true ->
           exists t'',
             task_by_id_of i user
               (snd (update_task E i req2 now2 (snd (update_task E i req now s)))) = Some t''
             /\ completed_at t'' = completed_at t'
             /\ completed_at t' <> None).
Proof.
  intros Hu Hf.
  destruct (update_task_on_found E user i req now s t Hu Hf)
    as [[Hs Hcode]|(t' & Hcode & Hf' & Hc)].
  - exists t. rewrite Hs.
    split; [exact Hf|]. split; [intros H; contradiction|].
    split; [intros H; contradiction|]. split; [reflexivity|].
    split; [auto|]. intros req2 now2 _ H. contradiction.
  - exists t'. split; [exact Hf'|].
    split; [intros _ Hdone; now rewrite Hc, (stamp_completed _ _ _ Hdone)|].
    split; [intros _ Hother; now rewrite Hc, (stamp_other _ _ _ Hother)|].
    split; [intros H; contradiction|].
    split; [intros x Hx; now rewrite Hc, Hx, stamp_Some|].
    intros req2 now2 Hu2 _ Hdone.
    assert (Hset : exists x, completed_at t' = Some x).
    { rewrite Hc, (stamp_completed _ _ _ Hdone). destruct (completed_at t); eauto. }
    destruct Hset as [x Hx].
    destruct (update_task_on_found E user i req2 now2 _ t' Hu2 Hf')
      as [[Hs2 _]|(t'' & _ & Hf'' & Hc2)].
    + exists t'. rewrite Hs2. split; [exact Hf'|]. split; [reflexivity|]. congruence.
    + exists t''. split; [exact Hf''|]. split; [|congruence].
      now rewrite Hc2, Hx, stamp_Some.
Qed.

(** C8 at its failing input: [create_task] takes the [status] of the body
    and never sets [completed_at].  A task created with status ['completed']
    is stored completed with [completed_at] unset -- the first time its
    status is ['completed'] leaves no completion time -- and a later update
    to ['completed'], made at another time, is what stamps it, with that
    later time.  [update_task], on the same field, does stamp the time of the
    update that completes a task. *)
Theorem task_created_completed_is_not_stamped (E : Env) (user : User) (now later : Z)
    (s : Store) :
  (let req := as_user user (Some [("title", VStr "t"); ("description", VStr "d");
                                  ("status", VStr "completed")]) [] in
   let doc := mkTask 0%N "t" "d" (user_id user) "completed" "medium" None now now None in
   match task_validate E doc with
   | None =>
       status_code (fst (create_task E req now s)) = 201
       /\ snd (create_task E req now s)
          = mkStore (users s) (tasks s ++ [set_task_id doc (next_id s)]) (N.succ (next_id s))
       /\ status (set_task_id doc (next_id s)) = "completed"
       /\ completed_at (set_task_id doc (next_id s)) = None
   | Some msg =>
       create_task E req now s
       = (failure_response "Task creation failed" (ValidationError msg), s)
   end)
  /\ (forall i s1 t,
         task_by_id_of i user s1 = Some t ->
         status t = "completed" -> completed_at t = None ->
         let req2 := as_user user (Some [("status", VStr "completed")]) [] in
         status_code (fst (update_task E i req2 later s1)) = 200 ->
         exists t',
           task_by_id_of i user (snd (update_task E i req2 later s1)) = Some t'
           /\ completed_at t' = Some later)
  /\ (let created :=
        create_task (sample_env false)
          (as_user alice (Some [("title", VStr "t"); ("description", VStr "d");
                                ("status", VStr "completed")]) [])
          100 sample_store in
      let updated :=
        update_task (sample_env false) 12%N
          (as_user alice (Some [("status", VStr "completed")]) []) 200 (snd created) in
      status_code (fst created) = 201
      /\ option_map (fun t => (status t, completed_at t))
                    (task_by_id_of 12%N alice (snd created))
         = Some ("completed", None)
      /\ status_code (fst updated) = 200
      /\ option_map (fun t => (status t, completed_at t))
                    (task_by_id_of 12%N alice (snd updated))
         = Some ("completed", Some 200)).
Proof.
  split; [|split].
  - cbv zeta.
    unfold create_task, try_except, create_task_body, and_then, bind, lift, ret, insert_task.
    cbn -[task_validate set_task_id].
    destruct (task_validate E _) as [msg|]; [reflexivity|].
    cbn. repeat split; reflexivity.
  - intros i s1 t Hf Hst Hdone. cbv zeta. intros Hcode.
    destruct (update_task_on_found E user i
                (as_user user (Some [("status", VStr "completed")]) []) later s1 t
                eq_refl Hf)
      as [[_ Hno]|(t' & _ & Hf' & Hc)]; [contradiction|].
    exists t'. split; [exact Hf'|]. rewrite Hc, Hdone. reflexivity.
  - vm_compute. repeat split; reflexivity.
Qed.

(* ------------------------------------------------------------------ *)
(** ** Enum fields on creation (C2) *)

(** C2 at its failing input: [create_task] and [register] hand the request's
    [status], [priority] and [role] strings to the document unchecked, whatever
    they are.  The answer is never the 400 of a validation failure: when the
    document class accepts the document it is stored as given and the answer
    is 201 (from [register], the 500 of the [except] branch instead when
    [generate_token] raises); when it does not, the
    answer is the 500 of the [except] branch.  [update_task], on the same
    fields, does answer 400 "Invalid status". *)
Theorem create_and_register_take_any_enum_string (E : Env) (user : User) (now : Z)
    (ts : list Task) (n : N) (st pr ro : string) :
  (let s := mkStore [] ts n in
   let req := as_user user (Some [("title", VStr "t"); ("description", VStr "d");
                                  ("status", VStr st); ("priority", VStr pr)]) [] in
   let doc := mkTask 0%N "t" "d" (user_id user) st pr None now now None in
   match task_validate E doc with
   | None =>
       status_code (fst (create_task E req now s)) = 201
       /\ tasks (snd (create_task E req now s)) = (ts ++ [set_task_id doc n])%list
   | Some msg =>
       create_task E req now s
       = (failure_response "Task creation failed" (ValidationError msg), s)
   end)
  /\ (let s := mkStore [] ts n in
      let req := anonymous (Some [("username", VStr "u"); ("email", VStr "e@x.io");
                                  ("password", VStr "secret"); ("name", VStr "n");
                                  ("role", VStr ro)]) [] in
      let doc := mkUser 0%N "u" "e@x.io" "n" (generate_password_hash E "secret") ro true now now in
      match user_validate E doc with
      | None =>
          status_code (fst (register E req now s))
          = match generate_token E (set_user_id doc n) now with
            | Ok _ => 201
            | Raise _ => 500
            end
          /\ users (snd (register E req now s)) = [set_user_id doc n]
      | Some msg =>
          register E req now s
          = (failure_response "Registration failed" (ValidationError msg), s)
      end)
  /\ (forall i s t d,
         task_by_id_of i user s = Some t ->
         dict_find d "title" = None -> dict_find d "description" = None ->
         dict_find d "status" = Some (VStr st) ->
         in_choices st status_choices = false ->
         update_task E i (as_user user (Some d) []) now s
         = (jsonify [("error", JStr "Invalid status")] 400, s)).
Proof.
  split; [|split].
  - cbv zeta.
    unfold create_task, try_except, create_task_body, and_then, bind, lift, ret, insert_task.
    cbn -[task_validate set_task_id].
    destruct (task_validate E _) as [msg|]; [reflexivity|].
    cbn. split; reflexivity.
  - cbv zeta.
    unfold register, try_except, register_body, and_then, bind, lift, ret, get_store,
      insert_user.
    cbn -[user_validate set_user_id generate_password_hash unique_index generate_token].
    destruct (user_validate E _) as [msg|]; [reflexivity|].
    unfold clashes. cbn [users existsb]. rewrite andb_false_r.
    cbv zeta.
    destruct (generate_token E _ now) as [tok|e]; split; reflexivity.
  - intros i s t d Hf Ht Hd Hs Hbad.
    unfold update_task, try_except, update_task_body, and_then, bind, lift, ret, get_store, to_object_id.
    cbn [current_user as_user get_json]. rewrite Hf.
    unfold update_title, update_description, update_status, rbind, data_mem, data_item,
      dict_mem, dict_item.
    rewrite Ht, Hd, Hs. cbn [choice_of]. rewrite Hbad. reflexivity.
Qed.

(* ------------------------------------------------------------------ *)
(** ** Duplicate email on registration (C4) *)

Lemma check_required_Return (data : json_body) (r : response) :
  check_required data required_fields = Ok (Return r) -> r <> email_already_registered.
Proof.
  unfold required_fields, check_required, rbind.
  destruct (data_get data "username") as [v1|]; [|discriminate].
  destruct (truthy v1); [|intros [= <-]; discriminate].
  destruct (data_get data "email") as [v2|]; [|discriminate].
  destruct (truthy v2); [|intros [= <-]; discriminate].
  destruct (data_get data "password") as [v3|]; [|discriminate].
  destruct (truthy v3); [|intros [= <-]; discriminate].
  destruct (data_get data "name") as [v4|]; [|discriminate].
  destruct (truthy v4); [|intros [= <-]; discriminate].
  discriminate.
Qed.

Lemma user_by_email_raw (ev : string) (s : Store) :
  (forall u, In u (users s) -> email u <> ev) -> user_by_email (VStr ev) s = None.
Proof.
  intros H. unfold user_by_email, find_user. apply find_some_iff.
  intros u Hu. cbn. apply String.eqb_neq. intros Heq. now apply (H u Hu).
Qed.

(** C4 at its failing input.  [register] looks the email up as the request
    spells it and lowercases it only afterwards, for storage: when no stored
    email equals the request's spelling, the answer is never 400 "Email
    already registered", whatever the lowercased form collides with.  So after
    registering [Alice@Example.com], a second registration of
    [ALICE@example.com] under another username is not refused as a duplicate
    email: without a unique index it is stored (201, two users with one
    email); with one, the write fails and the answer is the 500 of the
    [except] branch. *)
Theorem register_looks_up_the_email_as_spelled (E : Env) (req : request) (now : Z)
    (s : Store) (uniq : bool) :
  (forall d ev,
      get_json req = Some d -> dict_find d "email" = Some (VStr ev) ->
      (forall u, In u (users s) -> email u <> ev) ->
      fst (register E req now s) <> jsonify [("error", JStr "Email already registered")] 400)
  /\ (let first := register (sample_env uniq)
                     (anonymous (register_json "alice" "Alice@Example.com" "secret1" "Alice") [])
                     1 empty_store in
      let second := register (sample_env uniq)
                      (anonymous (register_json "alice2" "ALICE@example.com" "secret2" "Alice") [])
                      2 (snd first) in
      status_code (fst first) = 201
      /\ map email (users (snd first)) = ["alice@example.com"]
      /\ fst second <> jsonify [("error", JStr "Email already registered")] 400
      /\ (if uniq
          then fst second
               = jsonify [("error", JStr "Registration failed");
                          ("details", JStr "Tried to save duplicate unique keys")] 500
               /\ snd second = snd first
          else status_code (fst second) = 201
               /\ map email (users (snd second))
                  = ["alice@example.com"; "alice@example.com"])).
Proof.
  split.
  - intros d ev Hj He Hraw.
    unfold register, try_except, register_body, and_then, bind, lift, ret, get_store.
    destruct (check_required (get_json req) required_fields) as [[[]|r]|e] eqn:Hreq;
      [|cbn; now apply check_required_Return in Hreq|cbn; discriminate].
    rewrite Hj. unfold data_item, dict_item. rewrite He, (user_by_email_raw ev s Hraw).
    cbn [is_some].
    destruct (dict_find d "username") as [uv|]; [|cbn; discriminate].
    destruct (is_some (user_by_username uv s)); [cbn; discriminate|].
    destruct (py_strip uv) as [un|]; [|cbn; discriminate].
    cbn [py_lower].
    destruct (dict_find d "name") as [nv|]; [|cbn; discriminate].
    destruct (py_strip nv) as [nm|]; [|cbn; discriminate].
    unfold data_get_default.
    destruct (dict_find d "password") as [pv|]; [|cbn; discriminate].
    destruct (set_password E pv) as [h|]; [|cbn; discriminate].
    destruct (string_field _ "user") as [ro|]; [|cbn; discriminate].
    unfold insert_user.
    destruct (user_validate E _); [cbn; discriminate|].
    destruct (unique_index E && clashes _ s)%bool; [cbn; discriminate|].
    destruct (generate_token E _ now); cbn; discriminate.
  - destruct uniq; vm_compute; repeat split; discriminate.
Qed.

(* ------------------------------------------------------------------ *)
(** ** The claims at concrete requests *)

(** [register] on a JSON [null] body: the [try] block raises
    [AttributeError], and C1's theorem gives the 500 answer with its text. *)
Lemma register_null_body_is_a_detailed_500 :
  handler_body (sample_env true) Register (anonymous None []) 0 empty_store
  = (Raise (AttributeError VNone "get"), empty_store)
  /\ run_handler (sample_env true) Register (anonymous None []) 0 empty_store
     = ({| status_code := 500;
           body := JObj [("error", JStr "Registration failed");
                         ("details", JStr "'NoneType' object has no attribute 'get'")];
           set_cookie := None |}, empty_store).
Proof.
  split; [reflexivity|].
  exact (proj1 (handler_failure_carries_details (sample_env true) Register
                  (anonymous None []) 0 empty_store empty_store
                  (AttributeError VNone "get") eq_refl)).
Defined.

(** C1 fails as worded: on a JSON [null] body [register] and [create_task]
    answer with the text of the [AttributeError] they caught, and [get_tasks]
    answers [page=abc] with the text of the [ValueError] of [int()]. *)
Lemma null_body_answer_carries_the_exception_text :
  fst (register (sample_env true) (anonymous None []) 0 empty_store)
  = {| status_code := 500;
       body := JObj [("error", JStr "Registration failed");
                     ("details", JStr "'NoneType' object has no attribute 'get'")];
       set_cookie := None |}
  /\ fst (create_task (sample_env true) (as_user alice None []) 0 sample_store)
     = {| status_code := 500;
          body := JObj [("error", JStr "Task creation failed");
                        ("details", JStr "'NoneType' object has no attribute 'get'")];
          set_cookie := None |}
  /\ fst (get_tasks (sample_env true) (as_user alice None [("page", "abc")]) 0 sample_store)
     = {| status_code := 500;
          body := JObj [("error", JStr "Failed to get tasks");
                        ("details", JStr "invalid literal for int() with base 10: 'abc'")];
          set_cookie := None |}
  /\ exn_str (AttributeError VNone "get") = "'NoneType' object has no attribute 'get'"
  /\ ~ error_body_is_generic (sample_env true).
Proof.
  split; [reflexivity|]. split; [reflexivity|]. split; [reflexivity|].
  split; [reflexivity|].
  intros H.
  specialize (H Register (anonymous None []) 0 empty_store
                (AttributeError VNone "get") empty_store eq_refl).
  vm_compute in H. discriminate.
Qed.

(** C3's theorem at the sample store: [bob] is deactivated and gives the
    right password. *)
Lemma deactivated_bob_login :
  get_json (anonymous (login_json "bob" "builder") []) = login_json "bob" "builder"
  /\ dict_find [("login", VStr "bob"); ("password", VStr "builder")] "login"
     = Some (VStr "bob")
  /\ "bob" <> ""
  /\ login (sample_env false) (anonymous (login_json "bob" "builder") []) 7 sample_store
     = (jsonify [("error", JStr "Account is deactivated")] 401, sample_store).
Proof.
  assert (Hb : "bob" <> "") by discriminate.
  assert (Hp : "builder" <> "") by discriminate.
  split; [reflexivity|]. split; [reflexivity|]. split; [exact Hb|].
  exact (proj1 (proj2 (proj2 (login_failure_answers (sample_env false)
                                (anonymous (login_json "bob" "builder") []) 7 sample_store
                                [("login", VStr "bob"); ("password", VStr "builder")] "bob"
                                eq_refl eq_refl Hb)))
               "builder" bob eq_refl Hp eq_refl eq_refl eq_refl).
Defined.

(** C3 fails as worded: the deactivated account is told apart from an unknown
    identifier and from a wrong password by the body of the 401.  (And with
    the number 5 for a password, the unknown identifier is answered 401 and
    the existing user 500.) *)
Lemma deactivated_login_is_told_apart :
  fst (login (sample_env false) (anonymous (login_json "nobody" "builder") []) 7 sample_store)
  = jsonify [("error", JStr "Invalid credentials")] 401
  /\ fst (login (sample_env false) (anonymous (login_json "alice" "wrong") []) 7 sample_store)
     = jsonify [("error", JStr "Invalid credentials")] 401
  /\ fst (login (sample_env false) (anonymous (login_json "bob" "builder") []) 7 sample_store)
     = jsonify [("error", JStr "Account is deactivated")] 401
  /\ fst (login (sample_env false)
            (anonymous (Some [("login", VStr "nobody"); ("password", VNum 5)]) [])
            7 sample_store)
     = jsonify [("error", JStr "Invalid credentials")] 401
  /\ fst (login (sample_env false)
            (anonymous (Some [("login", VStr "alice"); ("password", VNum 5)]) [])
            7 sample_store)
     = jsonify [("error", JStr "Login failed");
                ("details", JStr "'int' object has no attribute 'encode'")] 500
  /\ ~ login_failures_are_uniform (sample_env false).
Proof.
  split; [reflexivity|]. split; [reflexivity|]. split; [reflexivity|].
  split; [reflexivity|]. split; [reflexivity|].
  intros H.
  assert (Hb : "bob" <> "") by discriminate.
  assert (Hp : "builder" <> "") by discriminate.
  specialize (H (anonymous (login_json "bob" "builder") []) 7 sample_store
                [("login", VStr "bob"); ("password", VStr "builder")] "bob" "builder"
                eq_refl eq_refl Hb eq_refl Hp).
  assert (Hcase : login_lookup "bob" sample_store = None
     \/ (exists u, login_lookup "bob" sample_store = Some u
                   /\ check_password_hash (sample_env false) (password_hash u) "builder" = false)
     \/ (exists u, login_lookup "bob" sample_store = Some u
                   /\ check_password_hash (sample_env false) (password_hash u) "builder" = true
                   /\ is_active u = false)).
  { right. right. exists bob. repeat split. }
  specialize (H Hcase). vm_compute in H. discriminate.
Qed.

(** C5 fails as worded: a token signed under the server secret that says it
    was issued at 100 is refused at 50, though it is unexpired and its
    subject is the active user [alice]. *)
Lemma token_issued_later_than_the_clock_is_refused :
  verify_token (sample_env true) early_token 50 sample_store = None
  /\ signature_valid early_token (JWT_SECRET_KEY (cfg (sample_env true)))
  /\ unexpired early_token 50
  /\ subject early_token = Some 1%N
  /\ first_with_id 1%N (users sample_store) alice
  /\ is_active alice = true
  /\ ~ resolves_as_worded (sample_env true).
Proof.
  assert (Hsig : signature_valid early_token (JWT_SECRET_KEY (cfg (sample_env true))))
    by (eexists; reflexivity).
  assert (Hexp : unexpired early_token 50) by reflexivity.
  assert (Hfirst : first_with_id 1%N (users sample_store) alice).
  { exists [], [bob; root]. repeat split. intros x []. }
  split; [reflexivity|]. split; [exact Hsig|]. split; [exact Hexp|].
  split; [reflexivity|]. split; [exact Hfirst|]. split; [reflexivity|].
  intros H.
  assert (Hv : verify_token (sample_env true) early_token 50 sample_store = Some alice)
    by (apply H; repeat split; auto; exists 1%N; repeat split; auto).
  vm_compute in Hv. discriminate.
Qed.

(** C6 fails as worded: a path id that is the text of no ObjectId names no
    task, and the answer is 500 with the text of the error, not 404. *)
Lemma malformed_task_id_is_a_server_error :
  get_task (NotAnOid "abc") (as_user alice None []) 7 sample_store
  = (jsonify [("error", JStr "Failed to get task");
              ("details",
               JStr ("'abc' is not a valid ObjectId, it must be a 12-byte input"
                       ++ " or a 24-character hex string"))] 500,
     sample_store)
  /\ status_code (fst (update_task (sample_env false) (NotAnOid "abc")
                         (as_user alice (Some [("title", VStr "x")]) []) 7 sample_store))
     = 500
  /\ status_code (fst (delete_task (NotAnOid "abc") (as_user alice None []) 7 sample_store))
     = 500
  /\ ~ missing_task_is_not_found (sample_env false).
Proof.
  split; [reflexivity|]. split; [reflexivity|]. split; [reflexivity|].
  intros H.
  destruct (H alice (NotAnOid "abc") (as_user alice None []) 7 sample_store eq_refl)
    as [Hget _]; [intros i Hi; discriminate|].
  vm_compute in Hget. discriminate.
Qed.

(** C6's theorem at the sample store: [alice] asks for [bob]'s task. *)
Lemma alice_cannot_see_bobs_task :
  current_user (as_user alice (Some [("status", VStr "completed")]) []) = Some alice
  /\ ~ owns alice 11%N sample_store
  /\ get_task 11%N (as_user alice (Some [("status", VStr "completed")]) []) 7 sample_store
     = (jsonify [("error", JStr "Task not found")] 404, sample_store)
  /\ update_task (sample_env false) 11%N
       (as_user alice (Some [("status", VStr "completed")]) []) 7 sample_store
     = (jsonify [("error", JStr "Task not found")] 404, sample_store)
  /\ delete_task 11%N (as_user alice (Some [("status", VStr "completed")]) []) 7 sample_store
     = (jsonify [("error", JStr "Task not found")] 404, sample_store).
Proof.
  assert (Hno : ~ owns alice 11%N sample_store)
    by (apply task_by_id_of_None; reflexivity).
  split; [reflexivity|]. split; [exact Hno|].
  exact (proj1 (foreign_task_is_not_found (sample_env false) alice 11%N
                  (as_user alice (Some [("status", VStr "completed")]) []) 7
                  sample_store eq_refl) Hno).
Defined.

(** C7 fails as worded: the admin route answers 401, not 403, to a caller
    without a token and to one whose token does not resolve. *)
Lemma admin_route_answers_401_without_a_valid_token :
  get_all_tasks_route (sample_env false) (anonymous None []) 7 sample_store
  = (jsonify [("error", JStr "Authentication token required")] 401, sample_store)
  /\ get_all_tasks_route (sample_env false) (with_cookie (Unsigned "garbage")) 7 sample_store
     = (jsonify [("error", JStr "Invalid or expired token")] 401, sample_store)
  /\ get_all_tasks_route (sample_env false)
       (with_cookie (issued (sample_env false) alice 0)) 7 sample_store
     = (jsonify [("error", JStr "Admin access required")] 403, sample_store)
  /\ generate_token (sample_env false) alice 0 = Ok (issued (sample_env false) alice 0)
  /\ ~ non_admin_is_always_forbidden (sample_env false).
Proof.
  split; [reflexivity|]. split; [reflexivity|]. split; [reflexivity|].
  split; [reflexivity|].
  intros H. specialize (H (anonymous None []) 7 sample_store I).
  vm_compute in H. discriminate.
Qed.

(** [alice] completes her task at the sample store at time 100; the task
    found afterwards carries [completed_at = 100]. *)
Lemma alice_completes_her_task :
  current_user (as_user alice (Some [("status", VStr "completed")]) []) = Some alice
  /\ task_by_id_of 10%N alice sample_store = Some alice_task
  /\ exists t',
       task_by_id_of 10%N alice
         (snd (update_task (sample_env false) 10%N
                 (as_user alice (Some [("status", VStr "completed")]) []) 100 sample_store))
       = Some t'
       /\ completed_at t' = Some 100.
Proof.
  split; [reflexivity|]. split; [reflexivity|].
  destruct (completed_at_is_set_once (sample_env false) alice 10%N
              (as_user alice (Some [("status", VStr "completed")]) []) 100
              sample_store alice_task eq_refl eq_refl)
    as (t' & Hf & Hdone & _).
  exists t'. split; [exact Hf|].
  exact (Hdone eq_refl eq_refl).
Defined.

(** C9's theorem at the sample store: [alice] lists her tasks with
    [limit=0]. *)
Lemma alice_lists_with_zero_limit :
  dict_find (args (as_user alice None [("limit", "0")])) "limit" = Some "0"
  /\ int_of_string "0" = Some 0
  /\ exists e,
       get_tasks (sample_env false) (as_user alice None [("limit", "0")]) 7 sample_store
       = ({| status_code := 500;
             body := JObj [("error", JStr "Failed to get tasks");
                           ("details", JStr (exn_str e))];
             set_cookie := None |}, sample_store)
       /\ ((exists page, int_arg (args (as_user alice None [("limit", "0")])) "page" 1 = Ok page)
           -> (forall l, exists w, cursor_window (sample_env false) 0 0 l = Ok w)
           -> e = ZeroDivisionError).
Proof.
  split; [reflexivity|]. split; [reflexivity|].
  exact (proj1 (zero_limit_is_a_server_error (sample_env false)
                  (as_user alice None [("limit", "0")]) 7 sample_store "0"
                  eq_refl eq_refl) alice eq_refl).
Defined.

(* ------------------------------------------------------------------ *)
(** ** Which handlers write, and when *)

Lemma quiet_ret {A : Type} (a : A) : quiet (ret a).
Proof. now intros s. Qed.

Lemma quiet_lift {A : Type} (r : result A) : quiet (lift r).
Proof. now intros s. Qed.

Lemma quiet_get_store : quiet get_store.
Proof. now intros s. Qed.

Lemma quiet_bind {A B : Type} (m : M A) (k : A -> M B) :
  quiet m -> (forall a, quiet (k a)) -> quiet (bind m k).
Proof.
  intros Hm Hk s. unfold bind. specialize (Hm s).
  destruct (m s) as [[a|e] s1]; cbn in Hm; subst s1; [apply Hk|reflexivity].
Qed.

Lemma quiet_and_then {A : Type} (m : M (flow A)) (k : A -> M response) :
  quiet m -> (forall a, quiet (k a)) -> quiet (and_then m k).
Proof.
  intros Hm Hk. unfold and_then. apply quiet_bind; [exact Hm|].
  intros [a|r]; [apply Hk|apply quiet_ret].
Qed.

Lemma quiet_writes (m : M response) : quiet m -> writes_on_success m.
Proof. intros Hm s. left. apply Hm. Qed.

Lemma writes_bind {A : Type} (m : M A) (k : A -> M response) :
  quiet m -> (forall a, writes_on_success (k a)) -> writes_on_success (bind m k).
Proof.
  intros Hm Hk s. unfold bind. specialize (Hm s).
  destruct (m s) as [[a|e] s1]; cbn in Hm; subst s1; [apply Hk|now left].
Qed.

Lemma writes_and_then {A : Type} (m : M (flow A)) (k : A -> M response) :
  quiet m -> (forall a, writes_on_success (k a)) -> writes_on_success (and_then m k).
Proof.
  intros Hm Hk. unfold and_then. apply writes_bind; [exact Hm|].
  intros [a|r]; [apply Hk|apply quiet_writes, quiet_ret].
Qed.

(** The last two statements of a writing handler: the write, then the
    success response. *)
Lemma writes_final {A : Type} (w : M A) (f : A -> response) :
  atomic w -> (forall a, succeeded (f a)) -> writes_on_success (bind w (fun a => ret (f a))).
Proof.
  intros Hw Hf s. unfold bind, ret.
  destruct (Hw s) as [Hs|[a Ha]]; destruct (w s) as [[a'|e] s1]; cbn in *.
  - right. eauto.
  - now left.
  - right. eauto.
  - discriminate.
Qed.

Lemma atomic_insert_user (E : Env) (u : User) : atomic (insert_user E u).
Proof.
  intros s. unfold insert_user.
  destruct (user_validate E u); [now left|].
  destruct (unique_index E && clashes u s)%bool; [now left|right; cbn; eauto].
Qed.

Lemma atomic_update_user (E : Env) (u : User) : atomic (update_user E u).
Proof.
  intros s. unfold update_user. destruct (user_validate E u); [now left|right; cbn; eauto].
Qed.

Lemma atomic_insert_task (E : Env) (t : Task) : atomic (insert_task E t).
Proof.
  intros s. unfold insert_task. destruct (task_validate E t); [now left|right; cbn; eauto].
Qed.

Lemma atomic_update_task_doc (E : Env) (t : Task) : atomic (update_task_doc E t).
Proof.
  intros s. unfold update_task_doc. destruct (task_validate E t); [now left|right; cbn; eauto].
Qed.

Lemma atomic_delete_task_doc (t : Task) : atomic (delete_task_doc t).
Proof. intros s. right. now exists tt. Qed.

(** One step of a proof that a handler body is [quiet] or
    [writes_on_success]. *)
Ltac body_step :=
  first
    [ apply quiet_ret | apply quiet_lift | apply quiet_get_store
    | apply quiet_bind; [|intros ?]
    | apply quiet_and_then; [|intros ?]
    | apply writes_final;
      [ first [ apply atomic_insert_user | apply atomic_update_user
              | apply atomic_insert_task | apply atomic_update_task_doc
              | apply atomic_delete_task_doc ]
      | intros ?; unfold succeeded; cbn; auto ]
    | apply writes_bind; [|intros ?]
    | apply writes_and_then; [|intros ?]
    | match goal with
      | |- quiet (match ?x with _ => _ end) => destruct x
      | |- writes_on_success (match ?x with _ => _ end) => destruct x
      | |- writes_on_success (ret _) => apply quiet_writes
      end ].

Ltac body_steps := cbv zeta; repeat body_step.

Lemma quiet_login_body (E : Env) (req : request) (now : Z) : quiet (login_body E req now).
Proof. unfold login_body. body_steps. Qed.

Lemma quiet_get_tasks_body (E : Env) (req : request) : quiet (get_tasks_body E req).
Proof. unfold get_tasks_body. body_steps. Qed.

Lemma quiet_get_all_tasks_body (E : Env) (req : request) : quiet (get_all_tasks_body E req).
Proof. unfold get_all_tasks_body. body_steps. Qed.

Lemma quiet_read_only (E : Env) (h : handler_name) (req : request) (now : Z) :
  read_only h = true -> quiet (handler_body E h req now).
Proof.
  destruct h; cbn [read_only handler_body]; try discriminate; intros _.
  - apply quiet_login_body.
  - apply quiet_ret.
  - unfold get_current_user_body. body_steps.
  - apply quiet_get_tasks_body.
  - unfold get_task_body. body_steps.
  - unfold get_task_stats_body. body_steps.
  - apply quiet_get_all_tasks_body.
Qed.

Lemma writes_or_quiet (Q : Store -> result response -> Store -> Prop) (m : M response) :
  quiet m -> writes_on_success_or Q m.
Proof. intros Hm s. left. apply Hm. Qed.

Lemma writes_or_bind {A : Type} (Q : Store -> result response -> Store -> Prop)
    (m : M A) (k : A -> M response) :
  quiet m -> (forall a, writes_on_success_or Q (k a)) -> writes_on_success_or Q (bind m k).
Proof.
  intros Hm Hk s. unfold bind. specialize (Hm s).
  destruct (m s) as [[a|e] s1]; cbn in Hm; subst s1; [apply Hk|now left].
Qed.

Lemma writes_or_and_then {A : Type} (Q : Store -> result response -> Store -> Prop)
    (m : M (flow A)) (k : A -> M response) :
  quiet m -> (forall a, writes_on_success_or Q (k a)) ->
  writes_on_success_or Q (and_then m k).
Proof.
  intros Hm Hk. unfold and_then. apply writes_or_bind; [exact Hm|].
  intros [a|r]; [apply Hk|apply writes_or_quiet, quiet_ret].
Qed.

(** The last three statements of [register]: the save, the token, the
    answer. *)
Lemma register_tail (E : Env) (u : User) (now : Z) :
  writes_on_success_or (stored_without_token E now)
    (bind (insert_user E u)
          (fun user =>
             bind (lift (generate_token E user now))
                  (fun tok => ret (token_response E "User registered successfully" user tok 201)))).
Proof.
  intros s. unfold bind, lift, ret, insert_user.
  destruct (user_validate E u); [now left|].
  destruct (unique_index E && clashes u s)%bool; [now left|].
  destruct (generate_token E (set_user_id u (next_id s)) now) as [tok|e] eqn:Hg;
    cbn [fst snd]; right.
  - left. eexists. split; [reflexivity|]. right. reflexivity.
  - right. exists (set_user_id u (next_id s)), e. auto.
Qed.

Lemma writes_register_body (E : Env) (req : request) (now : Z) :
  writes_on_success_or (stored_without_token E now) (register_body E req now).
Proof.
  unfold register_body. cbv zeta.
  repeat first
    [ apply register_tail
    | apply writes_or_and_then; [body_steps|intros ?]
    | apply writes_or_bind; [body_steps|intros ?]
    | match goal with
      | |- writes_on_success_or _ (match ?x with _ => _ end) => destruct x
      | |- writes_on_success_or _ (ret _) => apply writes_or_quiet, quiet_ret
      end ].
Qed.

Lemma writes_change_password_body (E : Env) (req : request) (now : Z) :
  writes_on_success (change_password_body E req now).
Proof.
  unfold change_password_body. body_steps.
Qed.

Lemma writes_create_task_body (E : Env) (req : request) (now : Z) :
  writes_on_success (create_task_body E req now).
Proof. unfold create_task_body. body_steps. Qed.

Lemma writes_update_task_body (E : Env) (i : path_id) (req : request) (now : Z) :
  writes_on_success (update_task_body E i req now).
Proof. unfold update_task_body. body_steps. Qed.

Lemma writes_delete_task_body (i : path_id) (req : request) :
  writes_on_success (delete_task_body i req).
Proof. unfold delete_task_body. body_steps. Qed.

(* ------------------------------------------------------------------ *)
(** ** Registration and login, end to end *)

Lemma truthy_dict_get (d : dict pyval) (k : string) :
  truthy (dict_get d k) = true -> dict_find d k = Some (dict_get d k).
Proof. unfold dict_get. destruct (dict_find d k); [reflexivity|discriminate]. Qed.

Lemma dict_get_VStr (d : dict pyval) (k x : string) :
  dict_get d k = VStr x -> dict_find d k = Some (VStr x).
Proof. unfold dict_get. destruct (dict_find d k); [now intros ->|discriminate]. Qed.

Lemma check_required_Next (data : json_body) :
  check_required data required_fields = Ok (Next tt) ->
  exists d, data = Some d
            /\ truthy (dict_get d "username") = true
            /\ truthy (dict_get d "email") = true
            /\ truthy (dict_get d "password") = true
            /\ truthy (dict_get d "name") = true.
Proof.
  destruct data as [d|]; [|discriminate].
  unfold required_fields, check_required, rbind, data_get.
  destruct (truthy (dict_get d "username")) eqn:Hu; [|discriminate].
  destruct (truthy (dict_get d "email")) eqn:He; [|discriminate].
  destruct (truthy (dict_get d "password")) eqn:Hp; [|discriminate].
  destruct (truthy (dict_get d "name")) eqn:Hn; [|discriminate].
  intros _. exists d. auto.
Qed.

Lemma py_strip_Ok (v : pyval) (x : string) :
  py_strip v = Ok x -> exists s, v = VStr s /\ x = strip s.
Proof. destruct v; cbn; try discriminate. intros [= <-]. eauto. Qed.

Lemma py_lower_Ok (v : pyval) (x : string) :
  py_lower v = Ok x -> exists s, v = VStr s /\ x = lower s.
Proof. destruct v; cbn; try discriminate. intros [= <-]. eauto. Qed.

Lemma set_password_Ok (E : Env) (v : pyval) (h : string) :
  set_password E v = Ok h -> exists p, v = VStr p /\ h = generate_password_hash E p.
Proof. destruct v; cbn; try discriminate. intros [= <-]. eauto. Qed.

(** What a successful [register] has read, checked and written. *)
Lemma register_body_created (E : Env) (req : request) (now : Z) (s s' : Store) (r : response) :
  register_body E req now s = (Ok r, s') -> status_code r = 201 ->
  exists d uv ev nv pv ro,
    get_json req = Some d
    /\ dict_find d "username" = Some (VStr uv)
    /\ dict_find d "email" = Some (VStr ev)
    /\ dict_find d "name" = Some (VStr nv)
    /\ dict_find d "password" = Some (VStr pv)
    /\ string_field (dict_get_default d "role" (VStr "user")) "user" = Ok ro
    /\ user_by_email (VStr ev) s = None
    /\ user_by_username (VStr uv) s = None
    /\ user_validate E (mkUser 0%N (strip uv) (strip (lower ev)) (strip nv)
                               (generate_password_hash E pv) ro true now now) = None
    /\ s' = mkStore
              (users s ++ [mkUser (next_id s) (strip uv) (strip (lower ev)) (strip nv)
                                  (generate_password_hash E pv) ro true now now])
              (tasks s) (N.succ (next_id s))
    /\ exists tok,
         generate_token E
           (mkUser (next_id s) (strip uv) (strip (lower ev)) (strip nv)
                   (generate_password_hash E pv) ro true now now) now = Ok tok
         /\ r = token_response E "User registered successfully"
                 (mkUser (next_id s) (strip uv) (strip (lower ev)) (strip nv)
                         (generate_password_hash E pv) ro true now now)
                 tok 201.
Proof.
  unfold register_body, and_then, bind, lift, ret, get_store. intros H Hcode.
  destruct (check_required (get_json req) required_fields) as [[[]|r0]|e] eqn:Hreq;
    [|injection H as <- <-; exfalso; revert Hreq Hcode; clear;
      unfold required_fields, check_required, rbind;
      repeat (destruct (data_get _ _); [|discriminate];
              destruct (truthy _); [|intros [= <-]; discriminate]);
      discriminate
     |discriminate].
  apply check_required_Next in Hreq as (d & Hd & Hu & He & Hp & Hn).
  rewrite Hd in H. unfold data_item, dict_item, data_get_default in H.
  rewrite (truthy_dict_get _ _ Hu), (truthy_dict_get _ _ He),
          (truthy_dict_get _ _ Hp), (truthy_dict_get _ _ Hn) in H.
  destruct (user_by_email (dict_get d "email") s) eqn:Hbe;
    [cbn in H; injection H as <- <-; discriminate|].
  destruct (user_by_username (dict_get d "username") s) eqn:Hbu;
    [cbn in H; injection H as <- <-; discriminate|].
  cbn [is_some] in H.
  destruct (py_strip (dict_get d "username")) as [un|] eqn:Hsu; [|discriminate].
  destruct (py_lower (dict_get d "email")) as [el|] eqn:Hle; [|discriminate].
  destruct (py_strip (dict_get d "name")) as [nm|] eqn:Hsn; [|discriminate].
  destruct (set_password E (dict_get d "password")) as [h|] eqn:Hsp; [|discriminate].
  destruct (string_field (dict_get_default d "role" (VStr "user")) "user") as [ro|] eqn:Hro;
    [|discriminate].
  apply py_strip_Ok in Hsu as (uv & Huv & ->).
  apply py_lower_Ok in Hle as (ev & Hev & ->).
  apply py_strip_Ok in Hsn as (nv & Hnv & ->).
  apply set_password_Ok in Hsp as (pv & Hpv & ->).
  unfold insert_user in H.
  destruct (user_validate E _) eqn:Hval; [discriminate|].
  destruct (unique_index E && clashes _ s)%bool; [discriminate|].
  cbn [set_user_id user_id username email name password_hash role is_active
       user_created_at user_updated_at] in H.
  destruct (generate_token E _ now) as [tok|] eqn:Hg; [|discriminate].
  injection H as <- <-.
  exists d, uv, ev, nv, pv, ro.
  rewrite Huv, Hev in *.
  repeat split; auto using dict_get_VStr.
  exists tok. split; [exact Hg|reflexivity].
Qed.

Lemma find_app_fresh (i : ObjectId) (l : list User) (u : User) :
  (forall x, In x l -> (user_id x < i)%N) -> user_id u = i ->
  find (fun x => N.eqb (user_id x) i) (l ++ [u]) = Some u.
Proof.
  intros Hl Hu. induction l as [|a l IH]; cbn.
  - now rewrite Hu, N.eqb_refl.
  - destruct (N.eqb_spec (user_id a) i) as [Heq|_].
    + specialize (Hl a (or_introl eq_refl)). lia.
    + apply IH. intros x Hx. apply Hl. now right.
Qed.

Lemma find_by_id_unique (l : list User) (u : User) :
  NoDup (map user_id l) -> In u l ->
  find (fun x => N.eqb (user_id x) (user_id u)) l = Some u.
Proof.
  induction l as [|a l IH]; cbn; intros Hnd Hin; [contradiction|].
  inversion Hnd as [|? ? Hnotin Hnd']; subst.
  destruct Hin as [->|Hin]; [now rewrite N.eqb_refl|].
  destruct (N.eqb_spec (user_id a) (user_id u)) as [Heq|_]; [|now apply IH].
  exfalso. apply Hnotin. rewrite Heq. now apply in_map.
Qed.

Lemma login_lookup_found (l : string) (s : Store) (user : User) :
  login_lookup l s = Some user ->
  In user (users s)
  /\ (email user = lower (strip l)
      \/ (username user = strip l
          /\ forall u, In u (users s) -> email u <> lower (strip l))).
Proof.
  unfold login_lookup, user_by_email, user_by_username, find_user.
  destruct (find _ (users s)) as [u|] eqn:He.
  - intros [= ->]. apply find_some in He as [Hin Hp]. cbn in Hp.
    apply String.eqb_eq in Hp. auto.
  - intros Hu. apply find_some in Hu as [Hin Hp]. cbn in Hp.
    apply String.eqb_eq in Hp. split; [exact Hin|right]. split; [now symmetry|].
    intros u Hu Heq. pose proof (find_none _ _ He u Hu) as Hn. cbn in Hn.
    apply String.eqb_neq in Hn. congruence.
Qed.

(** Store writes happen in five handlers only, and only together with a
    success answer, with one exception.  [login], [logout],
    [get_current_user], [get_tasks], [get_task], [get_task_stats] and
    [get_all_tasks] leave the store as it was on every request.  Every
    handler leaves it as it was unless it answers 200 or 201 -- a 400, 401,
    403, 404 or 500 never comes with a partial write -- except [register]
    when [generate_token] raises (the expiry time of the token is outside
    the range of [datetime]): the user is saved before the token is made, so
    the answer is the 500 of the [except] branch and the new user stays in
    the store.  Where [generate_token] does not raise there is no
    exception. *)
Theorem store_changes_only_with_a_success_answer (E : Env) (h : handler_name)
    (req : request) (now : Z) (s : Store) :
  (read_only h = true -> snd (run_handler E h req now s) = s)
  /\ (snd (run_handler E h req now s) = s
      \/ status_code (fst (run_handler E h req now s)) = 200
      \/ status_code (fst (run_handler E h req now s)) = 201
      \/ (h = Register
          /\ exists user e,
               generate_token E user now = Raise e
               /\ run_handler E h req now s
                  = (jsonify [("error", JStr "Registration failed");
                              ("details", JStr (exn_str e))] 500,
                     mkStore (users s ++ [user]) (tasks s) (N.succ (next_id s)))))
  /\ ((forall user, exists tok, generate_token E user now = Ok tok) ->
      snd (run_handler E h req now s) = s
      \/ status_code (fst (run_handler E h req now s)) = 200
      \/ status_code (fst (run_handler E h req now s)) = 201).
Proof.
  rewrite run_handler_unfold. unfold try_except.
  assert (Hw : h <> Register -> writes_on_success (handler_body E h req now)).
  { intros Hne.
    destruct (read_only h) eqn:Hro; [now apply quiet_writes, quiet_read_only|].
    destruct h; try discriminate; cbn [handler_body].
    - now elim Hne.
    - apply writes_change_password_body.
    - apply writes_create_task_body.
    - apply writes_update_task_body.
    - apply writes_delete_task_body. }
  assert (Hall : snd (handler_body E h req now s) = s
                 \/ (exists r, fst (handler_body E h req now s) = Ok r /\ succeeded r)
                 \/ (h = Register
                     /\ stored_without_token E now s (fst (handler_body E h req now s))
                                             (snd (handler_body E h req now s)))).
  { assert (Hdec : h = Register \/ h <> Register)
      by (destruct h; (now left) || (right; discriminate)).
    destruct Hdec as [->|Hne].
    - destruct (writes_register_body E req now s) as [H|[H|H]]; auto.
    - destruct (Hw Hne s) as [H|H]; auto. }
  split; [|split].
  - intros Hro. pose proof (quiet_read_only E h req now Hro s) as Hq.
    destruct (handler_body E h req now s) as [[r|e] s1]; exact Hq.
  - destruct Hall as [Hs|[(r & Hr & Hok)|(Hh & user & e & Hs' & Hx & Hr)]];
      destruct (handler_body E h req now s) as [[r'|e'] s1]; cbn [fst snd] in *; auto.
    + injection Hr as ->. destruct Hok; auto.
    + discriminate.
    + discriminate.
    + injection Hr as ->. right. right. right. split; [exact Hh|].
      exists user, e. subst s1 h. auto.
  - intros Hok'.
    destruct Hall as [Hs|[(r & Hr & Hok)|(Hh & user & e & Hs' & Hx' & Hr)]];
      [| |destruct (Hok' user) as [tok Htok]; congruence];
      destruct (handler_body E h req now s) as [[r'|e'] s1]; cbn [fst snd] in *; auto.
    + injection Hr as ->. destruct Hok; auto.
    + discriminate.
Qed.

(** A registration that answers 201 has appended exactly one user: active,
    with the next id, the username and name trimmed, the email lowercased and
    trimmed, and the hash of the password (not the password) stored; the task
    collection is untouched.  The token in the answer and in the cookie is
    the one issued to that user, and it resolves to that user at any time
    from its issue up to its expiry. *)
Theorem registered_user_is_stored_and_resolves (E : Env) (req : request) (now : Z)
    (s s' : Store) (r : response) :
  user_ids_below s ->
  register E req now s = (r, s') ->
  status_code r = 201 ->
  exists d uv ev nv pv user,
    get_json req = Some d
    /\ dict_find d "username" = Some (VStr uv)
    /\ dict_find d "email" = Some (VStr ev)
    /\ dict_find d "name" = Some (VStr nv)
    /\ dict_find d "password" = Some (VStr pv)
    /\ users s' = (users s ++ [user])%list /\ tasks s' = tasks s
    /\ user_id user = next_id s
    /\ username user = strip uv /\ email user = strip (lower ev) /\ name user = strip nv
    /\ password_hash user = generate_password_hash E pv
    /\ is_active user = true
    /\ (forall u, In u (users s) -> email u <> ev /\ username u <> uv)
    /\ exists tok,
         generate_token E user now = Ok tok
         /\ r = token_response E "User registered successfully" user tok 201
         /\ (forall later,
                now <= later < now + JWT_ACCESS_TOKEN_EXPIRES (cfg E) ->
                verify_token E tok later s' = Some user).
Proof.
  intros Hids Hreg Hcode. unfold register, try_except in Hreg.
  destruct (register_body E req now s) as [[r0|e] s0] eqn:Hb;
    injection Hreg as <- <-; [|discriminate].
  destruct (register_body_created E req now s s0 r0 Hb Hcode)
    as (d & uv & ev & nv & pv & ro & Hd & Hu & He & Hn & Hp & _ & Hbe & Hbu & _ & ->
        & tok & Htok & ->).
  exists d, uv, ev, nv, pv.
  eexists. repeat (split; [first [eassumption|reflexivity]|]).
  split.
  - intros u Hin. split.
    + intros Heq. pose proof (find_none _ _ Hbe u Hin) as Hno. cbn in Hno.
      apply String.eqb_neq in Hno. congruence.
    + intros Heq. pose proof (find_none _ _ Hbu u Hin) as Hno. cbn in Hno.
      apply String.eqb_neq in Hno. congruence.
  - exists tok. split; [exact Htok|]. split; [reflexivity|].
    intros later [Hge Hlt]. rewrite (verify_generated_token _ _ _ _ _ _ Htok).
    destruct (Z.ltb_spec later now); [lia|].
    destruct (Z.leb_spec (now + JWT_ACCESS_TOKEN_EXPIRES (cfg E)) later); [lia|].
    cbn [orb]. unfold user_by_id, find_user. cbn [users user_id].
    erewrite find_app_fresh; [reflexivity|exact Hids|reflexivity].
Qed.

(** For a body with a login string and a password string, [login] answers
    200 exactly when the lookup (email, lowercased, first; then username, as
    given) finds a user whose stored hash accepts the password and who is
    active, and [generate_token] returns a token for that user.  The answer
    then carries that token, the store is unchanged, and with unique user
    ids the token resolves to the same user from its issue up to its expiry.
    When user, password and active flag are right but [generate_token]
    raises (the expiry time is outside the range of [datetime]), the answer
    is the 500 of the [except] branch. *)
Theorem login_succeeds_exactly_for_an_active_user (E : Env) (req : request) (now : Z)
    (s : Store) (d : dict pyval) (l p : string) :
  get_json req = Some d ->
  dict_find d "login" = Some (VStr l) -> l <> "" ->
  dict_find d "password" = Some (VStr p) -> p <> "" ->
  (status_code (fst (login E req now s)) = 200 <->
   exists user tok, login_lookup l s = Some user
                    /\ check_password_hash E (password_hash user) p = true
                    /\ is_active user = true
                    /\ generate_token E user now = Ok tok)
  /\ (forall user,
         login_lookup l s = Some user ->
         check_password_hash E (password_hash user) p = true ->
         is_active user = true ->
         In user (users s)
         /\ (email user = lower (strip l)
             \/ (username user = strip l
                 /\ forall u, In u (users s) -> email u <> lower (strip l)))
         /\ match generate_token E user now with
            | Ok tok =>
                login E req now s
                = (token_response E "Login successful" user tok 200, s)
                /\ (unique_user_ids s ->
                    forall later,
                      now <= later < now + JWT_ACCESS_TOKEN_EXPIRES (cfg E) ->
                      verify_token E tok later s = Some user)
            | Raise e =>
                login E req now s
                = (jsonify [("error", JStr "Login failed");
                            ("details", JStr (exn_str e))] 500, s)
            end).
Proof.
  intros Hj Hl Hne Hp Hpne.
  pose proof (login_body_lookup E req now s d l (VStr p) Hj Hl Hne Hp (truthy_VStr p Hpne))
    as Hbody.
  cbn [check_password] in Hbody.
  split.
  - unfold login, try_except. rewrite Hbody.
    destruct (login_lookup l s) as [u|]; cbn.
    + destruct (check_password_hash E (password_hash u) p) eqn:Hc; cbn.
      * destruct (is_active u) eqn:Ha; cbn.
        -- destruct (generate_token E u now) as [tok|e] eqn:Hg; cbn.
           ++ split; [intros _; exists u, tok; auto|reflexivity].
           ++ split; [discriminate|]. intros (u' & tok & [= <-] & _ & _ & Hg').
              congruence.
        -- split; [discriminate|]. intros (u' & tok & [= <-] & _ & Ha' & _). congruence.
      * split; [discriminate|]. intros (u' & tok & [= <-] & Hc' & _). congruence.
    + split; [discriminate|]. intros (u' & tok & Hu' & _). discriminate.
  - intros user Hfound Hc Ha.
    destruct (login_lookup_found l s user Hfound) as [Hin Hhow].
    split; [exact Hin|split; [exact Hhow|]].
    destruct (generate_token E user now) as [tok|e] eqn:Hg.
    + split.
      * unfold login. apply try_except_ok. rewrite Hbody, Hfound, Hc, Ha, Hg. reflexivity.
      * intros Huniq later [Hge Hlt]. rewrite (verify_generated_token _ _ _ _ _ _ Hg).
        destruct (Z.ltb_spec later now); [lia|].
        destruct (Z.leb_spec (now + JWT_ACCESS_TOKEN_EXPIRES (cfg E)) later); [lia|].
        cbn [orb]. unfold user_by_id, find_user.
        rewrite (find_by_id_unique (users s) user Huniq Hin), Ha. reflexivity.
    + unfold login. apply try_except_raise. rewrite Hbody, Hfound, Hc, Ha, Hg. reflexivity.
Qed.

(** [generate_token] returns a token exactly when the configured lifetime
    is a [timedelta] (at most 999999999 days either way) and the clock plus
    the lifetime is within the range of [datetime]; otherwise it raises
    [OverflowError].  The token it returns is signed under the server key,
    has the user's id for a subject, was issued at the clock reading and
    expires one lifetime later, and is no empty cookie value. *)
Theorem generate_token_returns_or_overflows (E : Env) (user : User) (now : Z) :
  ((exists tok, generate_token E user now = Ok tok) <->
   -999999999 <= JWT_ACCESS_TOKEN_EXPIRES (cfg E) / 86400 <= 999999999
   /\ datetime_min <= now + JWT_ACCESS_TOKEN_EXPIRES (cfg E) <= datetime_max)
  /\ (forall tok,
         generate_token E user now = Ok tok ->
         tok = Signed (JWT_SECRET_KEY (cfg E))
                      (mkClaims (user_id user) (username user) (email user) (role user)
                                (now + JWT_ACCESS_TOKEN_EXPIRES (cfg E)) now)
         /\ signature_valid tok (JWT_SECRET_KEY (cfg E))
         /\ subject tok = Some (user_id user)
         /\ mature tok now
         /\ token_falsy (Some tok) = false)
  /\ (forall e, generate_token E user now = Raise e -> exn_class e = "OverflowError").
Proof.
  split; [|split].
  - unfold generate_token, token_expiry, timedelta, datetime_add, rbind.
    set (ttl := JWT_ACCESS_TOKEN_EXPIRES (cfg E)).
    destruct (Z.ltb_spec (ttl / 86400) (-2147483648));
      [cbn [orb]; split; [intros [tok Ht]; discriminate|lia]|].
    destruct (Z.ltb_spec 2147483647 (ttl / 86400));
      [cbn [orb]; split; [intros [tok Ht]; discriminate|lia]|].
    cbn [orb].
    destruct (Z.ltb_spec (ttl / 86400) (-999999999));
      [cbn [orb]; split; [intros [tok Ht]; discriminate|lia]|].
    destruct (Z.ltb_spec 999999999 (ttl / 86400));
      [cbn [orb]; split; [intros [tok Ht]; discriminate|lia]|].
    cbn [orb].
    destruct (Z.leb_spec datetime_min (now + ttl));
      [|cbn [andb]; split; [intros [tok Ht]; discriminate|lia]].
    destruct (Z.leb_spec (now + ttl) datetime_max);
      [|cbn [andb]; split; [intros [tok Ht]; discriminate|lia]].
    cbn [andb]. split; [lia|]. intros _. eexists. reflexivity.
  - intros tok Ht. apply generate_token_Ok in Ht as [-> _].
    split; [reflexivity|]. split; [eexists; reflexivity|]. split; [reflexivity|].
    split; [cbn; lia|reflexivity].
  - unfold generate_token, token_expiry, timedelta, datetime_add, rbind.
    intros e.
    destruct (_ || _)%bool; [intros [= <-]; reflexivity|].
    destruct (_ || _)%bool; [intros [= <-]; reflexivity|].
    destruct (_ && _)%bool; [discriminate|intros [= <-]; reflexivity].
Qed.

(* ------------------------------------------------------------------ *)
(** ** Changing a password *)

Lemma unique_id_eq (l : list User) (x y : User) :
  NoDup (map user_id l) -> In x l -> In y l -> user_id x = user_id y -> x = y.
Proof.
  induction l as [|a l IH]; cbn; intros Hnd Hx Hy Heq; [contradiction|].
  inversion Hnd as [|? ? Hnotin Hnd']; subst.
  destruct Hx as [->|Hx], Hy as [->|Hy]; auto.
  - exfalso. apply Hnotin. rewrite Heq. now apply in_map.
  - exfalso. apply Hnotin. rewrite <- Heq. now apply in_map.
Qed.

Lemma find_map_agree {A : Type} (p : A -> bool) (g : A -> A) (l : list A) :
  (forall x, In x l -> p (g x) = p x) ->
  find p (map g l) = option_map g (find p l).
Proof.
  induction l as [|a l IH]; cbn; intros H; [reflexivity|].
  rewrite (H a (or_introl eq_refl)).
  destruct (p a); [reflexivity|]. apply IH. intros x Hx. apply H. now right.
Qed.

(** Saving a user whose email and username are as stored does not change
    whom a login field finds. *)
Lemma login_lookup_replace (l : string) (s : Store) (user u' : User) :
  unique_user_ids s -> In user (users s) ->
  user_id u' = user_id user -> email u' = email user -> username u' = username user ->
  login_lookup l s = Some user ->
  login_lookup l (mkStore (replace_user u' (users s)) (tasks s) (next_id s)) = Some u'.
Proof.
  intros Huniq Hin Hid Hem Hun.
  assert (Hg : forall x, In x (users s) ->
                 (if N.eqb (user_id x) (user_id u') then u' else x)
                 = if N.eqb (user_id x) (user_id user) then u' else x)
    by (intros x _; now rewrite Hid).
  assert (Hsame : forall x, In x (users s) -> N.eqb (user_id x) (user_id u') = true -> x = user).
  { intros x Hx Heq. apply N.eqb_eq in Heq. rewrite Hid in Heq.
    exact (unique_id_eq _ _ _ Huniq Hx Hin Heq). }
  unfold login_lookup, user_by_email, user_by_username, find_user, replace_user.
  cbn [users].
  rewrite !find_map_agree.
  - destruct (find _ (users s)) as [u|] eqn:He; cbn [option_map].
    + intros [= ->]. now rewrite Hid, N.eqb_refl.
    + intros Hu. rewrite Hu. cbn. now rewrite Hid, N.eqb_refl.
  - intros x Hx. destruct (N.eqb (user_id x) (user_id u')) eqn:Heq; [|reflexivity].
    rewrite (Hsame x Hx Heq). cbn. now rewrite Hun.
  - intros x Hx. destruct (N.eqb (user_id x) (user_id u')) eqn:Heq; [|reflexivity].
    rewrite (Hsame x Hx Heq). cbn. now rewrite Hem.
Qed.

(** The path of [change_password] for a body carrying the two passwords as
    strings. *)
Lemma change_password_body_strings (E : Env) (req : request) (now : Z) (s : Store)
    (user : User) (d : dict pyval) (cur new : string) :
  current_user req = Some user ->
  get_json req = Some d ->
  dict_find d "current_password" = Some (VStr cur) -> cur <> "" ->
  dict_find d "new_password" = Some (VStr new) -> new <> "" ->
  change_password_body E req now s
  = if negb (check_password_hash E (password_hash user) cur)
    then (Ok (jsonify [("error", JStr "Current password is incorrect")] 400), s)
    else if len_str new <? 6
    then (Ok (jsonify [("error", JStr "New password must be at least 6 characters")] 400), s)
    else match user_validate E (with_new_password E user new now) with
         | Some msg => (Raise (ValidationError msg), s)
         | None =>
             (Ok (jsonify [("message", JStr "Password changed successfully")] 200),
              mkStore (replace_user (with_new_password E user new now) (users s))
                      (tasks s) (next_id s))
         end.
Proof.
  intros Hu Hj Hc Hcne Hn Hnne.
  unfold change_password_body, bind, lift, ret, data_get, data_item, dict_get, dict_item.
  rewrite Hu, Hj, Hc, Hn, (truthy_VStr cur Hcne), (truthy_VStr new Hnne).
  cbn [negb check_password py_len set_password].
  destruct (check_password_hash E (password_hash user) cur); cbn [negb]; [|reflexivity].
  destruct (len_str new <? 6); [reflexivity|].
  unfold update_user, with_new_password.
  destruct (user_validate E _); reflexivity.
Qed.

(** [change_password], for a body carrying both passwords as strings: a
    current password the stored hash rejects is answered 400 and a new
    password shorter than 6 characters is answered 400, both without a write.
    Otherwise (the document class accepting the document) the answer is 200
    and the user document with that id now holds the hash of the new password
    and the time of the change, every other user document is as it was, and
    the tasks are untouched.  With unique ids and a hash that accepts the
    password it was made from, whoever could be looked up as that user
    before can log in with the new password afterwards: the answer is 200
    (the 500 of the [except] branch where [generate_token] raises). *)
Theorem change_password_replaces_the_hash (E : Env) (req : request) (now : Z) (s : Store)
    (user : User) (d : dict pyval) (cur new : string) :
  current_user req = Some user ->
  get_json req = Some d ->
  dict_find d "current_password" = Some (VStr cur) -> cur <> "" ->
  dict_find d "new_password" = Some (VStr new) -> new <> "" ->
  (check_password_hash E (password_hash user) cur = false ->
     change_password E req now s
     = (jsonify [("error", JStr "Current password is incorrect")] 400, s))
  /\ (check_password_hash E (password_hash user) cur = true -> len_str new < 6 ->
      change_password E req now s
      = (jsonify [("error", JStr "New password must be at least 6 characters")] 400, s))
  /\ (check_password_hash E (password_hash user) cur = true -> 6 <= len_str new ->
      user_validate E (with_new_password E user new now) = None ->
      let s' := snd (change_password E req now s) in
      fst (change_password E req now s)
      = jsonify [("message", JStr "Password changed successfully")] 200
      /\ tasks s' = tasks s /\ next_id s' = next_id s
      /\ users s' = map (fun x => if N.eqb (user_id x) (user_id user)
                                  then with_new_password E user new now else x) (users s)
      /\ password_hash (with_new_password E user new now) = generate_password_hash E new
      /\ user_updated_at (with_new_password E user new now) = now
      /\ (unique_user_ids s -> In user (users s) ->
          check_password_hash E (generate_password_hash E new) new = true ->
          is_active user = true ->
          forall l later,
            l <> "" -> login_lookup l s = Some user ->
            status_code (fst (login E (anonymous (login_json l new) []) later s'))
            = match generate_token E (with_new_password E user new now) later with
              | Ok _ => 200
              | Raise _ => 500
              end)).
Proof.
  intros Hu Hj Hc Hcne Hn Hnne.
  pose proof (change_password_body_strings E req now s user d cur new Hu Hj Hc Hcne Hn Hnne)
    as Hbody.
  unfold change_password, try_except. rewrite Hbody.
  split; [|split].
  - intros Hbad. now rewrite Hbad.
  - intros Hgood Hshort. rewrite Hgood. cbn [negb].
    destruct (Z.ltb_spec (len_str new) 6); [reflexivity|lia].
  - intros Hgood Hlong Hval. rewrite Hgood, Hval. cbn [negb].
    destruct (Z.ltb_spec (len_str new) 6); [lia|].
    cbv zeta. cbn [fst snd users tasks next_id].
    repeat (split; [reflexivity|]).
    intros Huniq Hin Hsound Hact l later Hlne Hfound.
    assert (Hl' : login_lookup l
                    (mkStore (replace_user (with_new_password E user new now) (users s))
                             (tasks s) (next_id s))
                  = Some (with_new_password E user new now))
      by (apply (login_lookup_replace l s user); auto).
    unfold login, try_except.
    rewrite (login_body_lookup E (anonymous (login_json l new) []) later _
               [("login", VStr l); ("password", VStr new)] l
               (VStr new) eq_refl eq_refl Hlne eq_refl (truthy_VStr new Hnne)), Hl'.
    cbn [check_password with_new_password set_password_hash password_hash is_active].
    rewrite Hsound, Hact. cbn [negb].
    fold (with_new_password E user new now).
    destruct (generate_token E (with_new_password E user new now) later); reflexivity.
Qed.

(* ------------------------------------------------------------------ *)
(** ** Creating, reading, updating and deleting tasks *)

Lemma lstrip_length (s : string) : (String.length (lstrip s) <= String.length s)%nat.
Proof.
  induction s as [|c r IH]; cbn; [lia|]. destruct (is_space c); cbn; lia.
Qed.

Lemma rstrip_length (s : string) : (String.length (rstrip s) <= String.length s)%nat.
Proof.
  induction s as [|c r IH]; cbn; [lia|].
  destruct (rstrip r); [destruct (is_space c)|]; cbn in *; lia.
Qed.

Lemma strip_len (s : string) : len_str (strip s) <= len_str s.
Proof.
  unfold len_str, strip.
  pose proof (rstrip_length (lstrip s)). pose proof (lstrip_length s). lia.
Qed.

Lemma py_len_VStr (v : pyval) (x : string) : v = VStr x -> py_len v = Ok (len_str x).
Proof. now intros ->. Qed.

(** What [create_task] does for an attached user: nothing to the store and
    no 201, or one appended task built from the body. *)
Lemma create_task_body_cases (E : Env) (req : request) (now : Z) (s : Store) (user : User) :
  current_user req = Some user ->
  (snd (create_task_body E req now s) = s
   /\ forall r, fst (create_task_body E req now s) = Ok r -> status_code r <> 201)
  \/ exists d ts ds st pr due,
       get_json req = Some d
       /\ dict_find d "title" = Some (VStr ts) /\ len_str ts <= 200
       /\ dict_find d "description" = Some (VStr ds) /\ len_str ds <= 1000
       /\ string_field (dict_get_default d "status" (VStr "pending")) "pending" = Ok st
       /\ string_field (dict_get_default d "priority" (VStr "medium")) "medium" = Ok pr
       /\ given_due_date E (Some d) = Ok (Next due)
       /\ task_validate E (mkTask 0%N (strip ts) (strip ds) (user_id user) st pr due
                                  now now None) = None
       /\ snd (create_task_body E req now s)
          = mkStore (users s)
                    (tasks s ++ [mkTask (next_id s) (strip ts) (strip ds) (user_id user)
                                        st pr due now now None])
                    (N.succ (next_id s))
       /\ exists r, fst (create_task_body E req now s) = Ok r /\ status_code r = 201
                    /\ body r
                       = JObj [("message", JStr "Task created successfully");
                               ("task",
                                JObj [("id", JOid (next_id s));
                                      ("title", JStr (strip ts));
                                      ("description", JStr (strip ds));
                                      ("status", JStr st);
                                      ("priority", JStr pr);
                                      ("due_date", opt_time due);
                                      ("created_at", JTime now)])].
Proof.
  intros Hu. unfold create_task_body. rewrite Hu.
  unfold and_then, bind, lift, ret.
  destruct (get_json req) as [d|] eqn:Hj;
    [|left; cbn; split; [reflexivity|discriminate]].
  unfold data_get, data_item, dict_item, data_get_default.
  destruct (truthy (dict_get d "title")) eqn:Ht; cbn [negb];
    [|left; cbn; split; [reflexivity|intros r [= <-]; discriminate]].
  destruct (truthy (dict_get d "description")) eqn:Hd; cbn [negb];
    [|left; cbn; split; [reflexivity|intros r [= <-]; discriminate]].
  rewrite (truthy_dict_get _ _ Ht), (truthy_dict_get _ _ Hd).
  destruct (py_len (dict_get d "title")) as [tl|] eqn:Htl;
    [|left; cbn; split; [reflexivity|discriminate]].
  destruct (Z.gtb_spec tl 200) as [Hbig|Htok];
    [left; cbn; split; [reflexivity|intros r [= <-]; discriminate]|].
  destruct (py_len (dict_get d "description")) as [dl|] eqn:Hdl;
    [|left; cbn; split; [reflexivity|discriminate]].
  destruct (Z.gtb_spec dl 1000) as [Hbig|Hdok];
    [left; cbn; split; [reflexivity|intros r [= <-]; discriminate]|].
  destruct (given_due_date E (Some d)) as [[due|r0]|e] eqn:Hdue;
    [|left; cbn; split; [reflexivity|intros r [= <-]]
     |left; cbn; split; [reflexivity|discriminate]].
  2:{ revert Hdue. unfold given_due_date, parse_due_date, rbind, data_get, data_item, dict_item.
      destruct (truthy (dict_get d "due_date")); [|discriminate].
      destruct (dict_find d "due_date"); [|discriminate].
      destruct (py_replace_Z _); [|discriminate].
      destruct (fromisoformat E _); [discriminate|]. intros [= <-]. discriminate. }
  destruct (py_strip (dict_get d "title")) as [ts'|] eqn:Hst;
    [|left; cbn; split; [reflexivity|discriminate]].
  destruct (py_strip (dict_get d "description")) as [ds'|] eqn:Hsd;
    [|left; cbn; split; [reflexivity|discriminate]].
  destruct (string_field (dict_get_default d "status" (VStr "pending")) "pending")
    as [st|] eqn:Hs; [|left; cbn; split; [reflexivity|discriminate]].
  destruct (string_field (dict_get_default d "priority" (VStr "medium")) "medium")
    as [pr|] eqn:Hp; [|left; cbn; split; [reflexivity|discriminate]].
  apply py_strip_Ok in Hst as (ts & Hts & ->).
  apply py_strip_Ok in Hsd as (ds & Hds & ->).
  rewrite (py_len_VStr _ _ Hts) in Htl. injection Htl as <-.
  rewrite (py_len_VStr _ _ Hds) in Hdl. injection Hdl as <-.
  unfold insert_task.
  destruct (task_validate E _) eqn:Hval;
    [left; cbn; split; [reflexivity|discriminate]|].
  right. exists d, ts, ds, st, pr, due. cbn [fst snd].
  repeat (split; [first [reflexivity|assumption|now apply dict_get_VStr]|]).
  eexists. split; [reflexivity|]. split; reflexivity.
Qed.

Lemma truthy_VStr_inv (x : string) : truthy (VStr x) = true -> x <> "".
Proof. cbn. destruct (String.eqb_spec x ""); [discriminate|auto]. Qed.

Lemma update_title_cases (d : dict pyval) (t : Task) :
  step_keeps (fun t' => t' = set_title t (title t')
                        /\ text_update d "title" 200 (title t) (title t'))
             (update_title (Some d) t).
Proof.
  unfold update_title, rbind, data_mem, data_item, dict_mem, dict_item, text_update.
  destruct (dict_find d "title") as [v|]; cbn; [|split; [now destruct t|reflexivity]].
  destruct (truthy v) eqn:Hv; cbn; [|reflexivity].
  destruct (py_len v) as [n|] eqn:Hn; cbn; [|exact I].
  destruct (Z.gtb_spec n 200); cbn; [reflexivity|].
  destruct (py_strip v) as [x|] eqn:Hx; cbn; [|exact I].
  apply py_strip_Ok in Hx as (y & -> & ->). cbn in Hn. injection Hn as <-.
  split; [reflexivity|]. exists y. repeat split; auto using truthy_VStr_inv.
Qed.

Lemma update_description_cases (d : dict pyval) (t : Task) :
  step_keeps (fun t' => t' = set_description t (description t')
                        /\ text_update d "description" 1000 (description t) (description t'))
             (update_description (Some d) t).
Proof.
  unfold update_description, rbind, data_mem, data_item, dict_mem, dict_item, text_update.
  destruct (dict_find d "description") as [v|]; cbn; [|split; [now destruct t|reflexivity]].
  destruct (truthy v) eqn:Hv; cbn; [|reflexivity].
  destruct (py_len v) as [n|] eqn:Hn; cbn; [|exact I].
  destruct (Z.gtb_spec n 1000); cbn; [reflexivity|].
  destruct (py_strip v) as [x|] eqn:Hx; cbn; [|exact I].
  apply py_strip_Ok in Hx as (y & -> & ->). cbn in Hn. injection Hn as <-.
  split; [reflexivity|]. exists y. repeat split; auto using truthy_VStr_inv.
Qed.

Lemma choice_of_listed (v : pyval) (choices : list string) (st : string) :
  choice_of v choices = Some st -> in_choices st choices = true.
Proof.
  destruct v; cbn; try discriminate.
  destruct (in_choices s choices) eqn:H; [|discriminate]. now intros [= <-].
Qed.

Lemma update_status_cases (d : dict pyval) (t : Task) (now : Z) :
  step_keeps (fun t' => t' = set_completed_at (set_status t (status t')) (completed_at t')
                        /\ choice_update d "status" status_choices (status t) (status t')
                        /\ completed_at t' = stamp (Some d) now (completed_at t))
             (update_status (Some d) t now).
Proof.
  unfold update_status, rbind, data_mem, data_item, dict_mem, dict_item, choice_update,
    stamp, status_is_completed.
  destruct (dict_find d "status") as [v|]; cbn; [|repeat split; now destruct t].
  destruct (choice_of v status_choices) as [st|] eqn:Hc; cbn; [|reflexivity].
  pose proof (choice_of_listed _ _ _ Hc) as Hl.
  apply choice_of_Some in Hc. subst v. cbn [eq_str].
  destruct (st =? "completed")%string; cbn [andb];
    [destruct (completed_at t) eqn:Hdone|]; cbn; rewrite ?Hdone; repeat split; auto;
    unfold set_status, set_completed_at; cbn; rewrite ?Hdone; reflexivity.
Qed.

Lemma update_priority_cases (d : dict pyval) (t : Task) :
  step_keeps (fun t' => t' = set_priority t (priority t')
                        /\ choice_update d "priority" priority_choices (priority t) (priority t'))
             (update_priority (Some d) t).
Proof.
  unfold update_priority, rbind, data_mem, data_item, dict_mem, dict_item, choice_update.
  destruct (dict_find d "priority") as [v|]; cbn; [|split; [now destruct t|reflexivity]].
  destruct (choice_of v priority_choices) as [pr|] eqn:Hc; cbn; [|reflexivity].
  pose proof (choice_of_listed _ _ _ Hc) as Hl.
  apply choice_of_Some in Hc. subst v. repeat split; auto.
Qed.

Lemma py_replace_Z_Ok (v : pyval) (x : string) :
  py_replace_Z v = Ok x -> exists y, v = VStr y /\ x = replace_Z y.
Proof. destruct v; cbn; try discriminate. intros [= <-]. eauto. Qed.

Lemma update_due_date_cases (E : Env) (d : dict pyval) (t : Task) :
  step_keeps (fun t' => t' = set_due_date t (due_date t')
                        /\ due_update E d (due_date t) (due_date t'))
             (update_due_date E (Some d) t).
Proof.
  unfold update_due_date, parse_due_date, rbind, data_mem, data_item, dict_mem, dict_item,
    due_update.
  destruct (dict_find d "due_date") as [v|]; cbn; [|split; [now destruct t|reflexivity]].
  destruct (truthy v) eqn:Hv; cbn; [|split; reflexivity].
  destruct (py_replace_Z v) as [x|] eqn:Hx; cbn; [|exact I].
  apply py_replace_Z_Ok in Hx as (y & -> & ->).
  destruct (fromisoformat E (replace_Z y)) as [z|] eqn:Hz; cbn; [|reflexivity].
  split; [reflexivity|]. eauto.
Qed.

(** All field equations that follow from an equation between two tasks. *)
Ltac task_fields H :=
  pose proof (f_equal task_id H);
  pose proof (f_equal title H);
  pose proof (f_equal description H);
  pose proof (f_equal task_user H);
  pose proof (f_equal status H);
  pose proof (f_equal priority H);
  pose proof (f_equal due_date H);
  pose proof (f_equal created_at H);
  pose proof (f_equal updated_at H);
  pose proof (f_equal completed_at H).

(** What [update_task] does to the task it finds: nothing to the store and no
    200, or the task is saved as [updated_by] describes. *)
Lemma update_task_body_cases (E : Env) (user : User) (i : ObjectId)
    (req : request) (now : Z) (s : Store) (t : Task) :
  current_user req = Some user ->
  task_by_id_of i user s = Some t ->
  (snd (update_task_body E i req now s) = s
   /\ forall r, fst (update_task_body E i req now s) = Ok r -> status_code r <> 200)
  \/ exists d t',
       get_json req = Some d
       /\ updated_by E d now t t'
       /\ task_validate E t' = None
       /\ snd (update_task_body E i req now s)
          = mkStore (users s) (replace_task t' (tasks s)) (next_id s)
       /\ fst (update_task_body E i req now s)
          = Ok (jsonify
                  [("message", JStr "Task updated successfully");
                   ("task",
                    JObj [("id", JOid (task_id t'));
                          ("title", JStr (title t'));
                          ("description", JStr (description t'));
                          ("status", JStr (status t'));
                          ("priority", JStr (priority t'));
                          ("due_date", opt_time (due_date t'));
                          ("updated_at", JTime (updated_at t'));
                          ("completed_at", opt_time (completed_at t'))])] 200).
Proof.
  intros Hu Hf.
  unfold update_task_body, and_then, bind, lift, ret, get_store, to_object_id.
  rewrite Hu, Hf.
  destruct (get_json req) as [d|] eqn:Hj;
    [|left; cbn; split; [reflexivity|discriminate]].
  pose proof (update_title_cases d t) as H1.
  destruct (update_title (Some d) t) as [[t1|r1]|e1]; cbn in H1;
    [|left; cbn; split; [reflexivity|intros r [= <-]; rewrite H1; discriminate]
     |left; cbn; split; [reflexivity|discriminate]].
  destruct H1 as (E1 & F1).
  pose proof (update_description_cases d t1) as H2.
  destruct (update_description (Some d) t1) as [[t2|r2]|e2]; cbn in H2;
    [|left; cbn; split; [reflexivity|intros r [= <-]; rewrite H2; discriminate]
     |left; cbn; split; [reflexivity|discriminate]].
  destruct H2 as (E2 & F2).
  pose proof (update_status_cases d t2 now) as H3.
  destruct (update_status (Some d) t2 now) as [[t3|r3]|e3]; cbn in H3;
    [|left; cbn; split; [reflexivity|intros r [= <-]; rewrite H3; discriminate]
     |left; cbn; split; [reflexivity|discriminate]].
  destruct H3 as (E3 & F3 & G3).
  pose proof (update_priority_cases d t3) as H4.
  destruct (update_priority (Some d) t3) as [[t4|r4]|e4]; cbn in H4;
    [|left; cbn; split; [reflexivity|intros r [= <-]; rewrite H4; discriminate]
     |left; cbn; split; [reflexivity|discriminate]].
  destruct H4 as (E4 & F4).
  pose proof (update_due_date_cases E d t4) as H5.
  destruct (update_due_date E (Some d) t4) as [[t5|r5]|e5]; cbn in H5;
    [|left; cbn; split; [reflexivity|intros r [= <-]; rewrite H5; discriminate]
     |left; cbn; split; [reflexivity|discriminate]].
  destruct H5 as (E5 & F5).
  unfold update_task_doc.
  destruct (task_validate E (set_updated_at t5 now)) as [msg|] eqn:Hval;
    [left; cbn; split; [reflexivity|discriminate]|].
  right. exists d, (set_updated_at t5 now). cbn [fst snd].
  split; [reflexivity|]. split; [|split; [exact Hval|split; reflexivity]].
  task_fields E1. task_fields E2. task_fields E3. task_fields E4. task_fields E5.
  cbn in *.
  unfold updated_by. cbn [set_updated_at task_id task_user created_at updated_at title
                           description status priority due_date completed_at].
  repeat split; congruence.
Qed.

Lemma create_task_without_user (E : Env) (req : request) (now : Z) (s : Store) :
  current_user req = None -> create_task E req now s = (not_authenticated, s).
Proof. intros H. unfold create_task, try_except, create_task_body. now rewrite H. Qed.

Lemma string_field_default (d : dict pyval) (k dflt st : string) :
  string_field (dict_get_default d k (VStr dflt)) dflt = Ok st ->
  (dict_find d k = None -> st = dflt)
  /\ (forall x, dict_find d k = Some (VStr x) -> st = x).
Proof.
  unfold dict_get_default. destruct (dict_find d k) as [v|].
  - intros H. split; [discriminate|]. intros x [= ->]. cbn in H. congruence.
  - cbn. intros [= <-]. split; [reflexivity|discriminate].
Qed.

Lemma given_due_date_absent (E : Env) (d : dict pyval) (due : option Z) :
  given_due_date E (Some d) = Ok (Next due) -> dict_find d "due_date" = None -> due = None.
Proof.
  unfold given_due_date, rbind, data_get, dict_get. intros H Hn. rewrite Hn in H.
  cbn in H. congruence.
Qed.

(** A [create_task] that answers 201 has appended exactly one task to the
    store: it has the next id, it is owned by the attached user (the body
    cannot name another owner), its title and description are the body's
    strings trimmed and within 200 and 1000 characters, its [created_at] and
    [updated_at] are the time of the request and its [completed_at] is unset.
    [status], [priority] and [due_date] are taken from the body; absent keys
    give ['pending'], ['medium'] and no due date.  Users are untouched. *)
Theorem created_task_belongs_to_the_caller (E : Env) (req : request) (now : Z)
    (s : Store) (user : User) :
  current_user req = Some user ->
  status_code (fst (create_task E req now s)) = 201 ->
  exists d ts ds t,
    get_json req = Some d
    /\ dict_find d "title" = Some (VStr ts)
    /\ dict_find d "description" = Some (VStr ds)
    /\ snd (create_task E req now s)
       = mkStore (users s) (tasks s ++ [t]) (N.succ (next_id s))
    /\ task_id t = next_id s
    /\ task_user t = user_id user
    /\ title t = strip ts /\ description t = strip ds
    /\ within_bounds t
    /\ created_at t = now /\ updated_at t = now /\ completed_at t = None
    /\ (dict_find d "status" = None -> status t = "pending")
    /\ (forall st, dict_find d "status" = Some (VStr st) -> status t = st)
    /\ (dict_find d "priority" = None -> priority t = "medium")
    /\ (forall pr, dict_find d "priority" = Some (VStr pr) -> priority t = pr)
    /\ (dict_find d "due_date" = None -> due_date t = None).
Proof.
  intros Hu Hcode. unfold create_task, try_except in *.
  destruct (create_task_body_cases E req now s user Hu)
    as [[Hs Hno]|(d & ts & ds & st & pr & due & Hj & Ht & Htl & Hd & Hdl & Hst & Hpr
                  & Hdue & _ & Hs' & r & Hr & _)].
  - destruct (create_task_body E req now s) as [[r|e] s1]; cbn in *;
      [now elim (Hno r eq_refl)|discriminate].
  - destruct (create_task_body E req now s) as [[r'|e] s1]; cbn [fst snd] in *;
      [|discriminate].
    subst s1. exists d, ts, ds. eexists.
    split; [exact Hj|]. split; [exact Ht|]. split; [exact Hd|].
    split; [reflexivity|]. unfold within_bounds.
    cbn [task_id task_user title description created_at updated_at completed_at
         status priority due_date].
    destruct (string_field_default d "status" "pending" st Hst) as [Hs1 Hs2].
    destruct (string_field_default d "priority" "medium" pr Hpr) as [Hp1 Hp2].
    repeat split; auto.
    + pose proof (strip_len ts). lia.
    + pose proof (strip_len ds). lia.
    + now apply (given_due_date_absent E d).
Qed.

Lemma task_by_id_of_app_fresh (i : ObjectId) (u : User) (us : list User)
    (l : list Task) (t : Task) (n : N) :
  (forall x, In x l -> (task_id x < i)%N) -> task_id t = i ->
  task_by_id_of i u (mkStore us (l ++ [t]) n)
  = if N.eqb (task_user t) (user_id u) then Some t else None.
Proof.
  unfold task_by_id_of. cbn [tasks]. intros Hl Ht.
  induction l as [|a l IH]; cbn.
  - rewrite Ht, N.eqb_refl. cbn. now destruct (N.eqb (task_user t) (user_id u)).
  - destruct (N.eqb_spec (task_id a) i) as [Heq|_].
    + specialize (Hl a (or_introl eq_refl)). lia.
    + cbn. apply IH. intros x Hx. apply Hl. now right.
Qed.

Lemma get_task_found (i : ObjectId) (req : request) (now : Z) (s : Store)
    (user : User) (t : Task) :
  current_user req = Some user -> task_by_id_of i user s = Some t ->
  get_task i req now s = (jsonify [("task", task_json t)] 200, s).
Proof.
  intros Hu Hf. unfold get_task, try_except, get_task_body, bind, get_store, lift, to_object_id.
  now rewrite Hu, Hf.
Qed.

(** Create, then read: when task ids so far are below the next id, the task a
    201 from [create_task] stored can be read back by its owner under the id
    the answer names -- [get_task] shows exactly its stored fields -- and
    [get_task] by any other user answers 404 for that id. *)
Theorem created_task_can_be_read_back (E : Env) (req : request) (now : Z)
    (s : Store) (user : User) :
  task_ids_below s ->
  current_user req = Some user ->
  status_code (fst (create_task E req now s)) = 201 ->
  exists t,
    In t (tasks (snd (create_task E req now s)))
    /\ task_id t = next_id s
    /\ (exists rest, body (fst (create_task E req now s))
                     = JObj [("message", JStr "Task created successfully");
                             ("task", JObj (("id", JOid (next_id s)) :: rest))])
    /\ (forall req2 later,
           current_user req2 = Some user ->
           get_task (next_id s) req2 later (snd (create_task E req now s))
           = (jsonify [("task", task_json t)] 200, snd (create_task E req now s)))
    /\ (forall other req2 later,
           current_user req2 = Some other -> user_id other <> user_id user ->
           get_task (next_id s) req2 later (snd (create_task E req now s))
           = (jsonify [("error", JStr "Task not found")] 404,
              snd (create_task E req now s))).
Proof.
  intros Hids Hu Hcode. unfold create_task, try_except in *.
  destruct (create_task_body_cases E req now s user Hu)
    as [[Hs Hno]|(d & ts & ds & st & pr & due & _ & _ & _ & _ & _ & _ & _
                  & _ & _ & Hs' & r & Hr & _ & Hbody)].
  - destruct (create_task_body E req now s) as [[r|e] s1]; cbn in *;
      [now elim (Hno r eq_refl)|discriminate].
  - destruct (create_task_body E req now s) as [[r'|e] s1]; cbn in *; [|discriminate].
    injection Hr as ->. subst s1. eexists.
    split; [apply in_or_app; right; left; reflexivity|].
    split; [reflexivity|]. split; [rewrite Hbody; eauto|]. split.
    + intros req2 later Hu2. apply (get_task_found _ _ _ _ user); [exact Hu2|].
      rewrite task_by_id_of_app_fresh; [|exact Hids|reflexivity].
      cbn. now rewrite N.eqb_refl.
    + intros other req2 later Hu2 Hne. apply (get_task_missing _ _ _ _ other Hu2).
      rewrite task_by_id_of_app_fresh; [|exact Hids|reflexivity].
      cbn. destruct (N.eqb_spec (user_id user) (user_id other)); [congruence|reflexivity].
Qed.

(** An [update_task] that answers 200 has replaced the task it found by one
    with the same id, owner and creation time, stamped with the time of the
    update, and nothing else in the store has changed.  A text field is
    changed only when its key is in the body, to the body's non-empty string
    (at most 200 / 1000 characters) trimmed; [status] and [priority] only to
    one of their listed values; [due_date] is kept when its key is absent,
    cleared by a falsy value and parsed otherwise.  The owner reads the saved
    task back with [get_task]. *)
Theorem update_task_changes_only_supplied_fields (E : Env) (user : User) (i : ObjectId)
    (req : request) (now : Z) (s : Store) (t : Task) :
  current_user req = Some user ->
  task_by_id_of i user s = Some t ->
  status_code (fst (update_task E i req now s)) = 200 ->
  exists d t',
    get_json req = Some d
    /\ updated_by E d now t t'
    /\ snd (update_task E i req now s)
       = mkStore (users s)
                 (map (fun x => if N.eqb (task_id x) i then t' else x) (tasks s))
                 (next_id s)
    /\ (forall req2 later,
           current_user req2 = Some user ->
           get_task i req2 later (snd (update_task E i req now s))
           = (jsonify [("task", task_json t')] 200, snd (update_task E i req now s))).
Proof.
  intros Hu Hf Hcode. unfold update_task, try_except in *.
  pose proof (task_by_id_of_Some _ _ _ _ Hf) as (_ & Hid & Hown).
  destruct (update_task_body_cases E user i req now s t Hu Hf)
    as [[Hs Hno]|(d & t' & Hj & Hupd & _ & Hs' & Hr)].
  - destruct (update_task_body E i req now s) as [[r|e] s1]; cbn [fst snd] in *;
      [now elim (Hno r eq_refl)|discriminate].
  - destruct (update_task_body E i req now s) as [[r|e] s1]; cbn [fst snd] in *;
      [|discriminate].
    subst s1. exists d, t'. split; [exact Hj|]. split; [exact Hupd|].
    destruct Hupd as (Hi' & Ho' & _).
    split; [unfold replace_task; now rewrite Hi', Hid|].
    intros req2 later Hu2. apply (get_task_found _ _ _ _ user _ Hu2).
    destruct s as [us l n]. cbn [users tasks next_id].
    apply (task_by_id_of_replace i user t); [exact Hf|congruence|congruence].
Qed.

Lemma find_filter_other {A : Type} (p q : A -> bool) (l : list A) :
  (forall x, In x l -> p x = true -> q x = true) ->
  find p (filter q l) = find p l.
Proof.
  induction l as [|a l IH]; cbn; intros H; [reflexivity|].
  assert (IH' : find p (filter q l) = find p l)
    by (apply IH; intros x Hx; apply H; now right).
  destruct (q a) eqn:Hq; cbn.
  - now rewrite IH'.
  - destruct (p a) eqn:Hp; [|exact IH'].
    rewrite (H a (or_introl eq_refl) Hp) in Hq. discriminate.
Qed.

(** A [delete_task] on a task the caller owns answers 200 and removes the
    documents with that id and nothing else: afterwards the id is found for
    no user (so [get_task] on it answers 404), every other id is found as
    before, and users are untouched. *)
Theorem deleted_task_is_gone (i : ObjectId) (req : request) (now : Z) (s : Store)
    (user : User) (t : Task) :
  current_user req = Some user ->
  task_by_id_of i user s = Some t ->
  delete_task i req now s
  = (jsonify [("message", JStr "Task deleted successfully")] 200,
     mkStore (users s) (filter (fun x => negb (N.eqb (task_id x) i)) (tasks s)) (next_id s))
  /\ (forall anyone, task_by_id_of i anyone (snd (delete_task i req now s)) = None)
  /\ (forall j anyone,
         j <> i ->
         task_by_id_of j anyone (snd (delete_task i req now s)) = task_by_id_of j anyone s)
  /\ (forall req2 later,
         current_user req2 = Some user ->
         fst (get_task i req2 later (snd (delete_task i req now s)))
         = jsonify [("error", JStr "Task not found")] 404).
Proof.
  intros Hu Hf.
  pose proof (task_by_id_of_Some _ _ _ _ Hf) as (_ & Hid & _).
  assert (Hdel : delete_task i req now s
                 = (jsonify [("message", JStr "Task deleted successfully")] 200,
                    mkStore (users s)
                            (filter (fun x => negb (N.eqb (task_id x) i)) (tasks s))
                            (next_id s))).
  { unfold delete_task, try_except, delete_task_body, bind, get_store, delete_task_doc, ret, lift, to_object_id.
    rewrite Hu, Hf. cbn. unfold remove_task. now rewrite Hid. }
  rewrite Hdel. cbn [fst snd].
  assert (Hgone : forall anyone,
             task_by_id_of i anyone
               (mkStore (users s) (filter (fun x => negb (N.eqb (task_id x) i)) (tasks s))
                        (next_id s)) = None).
  { intros anyone. unfold task_by_id_of. cbn [tasks]. apply find_some_iff.
    intros x Hx. apply filter_In in Hx as [_ Hx].
    destruct (N.eqb (task_id x) i); [discriminate|reflexivity]. }
  split; [reflexivity|]. split; [exact Hgone|]. split.
  - intros j anyone Hne. unfold task_by_id_of. cbn [tasks].
    apply find_filter_other. intros x _ Hp.
    apply andb_true_iff in Hp as [Hj _]. apply N.eqb_eq in Hj.
    destruct (N.eqb_spec (task_id x) i); [congruence|reflexivity].
  - intros req2 later Hu2.
    now rewrite (get_task_missing _ _ _ _ user Hu2 (Hgone user)).
Qed.

(* ------------------------------------------------------------------ *)
(** ** What the handlers leave alone *)

Section Keeps.

Variable R : Store -> Store -> Prop.
Hypothesis R_refl : forall s, R s s.
Hypothesis R_trans : forall s1 s2 s3, R s1 s2 -> R s2 s3 -> R s1 s3.

Lemma keeps_quiet {A : Type} (m : M A) : quiet m -> keeps R m.
Proof. intros Hq s. rewrite (Hq s). apply R_refl. Qed.

Lemma keeps_bind {A B : Type} (m : M A) (k : A -> M B) :
  keeps R m -> (forall a, keeps R (k a)) -> keeps R (bind m k).
Proof.
  intros Hm Hk s. unfold bind. specialize (Hm s).
  destruct (m s) as [[a|e] s1]; cbn in Hm; [|exact Hm].
  apply (R_trans _ s1); [exact Hm|apply Hk].
Qed.

Lemma keeps_and_then {A : Type} (m : M (flow A)) (k : A -> M response) :
  keeps R m -> (forall a, keeps R (k a)) -> keeps R (and_then m k).
Proof.
  intros Hm Hk. unfold and_then. apply keeps_bind; [exact Hm|].
  intros [a|r]; [apply Hk|apply keeps_quiet, quiet_ret].
Qed.

Lemma keeps_try_except (label : string) (m : M response) (s : Store) :
  keeps R m -> R s (snd (try_except label m s)).
Proof.
  intros Hm. unfold try_except. specialize (Hm s).
  destruct (m s) as [[r|e] s1]; exact Hm.
Qed.

End Keeps.

Lemma same_tasks_refl (s : Store) : same_tasks s s.
Proof. reflexivity. Qed.

Lemma same_tasks_trans (s1 s2 s3 : Store) :
  same_tasks s1 s2 -> same_tasks s2 s3 -> same_tasks s1 s3.
Proof. unfold same_tasks. congruence. Qed.

Lemma same_users_refl (s : Store) : same_users s s.
Proof. reflexivity. Qed.

Lemma same_users_trans (s1 s2 s3 : Store) :
  same_users s1 s2 -> same_users s2 s3 -> same_users s1 s3.
Proof. unfold same_users. congruence. Qed.

Lemma insert_user_same_tasks (E : Env) (u : User) : keeps same_tasks (insert_user E u).
Proof.
  intros s. unfold insert_user, same_tasks.
  destruct (user_validate E u); [reflexivity|].
  destruct (unique_index E && clashes u s)%bool; reflexivity.
Qed.

Lemma update_user_same_tasks (E : Env) (u : User) : keeps same_tasks (update_user E u).
Proof.
  intros s. unfold update_user, same_tasks. destruct (user_validate E u); reflexivity.
Qed.

Lemma insert_task_same_users (E : Env) (t : Task) : keeps same_users (insert_task E t).
Proof.
  intros s. unfold insert_task, same_users. destruct (task_validate E t); reflexivity.
Qed.

Lemma update_task_doc_same_users (E : Env) (t : Task) :
  keeps same_users (update_task_doc E t).
Proof.
  intros s. unfold update_task_doc, same_users. destruct (task_validate E t); reflexivity.
Qed.

Lemma delete_task_doc_same_users (t : Task) : keeps same_users (delete_task_doc t).
Proof. now intros s. Qed.

(** One step of a proof that a handler body keeps a collection. *)
Ltac keeps_step refl trans :=
  first
    [ apply (keeps_quiet _ refl);
      first [ apply quiet_ret | apply quiet_lift | apply quiet_get_store ]
    | apply insert_user_same_tasks | apply update_user_same_tasks
    | apply insert_task_same_users | apply update_task_doc_same_users
    | apply delete_task_doc_same_users
    | apply (keeps_bind _ trans); [|intros ?]
    | apply (keeps_and_then _ refl trans); [|intros ?]
    | match goal with
      | |- keeps _ (match ?x with _ => _ end) => destruct x
      end ].

Lemma register_body_same_tasks (E : Env) (req : request) (now : Z) :
  keeps same_tasks (register_body E req now).
Proof.
  unfold register_body. cbv zeta. repeat keeps_step same_tasks_refl same_tasks_trans.
Qed.

Lemma change_password_body_same_tasks (E : Env) (req : request) (now : Z) :
  keeps same_tasks (change_password_body E req now).
Proof.
  unfold change_password_body. cbv zeta.
  repeat keeps_step same_tasks_refl same_tasks_trans.
Qed.

Lemma create_task_body_same_users (E : Env) (req : request) (now : Z) :
  keeps same_users (create_task_body E req now).
Proof.
  unfold create_task_body. cbv zeta. repeat keeps_step same_users_refl same_users_trans.
Qed.

Lemma update_task_body_same_users (E : Env) (i : path_id) (req : request) (now : Z) :
  keeps same_users (update_task_body E i req now).
Proof.
  unfold update_task_body. cbv zeta. repeat keeps_step same_users_refl same_users_trans.
Qed.

Lemma delete_task_body_same_users (i : path_id) (req : request) :
  keeps same_users (delete_task_body i req).
Proof.
  unfold delete_task_body. cbv zeta. repeat keeps_step same_users_refl same_users_trans.
Qed.

(** The two controllers keep to their own collection: no handler of
    [auth_controller.py] ever changes the tasks, and no handler of
    [task_controller.py] ever changes the users -- on any request, whatever
    the answer. *)
Theorem controllers_keep_to_their_collection (E : Env) (h : handler_name)
    (req : request) (now : Z) (s : Store) :
  (if auth_handler h
   then tasks (snd (run_handler E h req now s)) = tasks s
   else users (snd (run_handler E h req now s)) = users s).
Proof.
  rewrite run_handler_unfold.
  destruct (read_only h) eqn:Hro.
  - pose proof (quiet_read_only E h req now Hro s) as Hq.
    unfold try_except. destruct (handler_body E h req now s) as [[r|e] s1];
      cbn in *; subst s1; now destruct (auth_handler h).
  - destruct h; try discriminate; cbn [auth_handler handler_body failure_label].
    + apply (keeps_try_except same_tasks), register_body_same_tasks.
    + apply (keeps_try_except same_tasks), change_password_body_same_tasks.
    + apply (keeps_try_except same_users), create_task_body_same_users.
    + apply (keeps_try_except same_users), update_task_body_same_users.
    + apply (keeps_try_except same_users), delete_task_body_same_users.
Qed.

Lemma snd_try_except (label : string) (m : M response) (s : Store) :
  snd (try_except label m s) = snd (m s).
Proof. unfold try_except. now destruct (m s) as [[r|e] s1]. Qed.

Lemma nodup_task_eq (l : list Task) (x y : Task) :
  NoDup (map task_id l) -> In x l -> In y l -> task_id x = task_id y -> x = y.
Proof.
  induction l as [|a l IH]; cbn; intros Hnd Hx Hy Heq; [contradiction|].
  inversion Hnd as [|? ? Hnotin Hnd']; subst.
  destruct Hx as [->|Hx], Hy as [->|Hy]; auto.
  - exfalso. apply Hnotin. rewrite Heq. now apply in_map.
  - exfalso. apply Hnotin. rewrite <- Heq. now apply in_map.
Qed.

(** The store after a task-writing handler, for an attached user: as it was,
    or with one task of that user appended, or with the documents of one id
    that the user owns replaced by a task of that user or removed. *)
Lemma task_write_shapes (E : Env) (h : handler_name) (req : request) (now : Z)
    (s : Store) (user : User) :
  current_user req = Some user ->
  read_only h = false -> auth_handler h = false ->
  let s' := snd (run_handler E h req now s) in
  s' = s
  \/ (exists t', task_user t' = user_id user /\ within_bounds t'
                 /\ tasks s' = (tasks s ++ [t'])%list)
  \/ (exists i t0 t', task_by_id_of i user s = Some t0
                      /\ task_id t' = i /\ task_user t' = user_id user
                      /\ (within_bounds t0 -> within_bounds t')
                      /\ tasks s' = map (fun x => if N.eqb (task_id x) i then t' else x)
                                        (tasks s))
  \/ (exists i t0, task_by_id_of i user s = Some t0
                   /\ tasks s' = filter (fun x => negb (N.eqb (task_id x) i)) (tasks s)).
Proof.
  intros Hu Hro Hauth. cbv zeta. rewrite run_handler_unfold, snd_try_except.
  destruct h; try discriminate; cbn [handler_body].
  - destruct (create_task_body_cases E req now s user Hu)
      as [[Hs _]|(d & ts & ds & st & pr & due & _ & _ & Htl & _ & Hdl & _ & _ & _ & _
                  & Hs' & _)]; [now left|].
    right. left. rewrite Hs'. eexists. split; [|split; [|reflexivity]].
    + reflexivity.
    + unfold within_bounds. cbn.
      pose proof (strip_len ts). pose proof (strip_len ds). lia.
  - destruct i as [i|raw];
      [|left; unfold update_task_body, bind, lift, to_object_id; now rewrite Hu].
    destruct (task_by_id_of i user s) as [t0|] eqn:Hf.
    + pose proof (task_by_id_of_Some _ _ _ _ Hf) as (_ & Hid & Hown).
      destruct (update_task_body_cases E user i req now s t0 Hu Hf)
        as [[Hs _]|(d & t' & _ & Hupd & _ & Hs' & _)]; [now left|].
      right. right. left. exists i, t0, t'. rewrite Hs'.
      destruct Hupd as (Hi' & Ho' & _ & _ & Ht & Hd & _).
      split; [exact Hf|]. split; [congruence|]. split; [congruence|].
      split; [|unfold replace_task; cbn; now rewrite Hi', Hid].
      intros [Hb1 Hb2]. unfold within_bounds, text_update in *.
      split.
      * destruct (dict_find d "title"); [|now rewrite Ht].
        destruct Ht as (x & _ & _ & Hx & ->). pose proof (strip_len x). lia.
      * destruct (dict_find d "description"); [|now rewrite Hd].
        destruct Hd as (x & _ & _ & Hx & ->). pose proof (strip_len x). lia.
    + left. unfold update_task_body, bind, get_store, lift, to_object_id. now rewrite Hu, Hf.
  - destruct i as [i|raw];
      [|left; unfold delete_task_body, bind, lift, to_object_id; now rewrite Hu].
    destruct (task_by_id_of i user s) as [t0|] eqn:Hf.
    + pose proof (task_by_id_of_Some _ _ _ _ Hf) as (_ & Hid & _).
      right. right. right. exists i, t0. split; [exact Hf|].
      unfold delete_task_body, bind, get_store, delete_task_doc, ret, lift, to_object_id.
      rewrite Hu, Hf. cbn. unfold remove_task. now rewrite Hid.
    + left. unfold delete_task_body, bind, get_store, lift, to_object_id. now rewrite Hu, Hf.
Qed.

Lemma tasks_kept_by_auth_handlers (E : Env) (h : handler_name) (req : request)
    (now : Z) (s : Store) :
  read_only h = true \/ auth_handler h = true ->
  tasks (snd (run_handler E h req now s)) = tasks s.
Proof.
  intros [Hro|Hauth].
  - rewrite run_handler_unfold, snd_try_except.
    now rewrite (quiet_read_only E h req now Hro s).
  - rewrite run_handler_unfold.
    destruct h; try discriminate; cbn [handler_body failure_label].
    + apply (keeps_try_except same_tasks), register_body_same_tasks.
    + now rewrite snd_try_except, (quiet_login_body E req now s).
    + reflexivity.
    + rewrite snd_try_except.
      pose proof (quiet_read_only E GetCurrentUser req now eq_refl s) as Hq.
      cbn [handler_body] in Hq. now rewrite Hq.
    + apply (keeps_try_except same_tasks), change_password_body_same_tasks.
Qed.

Lemma task_handler_without_user (E : Env) (h : handler_name) (req : request)
    (now : Z) (s : Store) :
  current_user req = None -> auth_handler h = false ->
  snd (run_handler E h req now s) = s.
Proof.
  intros Hu Hauth. rewrite run_handler_unfold, snd_try_except.
  destruct h; try discriminate; cbn [handler_body];
    unfold create_task_body, get_tasks_body, get_task_body, update_task_body,
      delete_task_body, get_task_stats_body, get_all_tasks_body;
    now rewrite Hu.
Qed.

(** No request touches another user's tasks.  With unique task ids, whatever
    handler runs with user [A] attached and whatever the body says, every
    task owned by somebody else is in the store afterwards exactly as it was
    before, and no task owned by somebody else appears: [A] can create,
    change and delete only tasks of [A]. *)
Theorem other_users_tasks_are_untouched (E : Env) (h : handler_name) (req : request)
    (now : Z) (s : Store) (A : User) (t : Task) :
  unique_task_ids s ->
  current_user req = Some A ->
  task_user t <> user_id A ->
  (In t (tasks s) <-> In t (tasks (snd (run_handler E h req now s)))).
Proof.
  intros Huniq Hu Hother.
  destruct (read_only h) eqn:Hro;
    [now rewrite tasks_kept_by_auth_handlers by (now left)|].
  destruct (auth_handler h) eqn:Hauth;
    [now rewrite tasks_kept_by_auth_handlers by (now right)|].
  destruct (task_write_shapes E h req now s A Hu Hro Hauth)
    as [Hs|[(t' & Ho & _ & Hs)|[(i & t0 & t' & Hf & Hi & Ho & _ & Hs)|(i & t0 & Hf & Hs)]]];
    cbv zeta in *; rewrite Hs; try reflexivity.
  - rewrite in_app_iff. cbn. split; [auto|]. intros [H|[H|[]]]; [exact H|congruence].
  - pose proof (task_by_id_of_Some _ _ _ _ Hf) as (Hin0 & Hid0 & Hown0).
    rewrite in_map_iff. split.
    + intros Hin. exists t. split; [|exact Hin].
      destruct (N.eqb_spec (task_id t) i) as [Heq|]; [|reflexivity].
      assert (t = t0) by (apply (nodup_task_eq (tasks s)); auto; congruence).
      congruence.
    + intros (x & Hx & Hin).
      destruct (N.eqb (task_id x) i); [congruence|now subst].
  - pose proof (task_by_id_of_Some _ _ _ _ Hf) as (Hin0 & Hid0 & Hown0).
    rewrite filter_In. split; [|tauto].
    intros Hin. split; [exact Hin|].
    destruct (N.eqb_spec (task_id t) i) as [Heq|]; [|reflexivity].
    assert (t = t0) by (apply (nodup_task_eq (tasks s)); auto; congruence).
    congruence.
Qed.

(** The length limits are an invariant of the store: if every stored task
    has a title of at most 200 and a description of at most 1000 characters,
    the same holds after any handler, on any request. *)
Theorem task_length_limits_are_kept (E : Env) (h : handler_name) (req : request)
    (now : Z) (s : Store) :
  (forall t, In t (tasks s) -> within_bounds t) ->
  forall t, In t (tasks (snd (run_handler E h req now s))) -> within_bounds t.
Proof.
  intros Hinv t.
  destruct (read_only h) eqn:Hro;
    [rewrite tasks_kept_by_auth_handlers by (now left); apply Hinv|].
  destruct (auth_handler h) eqn:Hauth;
    [rewrite tasks_kept_by_auth_handlers by (now right); apply Hinv|].
  destruct (current_user req) as [user|] eqn:Hu;
    [|rewrite (task_handler_without_user E h req now s Hu Hauth); apply Hinv].
  destruct (task_write_shapes E h req now s user Hu Hro Hauth)
    as [Hs|[(t' & _ & Hb & Hs)|[(i & t0 & t' & Hf & _ & _ & Hb & Hs)|(i & t0 & _ & Hs)]]];
    cbv zeta in *; rewrite Hs.
  - apply Hinv.
  - rewrite in_app_iff. cbn. intros [H|[<-|[]]]; [now apply Hinv|exact Hb].
  - pose proof (task_by_id_of_Some _ _ _ _ Hf) as (Hin0 & _).
    rewrite in_map_iff. intros (x & Hx & Hin).
    destruct (N.eqb (task_id x) i); [subst t; apply Hb, Hinv, Hin0|subst; now apply Hinv].
  - rewrite filter_In. intros [Hin _]. now apply Hinv.
Qed.

(* ------------------------------------------------------------------ *)
(** ** Listing and counting tasks *)

Lemma insert_newest_In (t x : Task) (l : list Task) :
  In x (insert_newest t l) <-> x = t \/ In x l.
Proof.
  induction l as [|a l IH]; cbn; [intuition congruence|].
  destruct (created_at a <=? created_at t); cbn; [intuition congruence|].
  rewrite IH. intuition congruence.
Qed.

Lemma newest_first_In (x : Task) (l : list Task) : In x (newest_first l) <-> In x l.
Proof.
  induction l as [|a l IH]; cbn; [tauto|].
  rewrite insert_newest_In, IH. intuition congruence.
Qed.

Lemma matching_In (a : dict string) (user : User) (s : Store) (t : Task) :
  In t (matching a user s) <->
  In t (tasks s) /\ task_user t = user_id user
  /\ (forall st, arg_given a "status" = Some st -> status t = st)
  /\ (forall pr, arg_given a "priority" = Some pr -> priority t = pr).
Proof.
  unfold matching, tasks_of. cbv zeta.
  destruct (arg_given a "status") as [st|], (arg_given a "priority") as [pr|];
    rewrite ?filter_In, ?N.eqb_eq, ?String.eqb_eq; split.
  - intros [[[H1 H2] H3] H4]. repeat split; auto; now intros ? [= <-].
  - intros (H1 & H2 & H3 & H4). auto.
  - intros [[H1 H2] H3]. repeat split; auto; [now intros ? [= <-]|discriminate].
  - intros (H1 & H2 & H3 & H4). auto.
  - intros [[H1 H2] H3]. repeat split; auto; [discriminate|now intros ? [= <-]].
  - intros (H1 & H2 & H3 & H4). auto.
  - intros [H1 H2]. repeat split; auto; discriminate.
  - intros (H1 & H2 & H3 & H4). auto.
Qed.

Lemma pages_is_a_ceiling (total limit : Z) :
  0 < limit ->
  ((total + limit - 1) / limit - 1) * limit < total <= (total + limit - 1) / limit * limit.
Proof.
  intros Hl.
  pose proof (Z.div_mod (total + limit - 1) limit ltac:(lia)) as Hdm.
  pose proof (Z.mod_pos_bound (total + limit - 1) limit Hl) as Hb.
  nia.
Qed.

(** The path of [get_tasks] for an attached user. *)
Lemma get_tasks_body_unfold (E : Env) (req : request) (s : Store) (user : User) :
  current_user req = Some user ->
  get_tasks_body E req s
  = match int_arg (args req) "page" 1 with
    | Raise e => (Raise e, s)
    | Ok page =>
        match int_arg (args req) "limit" 10 with
        | Raise e => (Raise e, s)
        | Ok limit =>
            let q := matching (args req) user s in
            match cursor_window E ((page - 1) * limit) limit (newest_first q) with
            | Raise e => (Raise e, s)
            | Ok listed =>
                match py_floordiv (Z.of_nat (List.length q) + limit - 1) limit with
                | Raise e => (Raise e, s)
                | Ok pages =>
                    (Ok (jsonify [("tasks", JArr (map task_json listed));
                                  ("pagination",
                                   pagination page limit (Z.of_nat (List.length q)) pages)]
                                 200), s)
                end
            end
        end
    end.
Proof.
  intros Hu. unfold get_tasks_body, bind, lift, ret, get_store, matching. rewrite Hu.
  destruct (int_arg (args req) "page" 1) as [page|]; [|reflexivity].
  destruct (int_arg (args req) "limit" 10) as [limit|]; [|reflexivity].
  cbv zeta.
  destruct (cursor_window _ _ _ _) as [listed|]; [|reflexivity].
  destruct (py_floordiv _ _); reflexivity.
Qed.

(** When [get_tasks] answers 200, [page] and [limit] read as integers and
    [limit] is not 0; [total] counts the caller's tasks that match the given
    [status] and [priority] filters (empty filter values count as not
    given), whatever the page; [pages] is [(total + limit - 1) // limit],
    which for a positive limit is the number of pages needed:
    [(pages - 1) * limit < total <= pages * limit].  The cursor was asked for
    [skip = (page - 1) * limit] and [limit] of the matching tasks, newest
    first, and when it returns documents of that query only, every task shown
    is a stored task of the caller that matches the filters. *)
Theorem task_list_is_counted_and_scoped (E : Env) (req : request) (now : Z)
    (s : Store) (user : User) :
  current_user req = Some user ->
  status_code (fst (get_tasks E req now s)) = 200 ->
  exists page limit listed,
    int_arg (args req) "page" 1 = Ok page
    /\ int_arg (args req) "limit" 10 = Ok limit
    /\ limit <> 0
    /\ cursor_window E ((page - 1) * limit) limit
         (newest_first (matching (args req) user s)) = Ok listed
    /\ get_tasks E req now s
       = (jsonify
            [("tasks", JArr (map task_json listed));
             ("pagination",
              JObj [("page", JInt page); ("limit", JInt limit);
                    ("total", JInt (Z.of_nat (List.length (matching (args req) user s))));
                    ("pages",
                     JInt ((Z.of_nat (List.length (matching (args req) user s))
                            + limit - 1) / limit))])] 200, s)
    /\ (0 < limit ->
        ((Z.of_nat (List.length (matching (args req) user s)) + limit - 1) / limit - 1)
        * limit
        < Z.of_nat (List.length (matching (args req) user s))
        <= (Z.of_nat (List.length (matching (args req) user s)) + limit - 1) / limit
           * limit)
    /\ (forall t, In t (matching (args req) user s) <->
                  In t (tasks s) /\ task_user t = user_id user
                  /\ (forall st, arg_given (args req) "status" = Some st -> status t = st)
                  /\ (forall pr, arg_given (args req) "priority" = Some pr
                                 -> priority t = pr))
    /\ (window_selects E ->
        forall t, In t listed ->
                  In t (tasks s) /\ task_user t = user_id user
                  /\ (forall st, arg_given (args req) "status" = Some st -> status t = st)
                  /\ (forall pr, arg_given (args req) "priority" = Some pr
                                 -> priority t = pr)).
Proof.
  intros Hu Hcode. unfold get_tasks, try_except in *.
  rewrite (get_tasks_body_unfold E req s user Hu) in *.
  destruct (int_arg (args req) "page" 1) as [page|]; [|discriminate].
  destruct (int_arg (args req) "limit" 10) as [limit|]; [|discriminate].
  cbv zeta in *.
  destruct (cursor_window E ((page - 1) * limit) limit _) as [listed|] eqn:Hw;
    [|discriminate].
  unfold py_floordiv in *.
  destruct (Z.eqb_spec limit 0) as [Hz|Hnz]; [discriminate|].
  exists page, limit, listed.
  repeat (split; [first [reflexivity|assumption]|]).
  split; [apply pages_is_a_ceiling|]. split; [apply matching_In|].
  intros Hsel t Hin. apply matching_In, newest_first_In. exact (Hsel _ _ _ _ Hw t Hin).
Qed.

Lemma count_status_cons (st : string) (a : Task) (l : list Task) :
  count_status st (a :: l)
  = (if (status a =? st)%string then 1 else 0) + count_status st l.
Proof.
  unfold count_status. cbn [filter].
  destruct (status a =? st)%string; cbn [List.length]; lia.
Qed.

Lemma count_status_nonneg (st : string) (l : list Task) : 0 <= count_status st l.
Proof. unfold count_status. lia. Qed.

Ltac eval_string_tests :=
  repeat match goal with
         | |- context [String.eqb ?a ?b] =>
             let v := eval vm_compute in (String.eqb a b) in
             change (String.eqb a b) with v
         end.

(** A status string passes at most one of the four tests of
    [get_task_stats], and exactly one when it is listed. *)
Lemma status_tests_exclusive (x : string) :
  (if (x =? "pending")%string then 1 else 0)
  + (if (x =? "in_progress")%string then 1 else 0)
  + (if (x =? "completed")%string then 1 else 0)
  + (if (x =? "cancelled")%string then 1 else 0) <= 1
  /\ (in_choices x status_choices = true ->
      (if (x =? "pending")%string then 1 else 0)
      + (if (x =? "in_progress")%string then 1 else 0)
      + (if (x =? "completed")%string then 1 else 0)
      + (if (x =? "cancelled")%string then 1 else 0) = 1).
Proof.
  unfold in_choices, status_choices. cbn [existsb].
  destruct (String.eqb_spec x "pending") as [->|_];
    [eval_string_tests; split; [lia|reflexivity]|].
  destruct (String.eqb_spec x "in_progress") as [->|_];
    [eval_string_tests; split; [lia|reflexivity]|].
  destruct (String.eqb_spec x "completed") as [->|_];
    [eval_string_tests; split; [lia|reflexivity]|].
  destruct (x =? "cancelled")%string; split; try lia; try reflexivity; discriminate.
Qed.

Lemma status_counts_sum (l : list Task) :
  count_status "pending" l + count_status "in_progress" l
  + count_status "completed" l + count_status "cancelled" l
  <= Z.of_nat (List.length l)
  /\ ((forall t, In t l -> in_choices (status t) status_choices = true) ->
      count_status "pending" l + count_status "in_progress" l
      + count_status "completed" l + count_status "cancelled" l
      = Z.of_nat (List.length l)).
Proof.
  induction l as [|a l [IH1 IH2]]; [split; reflexivity|].
  rewrite !count_status_cons. cbn [List.length]. rewrite Nat2Z.inj_succ.
  destruct (status_tests_exclusive (status a)) as [Hle Heq].
  split; [lia|].
  intros Hall.
  assert (IH : count_status "pending" l + count_status "in_progress" l
               + count_status "completed" l + count_status "cancelled" l
               = Z.of_nat (List.length l))
    by (apply IH2; intros t Ht; apply Hall; now right).
  specialize (Heq (Hall a (or_introl eq_refl))). lia.
Qed.

Lemma overdue_excludes_closed (now : Z) (l : list Task) :
  Z.of_nat (List.length (filter (is_overdue now) l))
  + count_status "completed" l + count_status "cancelled" l
  <= Z.of_nat (List.length l).
Proof.
  induction l as [|a l IH]; [reflexivity|].
  rewrite !count_status_cons. cbn [filter List.length]. rewrite Nat2Z.inj_succ.
  destruct (status_tests_exclusive (status a)) as [Hle _].
  assert (Hpos : 0 <= (if (status a =? "pending")%string then 1 else 0)
                      + (if (status a =? "in_progress")%string then 1 else 0))
    by (destruct (status a =? "pending")%string, (status a =? "in_progress")%string; lia).
  destruct (is_overdue now a) eqn:Hov; cbn [List.length]; [|lia].
  rewrite Nat2Z.inj_succ.
  unfold is_overdue, in_choices in Hov. cbn [existsb] in Hov.
  destruct (due_date a); [|discriminate].
  apply andb_true_iff in Hov as [_ Hov]. apply negb_true_iff in Hov.
  rewrite orb_false_r in Hov. apply orb_false_iff in Hov as [-> ->]. lia.
Qed.

(** [get_task_stats] for an attached user always answers 200, leaves the
    store alone, and its six numbers are consistent: [total] counts the
    caller's tasks; the four status counts add up to at most [total], and to
    exactly [total] when every task of the caller has a listed status;
    completed and cancelled tasks are never overdue, so [overdue + completed
    + cancelled <= total]; and a task is overdue exactly when its due date is
    before the time of the request and its status is neither completed nor
    cancelled. *)
Theorem task_stats_are_consistent (req : request) (now : Z) (s : Store) (user : User) :
  current_user req = Some user ->
  exists total pending in_progress completed cancelled overdue,
    get_task_stats req now s
    = (jsonify [("stats",
                 JObj [("total", JInt total); ("pending", JInt pending);
                       ("in_progress", JInt in_progress); ("completed", JInt completed);
                       ("cancelled", JInt cancelled); ("overdue", JInt overdue)])] 200, s)
    /\ total = Z.of_nat (List.length (tasks_of user s))
    /\ (forall t, In t (tasks_of user s) <-> In t (tasks s) /\ task_user t = user_id user)
    /\ 0 <= pending /\ 0 <= in_progress /\ 0 <= completed /\ 0 <= cancelled /\ 0 <= overdue
    /\ pending + in_progress + completed + cancelled <= total
    /\ ((forall t, In t (tasks_of user s) -> in_choices (status t) status_choices = true) ->
        pending + in_progress + completed + cancelled = total)
    /\ overdue + completed + cancelled <= total
    /\ overdue = Z.of_nat (List.length (filter (is_overdue now) (tasks_of user s)))
    /\ (forall t, is_overdue now t = true <->
                  exists d, due_date t = Some d /\ d < now
                            /\ status t <> "completed" /\ status t <> "cancelled").
Proof.
  intros Hu.
  do 6 eexists. split.
  { unfold get_task_stats, try_except, get_task_stats_body, bind, get_store, ret.
    rewrite Hu. reflexivity. }
  split; [reflexivity|].
  split; [intros t; unfold tasks_of; now rewrite filter_In, N.eqb_eq|].
  repeat (split; [first [apply count_status_nonneg|lia]|]).
  destruct (status_counts_sum (tasks_of user s)) as [Hle Heq].
  split; [exact Hle|]. split; [exact Heq|].
  split; [apply overdue_excludes_closed|]. split; [reflexivity|].
  intros t. unfold is_overdue, in_choices. cbn [existsb].
  destruct (due_date t) as [d|].
  - rewrite andb_true_iff, negb_true_iff, orb_false_r, orb_false_iff, Z.ltb_lt,
      !String.eqb_neq.
    split.
    + intros (Hd & Hc & Hx). exists d. auto.
    + intros (d' & [= <-] & Hd & Hc & Hx). auto.
  - split; [discriminate|]. intros (d & Hd & _). discriminate.
Qed.

(* ------------------------------------------------------------------ *)
(** ** Routes and their guards *)

Lemma verify_token_Some (E : Env) (tok : token) (now : Z) (s : Store) (user : User) :
  verify_token E tok now s = Some user ->
  In user (users s) /\ is_active user = true
  /\ exists payload, tok = Signed (JWT_SECRET_KEY (cfg E)) payload
                     /\ now < claim_exp payload
                     /\ user_id user = claim_user_id payload.
Proof.
  unfold verify_token.
  destruct (jwt_decode tok (JWT_SECRET_KEY (cfg E)) now) as [payload| |] eqn:Hd;
    try discriminate.
  apply jwt_decode_Decoded in Hd as [-> [Hge Hlt]].
  destruct (user_by_id (claim_user_id payload) s) as [u|] eqn:Hu; [|discriminate].
  destruct (is_active u) eqn:Ha; [|discriminate].
  intros [= <-]. unfold user_by_id, find_user in Hu.
  apply find_some in Hu as [Hin Hid]. apply N.eqb_eq in Hid.
  repeat split; auto. exists payload. auto.
Qed.

Lemma guarded_route_unfold (E : Env) (h : handler_name) :
  public_route h = false ->
  route E h = if match h with GetAllTasks => true | _ => false end
              then admin_required E (run_handler E h)
              else auth_required E (run_handler E h).
Proof. destruct h; try discriminate; reflexivity. Qed.

(** The three public routes call their handler as it is.  Every other route
    answers 401 without calling the handler unless the cookie holds a token
    that resolves; the handler then runs on the request with the resolved
    user attached -- a stored, active user, the subject of a token signed with
    the server key and not yet expired -- and for the admin route only when
    that user's role is [admin] (403 otherwise).  Whatever [current_user] the
    incoming request carried plays no part, and a guard's own answer never
    comes with a store change. *)
Theorem guarded_routes_run_for_a_resolved_user_only (E : Env) (h : handler_name)
    (req : request) (now : Z) (s : Store) :
  if public_route h
  then route E h req now s = run_handler E h req now s
  else
    (route E h req now s = (jsonify [("error", JStr "Authentication token required")] 401, s)
     \/ route E h req now s = (jsonify [("error", JStr "Invalid or expired token")] 401, s)
     \/ (h = GetAllTasks
         /\ route E h req now s = (jsonify [("error", JStr "Admin access required")] 403, s))
     \/ exists tok user payload,
          cookie_auth_token req = Some tok
          /\ tok = Signed (JWT_SECRET_KEY (cfg E)) payload
          /\ now < claim_exp payload
          /\ claim_user_id payload = user_id user
          /\ In user (users s) /\ is_active user = true
          /\ (h = GetAllTasks -> role user = "admin")
          /\ route E h req now s
             = run_handler E h
                 (mkRequest (cookie_auth_token req) (get_json req) (args req) (Some user))
                 now s)
    /\ (forall anyone,
           route E h (mkRequest (cookie_auth_token req) (get_json req) (args req) anyone) now s
           = route E h req now s).
Proof.
  destruct (public_route h) eqn:Hpub; [destruct h; try discriminate; reflexivity|].
  rewrite (guarded_route_unfold E h Hpub).
  split.
  - destruct (cookie_auth_token req) as [tok|] eqn:Hc.
    2:{ left. destruct h; unfold admin_required, auth_required; now rewrite Hc. }
    destruct (token_falsy (Some tok)) eqn:Hf.
    { left. destruct h; unfold admin_required, auth_required; now rewrite Hc, Hf. }
    destruct (verify_token E tok now s) as [user|] eqn:Hv.
    2:{ right. left. destruct h; unfold admin_required, auth_required;
        now rewrite Hc, Hf, Hv. }
    destruct (verify_token_Some E tok now s user Hv)
      as (Hin & Hact & payload & Htok & Hexp & Hid).
    assert (Hgo : forall f, auth_required E f req now s
                            = f (with_current_user req user) now s)
      by (intros f; unfold auth_required; now rewrite Hc, Hf, Hv).
    destruct h; try discriminate;
      try (right; right; right; exists tok, user, payload;
           repeat split; auto; try discriminate;
           rewrite Hgo; unfold with_current_user; now rewrite Hc).
    unfold admin_required. rewrite Hc, Hf, Hv.
    destruct (is_admin user) eqn:Hadm; cbn [negb].
    + right. right. right. exists tok, user, payload.
      repeat split; auto;
        first [ intros _; now apply String.eqb_eq
              | unfold with_current_user; now rewrite Hc ].
    + right. right. left. split; reflexivity.
  - intros anyone. destruct h; reflexivity.
Qed.

(* ------------------------------------------------------------------ *)
(** ** Configuration *)

(** [Config] as read from the environment: loading fails (with the
    [ValueError] of [int()]) exactly when [JWT_ACCESS_TOKEN_EXPIRES] is set
    to something that is no integer.  Otherwise the token lifetime is the
    value set, or 3600 when unset; the signing key is never empty (an unset
    or empty [JWT_SECRET_KEY] gives the built-in default); the cookie is
    always HTTP-only and [SameSite=Lax]; and it is [secure] exactly when
    [JWT_COOKIE_SECURE] is set to [true] in any letter case. *)
Theorem config_is_read_with_fallbacks (env : dict string) :
  match load_config env with
  | Ok c =>
      JWT_SECRET_KEY c <> ""
      /\ (forall v, dict_find env "JWT_SECRET_KEY" = Some v -> v <> "" -> JWT_SECRET_KEY c = v)
      /\ (dict_find env "JWT_SECRET_KEY" = None \/ dict_find env "JWT_SECRET_KEY" = Some "" ->
          JWT_SECRET_KEY c = "jwt-secret-change-in-production")
      /\ match dict_find env "JWT_ACCESS_TOKEN_EXPIRES" with
         | None => JWT_ACCESS_TOKEN_EXPIRES c = 3600
         | Some v => int_of_string v = Some (JWT_ACCESS_TOKEN_EXPIRES c)
         end
      /\ JWT_COOKIE_HTTPONLY c = true
      /\ JWT_COOKIE_SAMESITE c = "Lax"
      /\ (JWT_COOKIE_SECURE c = true <->
          exists v, dict_find env "JWT_COOKIE_SECURE" = Some v /\ lower v = "true")
  | Raise e =>
      exists v, dict_find env "JWT_ACCESS_TOKEN_EXPIRES" = Some v
                /\ int_of_string v = None
                /\ e = ValueError_int v
  end.
Proof.
  unfold load_config, rbind.
  destruct (dict_find env "JWT_ACCESS_TOKEN_EXPIRES") as [v|] eqn:Httl.
  - unfold py_int. destruct (int_of_string v) as [z|] eqn:Hz; [|eauto].
    cbn [JWT_SECRET_KEY JWT_ACCESS_TOKEN_EXPIRES JWT_COOKIE_HTTPONLY JWT_COOKIE_SAMESITE
         JWT_COOKIE_SECURE].
    unfold env_or, dict_get_default.
    split; [|split; [|split; [|split; [reflexivity|split; [reflexivity|split; [reflexivity|]]]]]].
    + destruct (dict_find env "JWT_SECRET_KEY") as [k|]; [|discriminate].
      destruct (String.eqb_spec k ""); [discriminate|assumption].
    + intros k Hk Hne. rewrite Hk. now destruct (String.eqb_spec k "").
    + intros [Hk|Hk]; now rewrite Hk.
    + rewrite String.eqb_eq. destruct (dict_find env "JWT_COOKIE_SECURE") as [b|].
      * split; [eauto|]. now intros (b' & [= <-] & Hb).
      * split; [discriminate|]. intros (b' & Hb & _). discriminate.
  - cbn [JWT_SECRET_KEY JWT_ACCESS_TOKEN_EXPIRES JWT_COOKIE_HTTPONLY JWT_COOKIE_SAMESITE
         JWT_COOKIE_SECURE].
    unfold env_or, dict_get_default.
    split; [|split; [|split; [|split; [reflexivity|split; [reflexivity|split; [reflexivity|]]]]]].
    + destruct (dict_find env "JWT_SECRET_KEY") as [k|]; [|discriminate].
      destruct (String.eqb_spec k ""); [discriminate|assumption].
    + intros k Hk Hne. rewrite Hk. now destruct (String.eqb_spec k "").
    + intros [Hk|Hk]; now rewrite Hk.
    + rewrite String.eqb_eq. destruct (dict_find env "JWT_COOKIE_SECURE") as [b|].
      * split; [eauto|]. now intros (b' & [= <-] & Hb).
      * split; [discriminate|]. intros (b' & Hb & _). discriminate.
Qed.

(* ------------------------------------------------------------------ *)
(** ** What registration refuses, and the role it stores *)

Lemma check_required_first_missing (d : dict pyval) (pre post : list string) (f : string) :
  (forall k, In k pre -> truthy (dict_get d k) = true) ->
  truthy (dict_get d f) = false ->
  check_required (Some d) (pre ++ f :: post)
  = Ok (Return (jsonify [("error", JStr (f ++ " is required"))] 400)).
Proof.
  intros Hpre Hf. induction pre as [|k pre IH]; cbn [app check_required data_get rbind].
  - now rewrite Hf.
  - rewrite (Hpre k (or_introl eq_refl)). apply IH. intros k' Hk'. apply Hpre. now right.
Qed.

Lemma check_required_all (d : dict pyval) (fields : list string) :
  (forall k, In k fields -> truthy (dict_get d k) = true) ->
  check_required (Some d) fields = Ok (Next tt).
Proof.
  induction fields as [|k fields IH]; intros H; cbn [check_required data_get rbind];
    [reflexivity|].
  rewrite (H k (or_introl eq_refl)). apply IH. intros k' Hk'. apply H. now right.
Qed.

Lemma find_exists {A : Type} (p : A -> bool) (l : list A) (x : A) :
  In x l -> p x = true -> is_some (find p l) = true.
Proof.
  intros Hin Hp. destruct (find p l) eqn:Hf; [reflexivity|].
  rewrite (find_none p l Hf x Hin) in Hp. discriminate.
Qed.

(** [register], for a JSON object body: the first of [username], [email],
    [password], [name] whose value is missing or falsy is reported with 400
    "<field> is required"; with all four given, a stored user whose email
    equals the body's email string is answered 400 "Email already
    registered", and otherwise a stored user whose username equals the body's
    username string is answered 400 "Username already taken".  None of these
    writes to the store. *)
Theorem register_refuses_incomplete_and_taken (E : Env) (req : request) (now : Z)
    (s : Store) (d : dict pyval) :
  get_json req = Some d ->
  (forall pre f post,
      required_fields = (pre ++ f :: post)%list ->
      (forall k, In k pre -> truthy (dict_get d k) = true) ->
      truthy (dict_get d f) = false ->
      register E req now s = (jsonify [("error", JStr (f ++ " is required"))] 400, s))
  /\ ((forall k, In k required_fields -> truthy (dict_get d k) = true) ->
      forall ev u,
        dict_find d "email" = Some (VStr ev) -> In u (users s) -> email u = ev ->
        register E req now s = (jsonify [("error", JStr "Email already registered")] 400, s))
  /\ ((forall k, In k required_fields -> truthy (dict_get d k) = true) ->
      forall ev uv u,
        dict_find d "email" = Some (VStr ev) ->
        (forall x, In x (users s) -> email x <> ev) ->
        dict_find d "username" = Some (VStr uv) -> In u (users s) -> username u = uv ->
        register E req now s = (jsonify [("error", JStr "Username already taken")] 400, s)).
Proof.
  intros Hj. unfold register. split; [|split].
  - intros pre f post Hfields Hpre Hf. apply try_except_ok.
    unfold register_body, and_then, bind, lift, ret.
    rewrite Hj, Hfields, (check_required_first_missing d pre post f Hpre Hf). reflexivity.
  - intros Hall ev u He Hin Hu. apply try_except_ok.
    unfold register_body, and_then, bind, lift, ret, get_store, data_item, dict_item.
    rewrite Hj, (check_required_all d required_fields Hall), He.
    unfold user_by_email, find_user.
    rewrite (find_exists _ _ u Hin); [reflexivity|]. cbn. now apply String.eqb_eq.
  - intros Hall ev uv u He Hnone Hun Hin Hu. apply try_except_ok.
    unfold register_body, and_then, bind, lift, ret, get_store, data_item, dict_item.
    rewrite Hj, (check_required_all d required_fields Hall), He, Hun,
      (user_by_email_raw ev s Hnone).
    cbn [is_some]. unfold user_by_username, find_user.
    rewrite (find_exists _ _ u Hin); [reflexivity|]. cbn. now apply String.eqb_eq.
Qed.

Lemma get_all_tasks_for_admin (E : Env) (req : request) (now : Z) (s : Store) (user : User) :
  current_user req = Some user -> is_admin user = true ->
  status_code (fst (get_all_tasks E req now s)) = 200
  \/ status_code (fst (get_all_tasks E req now s)) = 500.
Proof.
  intros Hu Ha. unfold get_all_tasks, try_except, get_all_tasks_body, bind, lift, ret,
    get_store.
  rewrite Hu, Ha. cbn [negb].
  destruct (int_arg (args req) "page" 1); [|now right].
  destruct (int_arg (args req) "limit" 10); [|now right].
  cbv zeta. destruct (cursor_window _ _ _ _); [|now right].
  destruct (py_floordiv _ _); [now left|now right].
Qed.

(** [register] stores the role the body names, whatever it is, and ['user']
    when the body names none.  So a caller who registers with role ['admin']
    (no token needed) holds, in the 201 answer, a token that the admin guard
    accepts: until the token expires the admin all-tasks route runs its
    handler for that caller and answers neither 401 nor 403. *)
Theorem registration_grants_the_requested_role (E : Env) (req : request) (now : Z)
    (s s' : Store) (r : response) :
  user_ids_below s ->
  register E req now s = (r, s') ->
  status_code r = 201 ->
  exists d user tok,
    get_json req = Some d
    /\ In user (users s')
    /\ generate_token E user now = Ok tok
    /\ r = token_response E "User registered successfully" user tok 201
    /\ (dict_find d "role" = None -> role user = "user")
    /\ (forall ro, dict_find d "role" = Some (VStr ro) -> role user = ro)
    /\ (role user = "admin" ->
        forall req2 later,
          cookie_auth_token req2 = Some tok ->
          now <= later < now + JWT_ACCESS_TOKEN_EXPIRES (cfg E) ->
          get_all_tasks_route E req2 later s'
          = get_all_tasks E (with_current_user req2 user) later s'
          /\ (status_code (fst (get_all_tasks_route E req2 later s')) = 200
              \/ status_code (fst (get_all_tasks_route E req2 later s')) = 500)).
Proof.
  intros Hids Hreg Hcode. unfold register, try_except in Hreg.
  destruct (register_body E req now s) as [[r0|e] s0] eqn:Hb;
    injection Hreg as <- <-; [|discriminate].
  destruct (register_body_created E req now s s0 r0 Hb Hcode)
    as (d & uv & ev & nv & pv & ro & Hd & _ & _ & _ & _ & Hro & _ & _ & _ & ->
        & tok & Htok & ->).
  set (user := mkUser (next_id s) (strip uv) (strip (lower ev)) (strip nv)
                      (generate_password_hash E pv) ro true now now) in *.
  exists d, user, tok. split; [exact Hd|].
  split; [cbn [users]; apply in_or_app; right; left; reflexivity|].
  split; [exact Htok|]. split; [reflexivity|].
  destruct (string_field_default d "role" "user" ro Hro) as [Hr1 Hr2].
  split; [exact Hr1|]. split; [exact Hr2|].
  intros Hadmin req2 later Hc [Hge Hlt].
  assert (Hv : verify_token E tok later
                 (mkStore (users s ++ [user]) (tasks s) (N.succ (next_id s))) = Some user).
  { rewrite (verify_generated_token _ _ _ _ _ _ Htok).
    destruct (Z.ltb_spec later now); [lia|].
    destruct (Z.leb_spec (now + JWT_ACCESS_TOKEN_EXPIRES (cfg E)) later); [lia|].
    cbn [orb]. unfold user_by_id, find_user. cbn [users].
    change (user_id user) with (next_id s).
    rewrite (find_app_fresh (next_id s) (users s) user Hids eq_refl). reflexivity. }
  assert (Hadm : is_admin user = true) by (unfold is_admin; now apply String.eqb_eq).
  assert (Hf : token_falsy (Some tok) = false)
    by (apply generate_token_Ok in Htok as [-> _]; reflexivity).
  assert (Hroute : get_all_tasks_route E req2 later
                     (mkStore (users s ++ [user]) (tasks s) (N.succ (next_id s)))
                   = get_all_tasks E (with_current_user req2 user) later
                       (mkStore (users s ++ [user]) (tasks s) (N.succ (next_id s)))).
  { unfold get_all_tasks_route, admin_required. rewrite Hc. cbv beta iota.
    now rewrite Hf, Hv, Hadm. }
  rewrite Hroute. split; [reflexivity|].
  now apply (get_all_tasks_for_admin E (with_current_user req2 user) later _ user eq_refl).
Qed.

(* ------------------------------------------------------------------ *)
(** ** The admin listing *)

(** [get_all_tasks] checks the role itself, whatever guard the route has:
    with no user attached, or a user whose role is not [admin], it answers
    403 "Admin access required" and reads nothing.  When it answers 200 the
    attached user is an admin, [limit] is not 0, [total] counts every task in
    the store (the listing is not scoped to an owner), [pages] is
    [(total + limit - 1) // limit], and the tasks shown are those the cursor
    returned for [skip = (page - 1) * limit] and [limit] over all tasks,
    newest first, each with its owner's id, username and email. *)
Theorem admin_list_covers_all_tasks (E : Env) (req : request) (now : Z) (s : Store) :
  (current_user req = None ->
   get_all_tasks E req now s = (jsonify [("error", JStr "Admin access required")] 403, s))
  /\ (forall user,
         current_user req = Some user -> role user <> "admin" ->
         get_all_tasks E req now s
         = (jsonify [("error", JStr "Admin access required")] 403, s))
  /\ (status_code (fst (get_all_tasks E req now s)) = 200 ->
      exists user page limit listed,
        current_user req = Some user /\ role user = "admin"
        /\ int_arg (args req) "page" 1 = Ok page
        /\ int_arg (args req) "limit" 10 = Ok limit
        /\ limit <> 0
        /\ cursor_window E ((page - 1) * limit) limit (newest_first (tasks s)) = Ok listed
        /\ get_all_tasks E req now s
           = (jsonify
                [("tasks", JArr (map (admin_task_json s) listed));
                 ("pagination",
                  JObj [("page", JInt page); ("limit", JInt limit);
                        ("total", JInt (Z.of_nat (List.length (tasks s))));
                        ("pages",
                         JInt ((Z.of_nat (List.length (tasks s)) + limit - 1) / limit))])]
                200, s)).
Proof.
  unfold get_all_tasks, try_except, get_all_tasks_body, bind, lift, ret, get_store.
  split; [intros Hu; now rewrite Hu|]. split.
  - intros user Hu Hrole. rewrite Hu. unfold is_admin.
    destruct (String.eqb_spec (role user) "admin"); [contradiction|reflexivity].
  - destruct (current_user req) as [user|]; [|discriminate].
    unfold is_admin. destruct (String.eqb_spec (role user) "admin") as [Hadm|];
      cbn [negb]; [|discriminate].
    destruct (int_arg (args req) "page" 1) as [page|]; [|discriminate].
    destruct (int_arg (args req) "limit" 10) as [limit|]; [|discriminate].
    cbv zeta.
    destruct (cursor_window E ((page - 1) * limit) limit _) as [listed|] eqn:Hw;
      [|discriminate].
    unfold py_floordiv. destruct (Z.eqb_spec limit 0); [discriminate|].
    intros _. exists user, page, limit, listed. repeat split; auto.
Qed.

(* ------------------------------------------------------------------ *)
(** ** The further properties at concrete requests *)

Lemma sample_user_ids_below : user_ids_below sample_store.
Proof. intros u [<-|[<-|[<-|[]]]]; reflexivity. Defined.

Lemma sample_task_ids_below : task_ids_below sample_store.
Proof. intros t [<-|[<-|[]]]; reflexivity. Defined.

Lemma sample_unique_task_ids : unique_task_ids sample_store.
Proof.
  unfold unique_task_ids. cbn. constructor.
  - intros [H|[]]. discriminate H.
  - constructor; [intros []|constructor].
Defined.

Lemma sample_tasks_within_bounds : forall t, In t (tasks sample_store) -> within_bounds t.
Proof.
  intros t [<-|[<-|[]]]; unfold within_bounds, Z.le; cbn; split; discriminate.
Defined.

(** Alice's token at time 0 under the default lifetime. *)
Lemma alice_is_issued_a_token :
  (exists tok, generate_token (sample_env false) alice 0 = Ok tok)
  /\ datetime_min <= 0 + JWT_ACCESS_TOKEN_EXPIRES (cfg (sample_env false)) <= datetime_max.
Proof.
  assert (H : exists tok, generate_token (sample_env false) alice 0 = Ok tok)
    by (eexists; reflexivity).
  split; [exact H|].
  exact (proj2 (proj1 (proj1 (generate_token_returns_or_overflows (sample_env false) alice 0))
                      H)).
Defined.

(** Carol registers under a token lifetime that ends after the year 9999:
    the answer is 500, and she is in the store. *)
Lemma carol_is_stored_without_a_token :
  register long_lived_env
    (anonymous (register_json "carol" "carol@example.com" "s3cret!" "Carol") [])
    50 sample_store
  = (jsonify [("error", JStr "Registration failed");
              ("details", JStr "date value out of range")] 500,
     mkStore [alice; bob; root;
              mkUser 12%N "carol" "carol@example.com" "Carol" (sample_hash "s3cret!") "user"
                     true 50 50]
             [alice_task; bob_task] 13%N)
  /\ (forall user,
         generate_token long_lived_env user 50
         = Raise (OverflowError "date value out of range"))
  /\ (forall user, exists tok, generate_token (sample_env true) user 50 = Ok tok)
  /\ (forall h req,
         snd (run_handler (sample_env true) h req 50 sample_store) = sample_store
         \/ status_code (fst (run_handler (sample_env true) h req 50 sample_store)) = 200
         \/ status_code (fst (run_handler (sample_env true) h req 50 sample_store)) = 201).
Proof.
  assert (Hok : forall user, exists tok, generate_token (sample_env true) user 50 = Ok tok)
    by (intros user; eexists; reflexivity).
  split; [reflexivity|]. split; [reflexivity|]. split; [exact Hok|].
  intros h req.
  exact (proj2 (proj2 (store_changes_only_with_a_success_answer (sample_env true) h req
                         50 sample_store)) Hok).
Defined.

(** Carol registers at the sample store. *)
Lemma carol_registers_and_resolves :
  user_ids_below sample_store
  /\ status_code
       (fst (register (sample_env true)
               (anonymous (register_json " carol" "Carol@Example.com " "s3cret!" "Carol") [])
               50 sample_store)) = 201
  /\ exists user tok,
       users (snd (register (sample_env true)
                     (anonymous (register_json " carol" "Carol@Example.com " "s3cret!" "Carol")
                                [])
                     50 sample_store))
       = [alice; bob; root; user]
       /\ user_id user = 12%N
       /\ generate_token (sample_env true) user 50 = Ok tok
       /\ verify_token (sample_env true) tok 60
            (snd (register (sample_env true)
                    (anonymous (register_json " carol" "Carol@Example.com " "s3cret!" "Carol")
                               [])
                    50 sample_store))
          = Some user.
Proof.
  split; [exact sample_user_ids_below|]. split; [reflexivity|].
  destruct (registered_user_is_stored_and_resolves (sample_env true)
              (anonymous (register_json " carol" "Carol@Example.com " "s3cret!" "Carol") [])
              50 sample_store _ _ sample_user_ids_below eq_refl eq_refl)
    as (d & uv & ev & nv & pv & user & _ & _ & _ & _ & _ & Hus & _ & Hid & _ & _ & _ & _
        & _ & _ & tok & Htok & _ & Hres).
  exists user, tok. split; [exact Hus|]. split; [exact Hid|]. split; [exact Htok|].
  apply Hres. split; [unfold Z.le; cbn; discriminate|reflexivity].
Defined.

(** Alice logs in with her email in another letter case. *)
Lemma alice_logs_in_by_email :
  get_json (anonymous (login_json "Alice@Example.com" "wonder1") [])
  = Some [("login", VStr "Alice@Example.com"); ("password", VStr "wonder1")]
  /\ "Alice@Example.com" <> "" /\ "wonder1" <> ""
  /\ status_code (fst (login (sample_env false)
                         (anonymous (login_json "Alice@Example.com" "wonder1") [])
                         7 sample_store)) = 200.
Proof.
  assert (Hl : "Alice@Example.com" <> "") by discriminate.
  assert (Hp : "wonder1" <> "") by discriminate.
  split; [reflexivity|]. split; [exact Hl|]. split; [exact Hp|].
  apply (proj1 (login_succeeds_exactly_for_an_active_user (sample_env false)
                  (anonymous (login_json "Alice@Example.com" "wonder1") []) 7 sample_store
                  [("login", VStr "Alice@Example.com"); ("password", VStr "wonder1")]
                  "Alice@Example.com" "wonder1" eq_refl eq_refl Hl eq_refl Hp)).
  exists alice. eexists. repeat split.
Defined.

(** Alice changes her password. *)
Lemma alice_changes_her_password :
  current_user (as_user alice (Some [("current_password", VStr "wonder1");
                                     ("new_password", VStr "rabbit7")]) [])
  = Some alice
  /\ check_password_hash (sample_env false) (password_hash alice) "wonder1" = true
  /\ 6 <= len_str "rabbit7"
  /\ fst (change_password (sample_env false)
            (as_user alice (Some [("current_password", VStr "wonder1");
                                  ("new_password", VStr "rabbit7")]) [])
            9 sample_store)
     = jsonify [("message", JStr "Password changed successfully")] 200.
Proof.
  assert (Hc : "wonder1" <> "") by discriminate.
  assert (Hn : "rabbit7" <> "") by discriminate.
  assert (Hlen : 6 <= len_str "rabbit7") by (unfold Z.le; cbn; discriminate).
  split; [reflexivity|]. split; [reflexivity|]. split; [exact Hlen|].
  exact (proj1 (proj2 (proj2 (change_password_replaces_the_hash (sample_env false)
                                (as_user alice (Some [("current_password", VStr "wonder1");
                                                      ("new_password", VStr "rabbit7")]) [])
                                9 sample_store alice
                                [("current_password", VStr "wonder1");
                                 ("new_password", VStr "rabbit7")]
                                "wonder1" "rabbit7" eq_refl eq_refl eq_refl Hc eq_refl Hn))
                      eq_refl Hlen eq_refl)).
Defined.

(** Alice creates a task. *)
Lemma alice_creates_a_task :
  current_user (as_user alice (Some [("title", VStr " plan ");
                                     ("description", VStr "the plan")]) [])
  = Some alice
  /\ status_code (fst (create_task (sample_env false)
                         (as_user alice (Some [("title", VStr " plan ");
                                               ("description", VStr "the plan")]) [])
                         20 sample_store)) = 201
  /\ exists t,
       tasks (snd (create_task (sample_env false)
                     (as_user alice (Some [("title", VStr " plan ");
                                           ("description", VStr "the plan")]) [])
                     20 sample_store))
       = [alice_task; bob_task; t]
       /\ task_user t = user_id alice /\ completed_at t = None /\ status t = "pending".
Proof.
  split; [reflexivity|]. split; [reflexivity|].
  destruct (created_task_belongs_to_the_caller (sample_env false)
              (as_user alice (Some [("title", VStr " plan ");
                                    ("description", VStr "the plan")]) [])
              20 sample_store alice eq_refl eq_refl)
    as (d & ts & ds & t & Hj & _ & _ & Hs & _ & Hown & _ & _ & _ & _ & _ & Hdone & Hst & _).
  exists t. rewrite Hs. split; [reflexivity|]. split; [exact Hown|]. split; [exact Hdone|].
  apply Hst. injection Hj as <-. reflexivity.
Defined.

(** Alice reads her new task back; Bob cannot. *)
Lemma alice_reads_her_new_task_back :
  task_ids_below sample_store
  /\ current_user (as_user alice (Some [("title", VStr " plan ");
                                        ("description", VStr "the plan")]) [])
     = Some alice
  /\ status_code
       (fst (get_task 12%N (as_user alice None []) 30
               (snd (create_task (sample_env false)
                       (as_user alice (Some [("title", VStr " plan ");
                                             ("description", VStr "the plan")]) [])
                       20 sample_store)))) = 200
  /\ status_code
       (fst (get_task 12%N (as_user bob None []) 30
               (snd (create_task (sample_env false)
                       (as_user alice (Some [("title", VStr " plan ");
                                             ("description", VStr "the plan")]) [])
                       20 sample_store)))) = 404.
Proof.
  split; [exact sample_task_ids_below|]. split; [reflexivity|].
  destruct (created_task_can_be_read_back (sample_env false)
              (as_user alice (Some [("title", VStr " plan ");
                                    ("description", VStr "the plan")]) [])
              20 sample_store alice sample_task_ids_below eq_refl eq_refl)
    as (t & _ & _ & _ & Hmine & Hother).
  split.
  - change 12%N with (next_id sample_store).
    now rewrite (Hmine (as_user alice None []) 30 eq_refl).
  - change 12%N with (next_id sample_store).
    rewrite (Hother bob (as_user bob None []) 30 eq_refl); [reflexivity|discriminate].
Defined.

(** Alice renames her task and raises its priority. *)
Lemma alice_renames_her_task :
  current_user (as_user alice (Some [("title", VStr "rewrite"); ("priority", VStr "high")]) [])
  = Some alice
  /\ task_by_id_of 10%N alice sample_store = Some alice_task
  /\ exists t',
       updated_by (sample_env false) [("title", VStr "rewrite"); ("priority", VStr "high")]
                  100 alice_task t'
       /\ tasks (snd (update_task (sample_env false) 10%N
                        (as_user alice (Some [("title", VStr "rewrite");
                                              ("priority", VStr "high")]) [])
                        100 sample_store))
          = [t'; bob_task].
Proof.
  split; [reflexivity|]. split; [reflexivity|].
  destruct (update_task_changes_only_supplied_fields (sample_env false) alice 10%N
              (as_user alice (Some [("title", VStr "rewrite"); ("priority", VStr "high")]) [])
              100 sample_store alice_task eq_refl eq_refl eq_refl)
    as (d & t' & Hj & Hupd & Hs & _).
  injection Hj as <-. exists t'. split; [exact Hupd|]. rewrite Hs. reflexivity.
Defined.

(** Alice deletes her task. *)
Lemma alice_deletes_her_task :
  current_user (as_user alice None []) = Some alice
  /\ task_by_id_of 10%N alice sample_store = Some alice_task
  /\ delete_task 10%N (as_user alice None []) 7 sample_store
     = (jsonify [("message", JStr "Task deleted successfully")] 200,
        mkStore [alice; bob; root] [bob_task] 12%N).
Proof.
  split; [reflexivity|]. split; [reflexivity|].
  exact (proj1 (deleted_task_is_gone 10%N (as_user alice None []) 7 sample_store
                  alice alice_task eq_refl eq_refl)).
Defined.

(** Bob's task survives whatever Alice sends to [update_task]. *)
Lemma bobs_task_survives_alices_update :
  unique_task_ids sample_store
  /\ current_user (as_user alice (Some [("status", VStr "cancelled")]) []) = Some alice
  /\ task_user bob_task <> user_id alice
  /\ (In bob_task (tasks sample_store) <->
      In bob_task
         (tasks (snd (run_handler (sample_env false) (UpdateTask 11%N)
                        (as_user alice (Some [("status", VStr "cancelled")]) [])
                        7 sample_store)))).
Proof.
  assert (Hne : task_user bob_task <> user_id alice) by discriminate.
  split; [exact sample_unique_task_ids|]. split; [reflexivity|]. split; [exact Hne|].
  exact (other_users_tasks_are_untouched (sample_env false) (UpdateTask 11%N)
           (as_user alice (Some [("status", VStr "cancelled")]) []) 7 sample_store
           alice bob_task sample_unique_task_ids eq_refl Hne).
Defined.

(** The sample store's tasks stay within the limits when Alice renames hers. *)
Lemma sample_tasks_stay_within_bounds :
  (forall t, In t (tasks sample_store) -> within_bounds t)
  /\ (forall t,
         In t (tasks (snd (run_handler (sample_env false) (UpdateTask 10%N)
                             (as_user alice (Some [("title", VStr "rewrite")]) [])
                             100 sample_store))) ->
         within_bounds t).
Proof.
  split; [exact sample_tasks_within_bounds|].
  exact (task_length_limits_are_kept (sample_env false) (UpdateTask 10%N)
           (as_user alice (Some [("title", VStr "rewrite")]) []) 100 sample_store
           sample_tasks_within_bounds).
Defined.

(** Alice lists her tasks one per page. *)
Lemma alice_lists_one_per_page :
  current_user (as_user alice None [("limit", "1")]) = Some alice
  /\ status_code (fst (get_tasks (sample_env false) (as_user alice None [("limit", "1")])
                         7 sample_store)) = 200
  /\ exists page limit listed,
       int_arg (args (as_user alice None [("limit", "1")])) "page" 1 = Ok page
       /\ int_arg (args (as_user alice None [("limit", "1")])) "limit" 10 = Ok limit
       /\ cursor_window (sample_env false) ((page - 1) * limit) limit
            (newest_first (matching (args (as_user alice None [("limit", "1")]))
                                    alice sample_store))
          = Ok listed.
Proof.
  split; [reflexivity|]. split; [reflexivity|].
  destruct (task_list_is_counted_and_scoped (sample_env false)
              (as_user alice None [("limit", "1")]) 7 sample_store alice eq_refl eq_refl)
    as (page & limit & listed & Hp & Hl & _ & Hw & _).
  exists page, limit, listed. auto.
Defined.

(** Alice asks for her statistics. *)
Lemma alice_asks_for_her_stats :
  current_user (as_user alice None []) = Some alice
  /\ exists total pending in_progress completed cancelled overdue,
       get_task_stats (as_user alice None []) 7 sample_store
       = (jsonify [("stats",
                    JObj [("total", JInt total); ("pending", JInt pending);
                          ("in_progress", JInt in_progress); ("completed", JInt completed);
                          ("cancelled", JInt cancelled); ("overdue", JInt overdue)])] 200,
          sample_store)
       /\ pending + in_progress + completed + cancelled <= total.
Proof.
  split; [reflexivity|].
  destruct (task_stats_are_consistent (as_user alice None []) 7 sample_store alice eq_refl)
    as (total & pending & in_progress & completed & cancelled & overdue & Hr & _ & _ & _ & _
        & _ & _ & _ & Hle & _).
  exists total, pending, in_progress, completed, cancelled, overdue. auto.
Defined.

(** A registration without an email. *)
Lemma registration_without_email :
  get_json (anonymous (Some [("username", VStr "dave")]) []) = Some [("username", VStr "dave")]
  /\ register (sample_env false) (anonymous (Some [("username", VStr "dave")]) [])
       7 sample_store
     = (jsonify [("error", JStr "email is required")] 400, sample_store).
Proof.
  split; [reflexivity|].
  apply (proj1 (register_refuses_incomplete_and_taken (sample_env false)
                  (anonymous (Some [("username", VStr "dave")]) []) 7 sample_store
                  [("username", VStr "dave")] eq_refl)
               ["username"] "email" ["password"; "name"] eq_refl).
  - intros k [<-|[]]. reflexivity.
  - reflexivity.
Defined.

(** Mallory registers as an admin. *)
Lemma mallory_registers_as_admin :
  user_ids_below sample_store
  /\ status_code
       (fst (register (sample_env false)
               (anonymous (Some [("username", VStr "mallory"); ("email", VStr "m@x.io");
                                 ("password", VStr "letmein"); ("name", VStr "M");
                                 ("role", VStr "admin")]) [])
               50 sample_store)) = 201
  /\ exists user,
       In user (users (snd (register (sample_env false)
                              (anonymous (Some [("username", VStr "mallory");
                                                ("email", VStr "m@x.io");
                                                ("password", VStr "letmein");
                                                ("name", VStr "M");
                                                ("role", VStr "admin")]) [])
                              50 sample_store)))
       /\ role user = "admin".
Proof.
  split; [exact sample_user_ids_below|]. split; [reflexivity|].
  destruct (registration_grants_the_requested_role (sample_env false)
              (anonymous (Some [("username", VStr "mallory"); ("email", VStr "m@x.io");
                                ("password", VStr "letmein"); ("name", VStr "M");
                                ("role", VStr "admin")]) [])
              50 sample_store _ _ sample_user_ids_below eq_refl eq_refl)
    as (d & user & tok & Hj & Hin & _ & _ & _ & Hrole & _).
  exists user. split; [exact Hin|]. apply Hrole. injection Hj as <-. reflexivity.
Defined.
